(** * Consultancy plan-on-a-page dashboard: calendar, tables and phase views

    A shallow embedding of [MOPAC-G1-Dashboard.py].  The script is a Streamlit
    page: every interaction re-executes it from the top against the
    session-scoped store [st.session_state], which holds two pandas frames,
    [resource_df] (effort days per resource and month) and [deliverables_df]
    (one row of free text per month).

    Conventions of the embedding.
    - A Python call that can raise returns a [result]; the exception classes
      that occur are listed in [exn].
    - Python integers are unbounded, so years, months, counts and slice
      bounds are in [Z]; [datetime.date] takes its arguments as C ints.
    - The month columns of the allocation table are [int64] columns: a
      number cell [VInt z] stands for a 64-bit integer, and the sums that
      pandas computes over them wrap around modulo 2^64 ([wrap64]).
    - A frame is an index (row labels) together with a list of labelled
      columns, in column order; a missing entry (None, NaN) of a frame is
      the cell [VNaN].  Frames are compared by their labels and cells: the
      column types (dtypes) are not carried.
    - The frame returned by [st.data_editor] is an input of the embedding:
      it is whatever the user left in the grid.
    - What only draws the page (title, styling, the formatting of the
      metrics, the CSV download of the table) reads the state and is left
      out; so is the floating-point quotient of the third metric. *)

From Stdlib Require Import ZArith Ascii String Lia.
From stdpp Require Import base decidable option strings numbers list.

Local Open Scope string_scope.
Local Open Scope list_scope.
Local Open Scope Z_scope.

(** ** Python results *)

Inductive exn : Type :=
| ValueError        (* datetime.date out of range, idxmax of an empty Series,
                       update with repeated row labels *)
| KeyError          (* frame[labels] with a label that is no column *)
| TypeError         (* a numeric reduction that meets a text cell *)
| AttributeError    (* st.session_state.<key> for a key that is not set *)
| ZeroDivisionError (* total / len(cols) for an empty column list *)
| OverflowError     (* an argument of datetime.date that is no C int *).

Inductive result (A : Type) : Type :=
| Ok (a : A)
| Raise (e : exn).

Arguments Ok {A} a.
Arguments Raise {A} e.

#[global] Instance result_bind : MBind result := fun A B k r =>
  match r with
  | Ok a => k a
  | Raise e => Raise e
  end.

Fixpoint mapM {A B : Type} (f : A -> result B) (l : list A) : result (list B) :=
  match l with
  | [] => Ok []
  | a :: l' => b ← f a; bs ← mapM f l'; Ok (b :: bs)
  end.

(** ** Python list slices [l[:k]] and [l[k:]]

    A negative bound counts from the end, and every bound is clipped to
    [0, len(l)]: a slice never raises. *)

Definition slice_bound {A : Type} (l : list A) (k : Z) : nat :=
  let n := Z.of_nat (length l) in
  Z.to_nat (Z.min n (Z.max 0 (if k <? 0 then n + k else k))).

Definition slice_to {A : Type} (l : list A) (k : Z) : list A :=
  firstn (slice_bound l k) l.

Definition slice_from {A : Type} (l : list A) (k : Z) : list A :=
  skipn (slice_bound l k) l.

(** ** Calendar generator (lines 25-42) *)

Definition MINYEAR : Z := 1.
Definition MAXYEAR : Z := 9999.

(** A [datetime.date] whose day is always 1 in this program. *)
Record date : Type := Date { year : Z; month : Z }.

(** The arguments of [datetime.date] are converted to C ints (32 bits)
    before they are looked at. *)
Definition INT_MIN : Z := -2147483648.
Definition INT_MAX : Z := 2147483647.

Definition c_int (z : Z) : bool := (INT_MIN <=? z) && (z <=? INT_MAX).

(** [datetime.date(y, m, 1)]: [OverflowError] for an argument that is no C
    int, [ValueError] for a year or a month out of range. *)
Definition date_first (y m : Z) : result date :=
  if negb (c_int y && c_int m) then Raise OverflowError
  else if (MINYEAR <=? y) && (y <=? MAXYEAR) && (1 <=? m) && (m <=? 12)
  then Ok (Date y m)
  else Raise ValueError.

(** [%b]: abbreviated month name (C locale). *)
Definition month_abbr (m : Z) : string :=
  match m with
  | 1 => "Jan" | 2 => "Feb" | 3 => "Mar" | 4 => "Apr"
  | 5 => "May" | 6 => "Jun" | 7 => "Jul" | 8 => "Aug"
  | 9 => "Sep" | 10 => "Oct" | 11 => "Nov" | 12 => "Dec"
  | _ => ""
  end.

Definition digit (d : Z) : ascii := ascii_of_N (48 + Z.to_N d).

(** [%y]: the year without its century, as two digits. *)
Definition two_digits (n : Z) : string :=
  String (digit (n / 10)) (String (digit (n mod 10)) EmptyString).

(** [d.strftime("%b '%y")] *)
Definition strftime_b_y (d : date) : string :=
  month_abbr (month d) +:+ " '" +:+ two_digits (year d mod 100).

(** The "move to next month" branch of the loop body. *)
Definition next_month (current_date : date) : result date :=
  if month current_date =? 12
  then date_first (year current_date + 1) 1
  else date_first (year current_date) (month current_date + 1).

(** The [for _ in range(months_count)] loop: [n] iterations are left,
    [cols] is the list built so far. *)
Fixpoint month_loop (n : nat) (current_date : date) (cols : list string)
  : result (list string) :=
  match n with
  | O => Ok cols
  | S n' =>
      let cols := cols ++ [strftime_b_y current_date] in
      current_date ← next_month current_date;
      month_loop n' current_date cols
  end.

Definition get_month_columns (start_year start_month months_count : Z)
  : result (list string) :=
  current_date ← date_first start_year start_month;
  month_loop (Z.to_nat months_count) current_date [].

(** Lines 40-42 as a function of the four constants of the script:
    [all_months], [phase1_cols], [phase2_cols]. *)
Definition define_columns (start_year start_month months_count first_phase_length : Z)
  : result (list string * list string * list string) :=
  months ← get_month_columns start_year start_month months_count;
  Ok (months, slice_to months first_phase_length, slice_from months first_phase_length).

(** The values of lines 40-42, [get_month_columns()] with its defaults and
    the two slices at 12 (see [script_columns]). *)
Definition all_months : list string :=
  Eval vm_compute in
    match get_month_columns 2025 7 25 with Ok l => l | Raise _ => [] end.

Definition phase1_cols : list string := Eval vm_compute in slice_to all_months 12.
Definition phase2_cols : list string := Eval vm_compute in slice_from all_months 12.

(** ** Frames (the part of pandas the script uses) *)

Inductive label : Type :=
| LStr (s : string)
| LInt (n : Z).

Inductive cell : Type :=
| VInt (z : Z)
| VStr (s : string)
| VNaN.

#[global] Instance label_eq_dec : EqDecision label.
Proof. solve_decision. Defined.

#[global] Instance cell_eq_dec : EqDecision cell.
Proof. solve_decision. Defined.

(** Row labels and labelled columns.  In a frame built by pandas every
    column has one cell per row label ([rectangular] below); row and column
    labels may repeat. *)
Record DataFrame : Type := Frame {
  index : list label;
  columns : list (label * list cell)
}.

#[global] Instance DataFrame_eq_dec : EqDecision DataFrame.
Proof. solve_decision. Defined.

(** A numeric Series: labelled integers, in order. *)
Definition Series : Type := list (label * Z).

Definition rectangular (df : DataFrame) : bool :=
  forallb (fun c => Nat.eqb (length (snd c)) (length (index df))) (columns df).

Definition column_labels (df : DataFrame) : list label := map fst (columns df).

Fixpoint assoc {A : Type} (k : label) (l : list (label * A)) : option A :=
  match l with
  | [] => None
  | (k', v) :: l' => if decide (k = k') then Some v else assoc k l'
  end.

(** Position of a row label in an index. *)
Fixpoint index_pos (r : label) (idx : list label) : option nat :=
  match idx with
  | [] => None
  | r' :: idx' => if decide (r = r') then Some O else S <$> index_pos r idx'
  end.

(** [df.loc[r, c]] where it exists. *)
Definition loc (df : DataFrame) (r c : label) : option cell :=
  vs ← assoc c (columns df);
  p ← index_pos r (index df);
  vs !! p.

(** [pd.RangeIndex(n)] *)
Definition range_index (n : nat) : list label :=
  map (fun i => LInt (Z.of_nat i)) (seq 0 n).

(** [d[k] = v] on a dict, which keeps insertion order. *)
Fixpoint dict_set {A : Type} (k : label) (v : A) (d : list (label * A))
  : list (label * A) :=
  match d with
  | [] => [(k, v)]
  | (k', v') :: d' =>
      if decide (k = k') then (k, v) :: d' else (k', v') :: dict_set k v d'
  end.

(** Every column of [l] that carries the label [k], in column order. *)
Fixpoint columns_named {A : Type} (k : label) (l : list (label * A))
  : list (label * A) :=
  match l with
  | [] => []
  | (k', v) :: l' =>
      if decide (k = k') then (k', v) :: columns_named k l'
      else columns_named k l'
  end.

(** [df[labels]]: for each listed label in turn, the columns of that name
    (all of them when the name is repeated in [df]); [KeyError] for a label
    that names no column. *)
Definition getitem (df : DataFrame) (labels : list label) : result DataFrame :=
  cs ← mapM (fun l => match columns_named l (columns df) with
                      | [] => Raise KeyError
                      | found => Ok found
                      end) labels;
  Ok (Frame (index df) (concat cs)).

(** [df[c] = values], the values being aligned with the rows of [df]. *)
Definition setitem (df : DataFrame) (c : label) (values : list cell) : DataFrame :=
  Frame (index df) (dict_set c values (columns df)).

(** [df.columns = labels] *)
Definition set_columns (df : DataFrame) (labels : list label) : result DataFrame :=
  if Nat.eqb (length labels) (length (columns df))
  then Ok (Frame (index df) (combine labels (map snd (columns df))))
  else Raise ValueError.

(** The cells of row number [i], in column order. *)
Definition row (df : DataFrame) (i : nat) : list cell :=
  map (fun c => nth i (snd c) VNaN) (columns df).

(** [df.T] *)
Definition transpose (df : DataFrame) : DataFrame :=
  Frame (column_labels df) (imap (fun i r => (r, row df i)) (index df)).

(** [a.equals(b)]: the same labels and the same cells, two missing cells
    being equal. *)
Definition equals (a b : DataFrame) : bool := bool_decide (a = b).

(** *** Reductions; missing cells are skipped ([skipna=True])

    The sums are sums of [int64] numbers: they wrap around. *)

Definition INT64_MIN : Z := - 2 ^ 63.
Definition INT64_MAX : Z := 2 ^ 63 - 1.

(** The 64-bit two's complement integer congruent to [z]. *)
Definition wrap64 (z : Z) : Z := (z + 2 ^ 63) mod 2 ^ 64 - 2 ^ 63.

Definition cell_num (c : cell) : result Z :=
  match c with
  | VInt z => Ok z
  | VNaN => Ok 0
  | VStr _ => Raise TypeError
  end.

Fixpoint sum_cells (vs : list cell) : result Z :=
  match vs with
  | [] => Ok 0
  | c :: vs' => x ← cell_num c; s ← sum_cells vs'; Ok (wrap64 (x + s))
  end.

(** [df.sum()]: one sum per column. *)
Definition sum_axis0 (df : DataFrame) : result Series :=
  mapM (fun c => s ← sum_cells (snd c); Ok (fst c, s)) (columns df).

(** [df.sum(axis=1)]: one sum per row, in row order. *)
Definition sum_axis1 (df : DataFrame) : result (list Z) :=
  mapM (fun i => sum_cells (row df i)) (seq 0 (length (index df))).

(** [s.sum()] *)
Definition series_sum (s : Series) : Z :=
  fold_right (fun p acc => wrap64 (snd p + acc)) 0 s.

(** [s.max()]; the maximum of an empty Series is NaN. *)
Definition series_max (s : Series) : cell :=
  match s with
  | [] => VNaN
  | p :: s' => VInt (fold_left (fun m q => Z.max m (snd q)) s' (snd p))
  end.

(** [s.idxmax()]: the label of the first occurrence of the maximum. *)
Fixpoint argmax_from (best : label * Z) (s : Series) : label * Z :=
  match s with
  | [] => best
  | p :: s' => argmax_from (if snd best <? snd p then p else best) s'
  end.

Definition idxmax (s : Series) : result label :=
  match s with
  | [] => Raise ValueError
  | p :: s' => Ok (fst (argmax_from p s'))
  end.

(** *** [self.update(other)]

    [other] is re-indexed on the rows of [self]; then every column of [self]
    that [other] has too takes the non-missing cells of [other].  The
    re-indexing raises [ValueError] when a row label is repeated in [other]
    (and the rows of [other] are not the very rows of [self]): [update]
    below is the frame that the method leaves when it does not raise, and
    [DataFrame_update] is the method with its fault. *)

Definition isna (c : cell) : bool :=
  match c with VNaN => true | _ => false end.

(** One column of [other.reindex(new_index)]: the cell of each new row
    label, missing when [other] has no such row. *)
Definition reindex_column (old_index new_index : list label) (vs : list cell)
  : list cell :=
  map (fun r => match index_pos r old_index with
                | Some p => nth p vs VNaN
                | None => VNaN
                end) new_index.

Definition reindex (other : DataFrame) (new_index : list label) : DataFrame :=
  Frame new_index
    (map (fun c => (fst c, reindex_column (index other) new_index (snd c)))
         (columns other)).

(** [this.where(mask, that)]: [this] where the mask holds, else [that];
    the three have one entry per row. *)
Fixpoint where_ (this : list cell) (mask : list bool) (that : list cell) : list cell :=
  match this, mask, that with
  | t :: this', m :: mask', o :: that' =>
      (if m then t else o) :: where_ this' mask' that'
  | _, _, _ => this
  end.

(** The body of the loop over the common columns. *)
Definition update_column (this that : list cell) : list cell :=
  let mask := map isna that in
  if forallb id mask then this     (* nothing to overwrite: [continue] *)
  else where_ this mask that.

Definition update (self other : DataFrame) : DataFrame :=
  let other := reindex other (index self) in
  Frame (index self)
    (map (fun c =>
            match assoc (fst c) (columns other) with
            | None => c
            | Some that => (fst c, update_column (snd c) that)
            end)
         (columns self)).

(** [other.reindex(self.index)] succeeds. *)
Definition can_reindex (self other : DataFrame) : bool :=
  bool_decide (NoDup (index other)) || bool_decide (index other = index self).

Definition DataFrame_update (self other : DataFrame) : result DataFrame :=
  if can_reindex self other then Ok (update self other) else Raise ValueError.

(** ** Session state and initialisation (lines 44-63) *)

(** The two keys the script keeps in [st.session_state]; [None] is a key
    that is not set. *)
Record session_state : Type := Session {
  resource_df : option DataFrame;
  deliverables_df : option DataFrame
}.

#[global] Instance session_state_eq_dec : EqDecision session_state.
Proof. solve_decision. Defined.

Definition empty_session : session_state := Session None None.

Definition seed_data : list (label * list cell) :=
  [ (LStr "Resource",
     [VStr "Sarah Jenkins"; VStr "David Chen"; VStr "Priya Patel";
      VStr "Marcus Johnson"; VStr "Analyst Pool"]);
    (LStr "Role",
     [VStr "Partner"; VStr "Engagement Mgr"; VStr "Senior Associate";
      VStr "Associate"; VStr "Analyst Support"]);
    (LStr "Grade", [VStr "L1"; VStr "L3"; VStr "L4"; VStr "L5"; VStr "L6"]) ].

(** The dict [data] after the loop [for month in all_months]. *)
Definition resource_data (months : list string) : list (label * list cell) :=
  fold_left
    (fun data month => dict_set (LStr month) [VInt 0; VInt 0; VInt 0; VInt 0; VInt 0] data)
    months seed_data.

(** [if 'resource_df' not in st.session_state: ...] *)
Definition init_resource_df (months : list string) (st : session_state) : session_state :=
  match resource_df st with
  | Some _ => st
  | None => Session (Some (Frame (range_index 5) (resource_data months)))
                    (deliverables_df st)
  end.

(** [if 'deliverables_df' not in st.session_state: ...] *)
Definition init_deliverables_df (months : list string) (st : session_state) : session_state :=
  match deliverables_df st with
  | Some _ => st
  | None =>
      Session (resource_df st)
              (Some (Frame [LStr "Key Deliverables"]
                           (combine (map LStr months)
                                    (map (fun v => [v]) (repeat (VStr "") (length months))))))
  end.

(** Lines 45-63. *)
Definition initialize (st : session_state) : session_state :=
  init_deliverables_df all_months (init_resource_df all_months st).

Definition get_resource_df (st : session_state) : result DataFrame :=
  match resource_df st with Some df => Ok df | None => Raise AttributeError end.

Definition get_deliverables_df (st : session_state) : result DataFrame :=
  match deliverables_df st with Some df => Ok df | None => Raise AttributeError end.

(** ** Phase view (lines 82-162) *)

(** The integer metrics of the "Phase Summary".  The third metric, the
    average burn rate, is the float quotient [total_days_phase / len(cols)]
    formatted to one decimal: only its division is kept. *)
Record summary : Type := Summary {
  total_days_phase : Z;
  busy_month : label;
  busy_count : cell
}.

(** How a pass through [render_phase_view] ends: [st.rerun()] stops the
    script and asks for a fresh run, otherwise the summary is shown. *)
Inductive outcome : Type :=
| Rerun (st : session_state)
| Done (st : session_state) (s : summary).

Definition outcome_state (o : outcome) : session_state :=
  match o with Rerun st => st | Done st _ => st end.

(** [totals = st.session_state.resource_df[cols].sum()] *)
Definition month_totals (resource : DataFrame) (cols : list label) : result Series :=
  view ← getitem resource cols;
  sum_axis0 view.

(** Step 1: the display projection with its computed "Phase Total". *)
Definition display_projection (resource : DataFrame) (cols : list label) : result DataFrame :=
  let display_cols := [LStr "Resource"; LStr "Role"] ++ cols in
  df_view ← getitem resource display_cols;
  sub ← getitem df_view cols;
  phase_total ← sum_axis1 sub;
  Ok (setitem df_view (LStr "Phase Total") (map VInt phase_total)).

(** [data_editor key shown] is the frame that [st.data_editor] returns for
    the widget [key] when it is given [shown].  The styling of step 2 only
    colours the grid and is left out.  The allocation table is written in
    one place, the [update] of step 4, which writes nothing when it raises,
    and nothing after it can fail before [st.rerun()]: a pass that ends in a
    fault has not touched the table. *)
Definition render_phase_view
    (data_editor : string -> DataFrame -> DataFrame)
    (cols : list string) (phase_name : string) (st : session_state)
  : result outcome :=
  let cols := map LStr cols in
  resource ← get_resource_df st;
  df_view ← display_projection resource cols;
  let edited_df := data_editor ("editor_" +:+ phase_name) df_view in
  if negb (equals edited_df df_view) then
    (* 4. update state *)
    patch ← getitem edited_df cols;
    resource ← DataFrame_update resource patch;
    Ok (Rerun (Session (Some resource) (deliverables_df st)))
  else
    (* 5. monthly totals and deliverables *)
    totals ← month_totals resource cols;
    deliverables ← get_deliverables_df st;
    del_cols ← getitem deliverables cols;
    del_view ← set_columns (transpose del_cols) [LStr "Deliverable Description"];
    let edited_deliverables := data_editor ("del_editor_" +:+ phase_name) del_view in
    st ← (if negb (equals edited_deliverables del_view)
          then deliverables ← DataFrame_update deliverables
                                (transpose edited_deliverables);
               Ok (Session (resource_df st) (Some deliverables))
          else Ok st);
    (* 6. quick stats *)
    let total := series_sum totals in
    peak ← idxmax totals;
    let count := series_max totals in
    if Nat.eqb (length cols) 0 then Raise ZeroDivisionError
    else Ok (Done st (Summary total peak count)).

(** [grand_total = st.session_state.resource_df[all_months].sum().sum()] *)
Definition grand_total (st : session_state) : result Z :=
  resource ← get_resource_df st;
  totals ← month_totals resource (map LStr all_months);
  Ok (series_sum totals).

(** ** One run of the script

    Initialisation, the two tabs, and the footer.  Both tabs are rendered
    in every run unless the first one asks for a rerun. *)

Inductive run_result : Type :=
| Rerun_requested (st : session_state)
| Page (st : session_state) (year1 year2 : summary) (total : Z).

Definition run_state (r : run_result) : session_state :=
  match r with Rerun_requested st => st | Page st _ _ _ => st end.

Definition script (data_editor : string -> DataFrame -> DataFrame) (st : session_state)
  : result run_result :=
  let st := initialize st in
  tab1 ← render_phase_view data_editor phase1_cols "Year 1" st;
  match tab1 with
  | Rerun st => Ok (Rerun_requested st)
  | Done st year1 =>
      tab2 ← render_phase_view data_editor phase2_cols "Year 2" st;
      match tab2 with
      | Rerun st => Ok (Rerun_requested st)
      | Done st year2 =>
          total ← grand_total st;
          Ok (Page st year1 year2 total)
      end
  end.

(** The session states the page can be in when the grids behave as [E]
    says: the empty session, and the state left by a run of the script from
    such a state. *)
Inductive reachable_with (E : (string -> DataFrame -> DataFrame) -> Prop)
  : session_state -> Prop :=
| reachable_start : reachable_with E empty_session
| reachable_run data_editor st r :
    E data_editor ->
    reachable_with E st ->
    script data_editor st = Ok r ->
    reachable_with E (run_state r).

(** Whatever the grids return. *)
Definition reachable : session_state -> Prop := reachable_with (fun _ => True).

(** ** Sample editors and sessions *)

(** The user leaves every grid as it is shown. *)
Definition no_edit (key : string) (shown : DataFrame) : DataFrame := shown.

(** The user types the cells of [typed] into the Phase 1 grid. *)
Definition phase1_edit (typed : DataFrame) (key : string) (shown : DataFrame)
  : DataFrame :=
  if decide (key = "editor_Year 1") then update shown typed else shown.

(** Analyst Pool (row 4) gets 10 days in July 2025 and 5 in August 2025. *)
Definition analyst_pool_edit : string -> DataFrame -> DataFrame :=
  phase1_edit (Frame [LInt 4] [(LStr "Jul '25", [VInt 10]);
                               (LStr "Aug '25", [VInt 5])]).

(** Sarah Jenkins (row 0) gets -3 days in July 2025. *)
Definition negative_edit : string -> DataFrame -> DataFrame :=
  phase1_edit (Frame [LInt 0] [(LStr "Jul '25", [VInt (-3)])]).

(** The user empties the July 2025 cell of row 0 in the Phase 1 grid and
    types 7 into the cell below. *)
Definition cleared_edit (key : string) (shown : DataFrame) : DataFrame :=
  if decide (key = "editor_Year 1")
  then setitem shown (LStr "Jul '25") [VNaN; VInt 7; VInt 0; VInt 0; VInt 0]
  else shown.

(** The table and the session as initialisation makes them. *)
Definition seeded_table : DataFrame :=
  Frame (range_index 5) (resource_data all_months).

Definition seeded_deliverables : DataFrame :=
  Frame [LStr "Key Deliverables"]
        (combine (map LStr all_months)
                 (map (fun v => [v]) (repeat (VStr "") (length all_months)))).

Definition seeded_session : session_state := initialize empty_session.

(** The session after the analyst pool edit has been reconciled. *)
Definition planned_session : session_state :=
  Eval vm_compute in
  match script analyst_pool_edit empty_session with
  | Ok r => run_state r
  | Raise _ => empty_session
  end.

(** What the first pass through the Phase 1 view makes of the cleared
    cell. *)
Definition cleared_outcome : outcome :=
  Eval vm_compute in
  match render_phase_view cleared_edit phase1_cols "Year 1" seeded_session with
  | Ok o => o
  | Raise _ => Rerun empty_session
  end.

(** The user types "Kick-off" as the deliverable of July 2025 in the
    Phase 1 deliverables grid. *)
Definition deliverable_edit (key : string) (shown : DataFrame) : DataFrame :=
  if decide (key = "del_editor_Year 1")
  then update shown (Frame [LStr "Jul '25"]
                       [(LStr "Deliverable Description", [VStr "Kick-off"])])
  else shown.

(** What the pass through the Phase 1 view makes of that deliverable. *)
Definition deliverable_outcome : outcome :=
  Eval vm_compute in
  match render_phase_view deliverable_edit phase1_cols "Year 1" seeded_session with
  | Ok o => o
  | Raise _ => Rerun empty_session
  end.

(** The Phase 1 grid comes back with 40 as the "Phase Total" of row 0 and
    its month cells as they were shown. *)
Definition phase_total_edit (key : string) (shown : DataFrame) : DataFrame :=
  if decide (key = "editor_Year 1")
  then update shown (Frame [LInt 0] [(LStr "Phase Total", [VInt 40])])
  else shown.

(** The analyst pool edit in the Phase 1 grid and, in the same run, 2 days
    for row 0 in July 2026 in the Phase 2 grid. *)
Definition both_phases_edit (key : string) (shown : DataFrame) : DataFrame :=
  if decide (key = "editor_Year 1") then analyst_pool_edit key shown
  else if decide (key = "editor_Year 2")
       then update shown (Frame [LInt 0] [(LStr "Jul '26", [VInt 2])])
       else shown.

(** A table with two cells of 2^62 days in July 2025 and one day in August
    2025: the days of July 2025 add up to 2^63, one more than [int64]
    holds. *)
Definition heavy_table : DataFrame :=
  setitem
    (setitem seeded_table (LStr "Jul '25")
       [VInt (2 ^ 62); VInt (2 ^ 62); VInt 0; VInt 0; VInt 0])
    (LStr "Aug '25") [VInt 1; VInt 0; VInt 0; VInt 0; VInt 0].

Definition heavy_session : session_state :=
  Session (Some heavy_table) (Some seeded_deliverables).

(** A table with 2^63 - 1 days in July 2025 (Phase 1) and one day in July
    2026 (Phase 2). *)
Definition split_table : DataFrame :=
  setitem
    (setitem seeded_table (LStr "Jul '25")
       [VInt (2 ^ 63 - 1); VInt 0; VInt 0; VInt 0; VInt 0])
    (LStr "Jul '26") [VInt 1; VInt 0; VInt 0; VInt 0; VInt 0].

Definition split_session : session_state :=
  Session (Some split_table) (Some seeded_deliverables).

(** The table of the planned session: Analyst Pool has 10 days in July 2025
    and 5 in August 2025. *)
Definition planned_table : DataFrame :=
  Eval vm_compute in default seeded_table (resource_df planned_session).

(** What the Phase 1 view shows of the planned table: the month totals and
    the display projection. *)
Definition planned_totals : Series :=
  Eval vm_compute in
  match month_totals planned_table (map LStr phase1_cols) with
  | Ok totals => totals
  | Raise _ => []
  end.

Definition planned_view : DataFrame :=
  Eval vm_compute in
  match display_projection planned_table (map LStr phase1_cols) with
  | Ok df_view => df_view
  | Raise _ => planned_table
  end.

(** What the Phase 1 view shows of the seeded table. *)
Definition seeded_view : DataFrame :=
  Eval vm_compute in
  match display_projection seeded_table (map LStr phase1_cols) with
  | Ok df_view => df_view
  | Raise _ => seeded_table
  end.

(** ** Vocabulary of the specification *)

(** The calendar month after [d]. *)
Definition succ_month (d : date) : date :=
  if month d =? 12 then Date (year d + 1) 1 else Date (year d) (month d + 1).

(** [n] consecutive calendar months, the first being [d]. *)
Fixpoint months_from (d : date) (n : nat) : list date :=
  match n with
  | O => []
  | S n' => d :: months_from (succ_month d) n'
  end.

(** The calendar month [n] months after [d]. *)
Fixpoint add_months (n : nat) (d : date) : date :=
  match n with
  | O => d
  | S n' => add_months n' (succ_month d)
  end.

(** Months counted from January of year 0. *)
Definition month_number (d : date) : Z := 12 * year d + (month d - 1).

Definition valid_date (d : date) : Prop :=
  MINYEAR <= year d <= MAXYEAR /\ 1 <= month d <= 12.

(** What a cell counts for in a sum: its days, a missing cell nothing. *)
Definition cell_days (c : cell) : Z :=
  match c with VInt z => z | _ => 0 end.

Definition is_text (c : cell) : bool :=
  match c with VStr _ => true | _ => false end.

Definition zsum (l : list Z) : Z := fold_right Z.add 0 l.

(** The sum of all cells of a frame. *)
Definition all_cells_sum (df : DataFrame) : Z :=
  zsum (map cell_days (concat (map snd (columns df)))).

(** Every month of [months] has a column in [df], with one cell per row and
    no missing cell. *)
Definition no_missing_cell (months : list string) (df : DataFrame) : bool :=
  forallb (fun m => match assoc (LStr m) (columns df) with
                    | Some vs => Nat.eqb (length vs) (length (index df))
                                 && forallb (fun c => negb (isna c)) vs
                    | None => false
                    end) months.

(** [after] is [before] except for the cells of the columns [cols]. *)
Definition untouched_outside (cols : list string) (before after : DataFrame) : Prop :=
  index after = index before /\
  column_labels after = column_labels before /\
  forall c : label, c ∉ map LStr cols ->
    assoc c (columns after) = assoc c (columns before).

(** Every column has [n] cells. *)
Definition rectangular_columns (n : nat) (cs : list (label * list cell)) : Prop :=
  Forall (fun col => length col.2 = n) cs.

(** The column [c] of [df] exists and holds numbers or missing entries. *)
Definition numeric_column (df : DataFrame) (c : label) : Prop :=
  exists vs, assoc c (columns df) = Some vs /\
             Forall (fun v => is_text v = false) vs.

#[global] Instance numeric_column_dec (df : DataFrame) (c : label) :
  Decision (numeric_column df c).
Proof.
  unfold numeric_column. destruct (assoc c (columns df)) as [vs|].
  - destruct (decide (Forall (fun v => is_text v = false) vs)) as [H|H].
    + left. by exists vs.
    + right. intros (vs' & [= <-] & H'). done.
  - right. by intros (vs & [=] & _).
Defined.

(** An allocation table as pandas and the script keep it: one cell per row
    in every column, no column name twice, the two name columns of the
    display, and a number column for every month. *)
Definition table_ok (df : DataFrame) : Prop :=
  rectangular df = true /\
  NoDup (column_labels df) /\
  is_Some (assoc (LStr "Resource") (columns df)) /\
  is_Some (assoc (LStr "Role") (columns df)) /\
  forall m, m ∈ all_months -> numeric_column df (LStr m).

(** A deliverables table: one row, and a column for every month. *)
Definition deliverables_ok (df : DataFrame) : Prop :=
  length (index df) = 1%nat /\
  forall m, m ∈ all_months -> is_Some (assoc (LStr m) (columns df)).

Definition session_ok (st : session_state) : Prop :=
  (forall df, resource_df st = Some df -> table_ok df) /\
  (forall df, deliverables_df st = Some df -> deliverables_ok df).

(** What the grid of [st.data_editor] guarantees: a number column that is
    shown comes back as a number column (its cells are numbers or are
    missing; text cannot be typed into it). *)
Definition numeric_editor (data_editor : string -> DataFrame -> DataFrame) : Prop :=
  forall key shown c,
    numeric_column shown c -> numeric_column (data_editor key shown) c.

(** The days of column [c] of [df], summed over the rows. *)
Definition column_days (df : DataFrame) (c : label) : Z :=
  zsum (map cell_days (default [] (assoc c (columns df)))).

(** The days of row number [i] of [df] under the columns [cols]. *)
Definition row_days (df : DataFrame) (cols : list label) (i : nat) : Z :=
  zsum (map (fun c => cell_days (nth i (default [] (assoc c (columns df))) VNaN))
            cols).

(** The days under the columns [cols], each counted without its sign: when
    this is within [int64], no sum over these columns wraps around. *)
Definition days_magnitude (df : DataFrame) (cols : list label) : Z :=
  zsum (map (fun c => zsum (map (fun v => Z.abs (cell_days v))
                                (default [] (assoc c (columns df)))))
            cols).

Definition int64 (z : Z) : Prop := INT64_MIN <= z <= INT64_MAX.

(** What the grid of [st.data_editor] returns with its default fixed rows:
    the rows and the columns it is shown, with numbers or missing cells in
    the number columns. *)
Definition grid_editor (data_editor : string -> DataFrame -> DataFrame) : Prop :=
  numeric_editor data_editor /\
  (forall key shown, index (data_editor key shown) = index shown) /\
  (forall key shown, column_labels (data_editor key shown) = column_labels shown).

(** The month column that initialisation writes. *)
Definition zeros : list cell := [VInt 0; VInt 0; VInt 0; VInt 0; VInt 0].

(** A grid with a fixed set of columns returns the columns it is shown. *)
Definition keeps_columns (data_editor : string -> DataFrame -> DataFrame) : Prop :=
  forall key shown, column_labels (data_editor key shown) = column_labels shown.

(** * Properties *)

(** ** The result monad *)

Lemma bind_Ok {A B : Type} (r : result A) (k : A -> result B) (b : B) :
  r ≫= k = Ok b -> exists a, r = Ok a /\ k a = Ok b.
Proof. destruct r as [a|e]; simpl; [eauto | discriminate]. Qed.

Lemma Ok_bind {A B : Type} (a : A) (k : A -> result B) : Ok a ≫= k = k a.
Proof. reflexivity. Qed.

Ltac inv_bind H :=
  let a := fresh "a" in
  let Ha := fresh "H" a in
  apply bind_Ok in H; destruct H as (a & Ha & H).

Ltac inv_bind_as H a Ha :=
  apply bind_Ok in H; destruct H as (a & Ha & H).

(** ** Calendar *)

Section Calendar.

Lemma date_first_valid (y m : Z) :
  MINYEAR <= y <= MAXYEAR -> 1 <= m <= 12 -> date_first y m = Ok (Date y m).
Proof.
  intros Hy Hm. unfold date_first, c_int, INT_MIN, INT_MAX, MINYEAR, MAXYEAR in *.
  by rewrite !(proj2 (Z.leb_le _ _)) by lia.
Qed.

Lemma succ_month_number (d : date) :
  1 <= month d <= 12 -> month_number (succ_month d) = month_number d + 1.
Proof.
  intros Hm. unfold succ_month, month_number.
  destruct (Z.eqb_spec (month d) 12); simpl; lia.
Qed.

Lemma succ_month_valid (d : date) :
  valid_date d -> month_number d + 1 <= 12 * MAXYEAR + 11 -> valid_date (succ_month d).
Proof.
  unfold valid_date, succ_month, month_number, MINYEAR, MAXYEAR.
  intros [Hy Hm] Hn. destruct (Z.eqb_spec (month d) 12); simpl; lia.
Qed.

Lemma next_month_succ (d : date) :
  valid_date d -> month_number d + 1 <= 12 * MAXYEAR + 11 ->
  next_month d = Ok (succ_month d).
Proof.
  intros Hd Hn. pose proof (succ_month_valid d Hd Hn) as [Hy Hm].
  unfold next_month, succ_month in *.
  destruct (Z.eqb_spec (month d) 12); simpl in *; by apply date_first_valid.
Qed.

Lemma month_loop_spec (n : nat) : forall (d : date) (cols : list string),
  valid_date d -> month_number d + Z.of_nat n <= 12 * MAXYEAR + 11 ->
  month_loop n d cols = Ok (cols ++ map strftime_b_y (months_from d n)).
Proof.
  induction n as [|n IH]; intros d cols Hd Hn; simpl.
  - by rewrite app_nil_r.
  - rewrite next_month_succ by (auto; lia). simpl.
    rewrite IH.
    + by rewrite <- app_assoc.
    + apply succ_month_valid; [done | lia].
    + rewrite succ_month_number by apply Hd. lia.
Qed.

Lemma months_from_length (n : nat) (d : date) : length (months_from d n) = n.
Proof. revert d; induction n as [|n IH]; intros d; simpl; [done | by rewrite IH]. Qed.

Lemma months_from_consecutive (n : nat) : forall (d : date) (i : nat) (a b : date),
  months_from d n !! i = Some a -> months_from d n !! S i = Some b -> b = succ_month a.
Proof.
  induction n as [|n IH]; intros d i a b Ha Hb; [done|].
  destruct i as [|i]; simpl in *.
  - destruct n; simpl in *; congruence.
  - eapply IH; eauto.
Qed.

Lemma months_from_number (n : nat) : forall (d : date) (i : nat) (a : date),
  1 <= month d <= 12 ->
  months_from d n !! i = Some a ->
  1 <= month a <= 12 /\ month_number a = month_number d + Z.of_nat i.
Proof.
  induction n as [|n IH]; intros d i a Hd Ha; [done|].
  destruct i as [|i]; simpl in Ha.
  - inversion Ha; subst. lia.
  - apply IH in Ha.
    + rewrite succ_month_number in Ha by done. lia.
    + unfold succ_month. destruct (Z.eqb_spec (month d) 12); simpl; lia.
Qed.

(** The label keeps the month and the last two digits of the year. *)

Ltac month_cases m E :=
  assert (E : m = 1 \/ m = 2 \/ m = 3 \/ m = 4 \/ m = 5 \/ m = 6 \/
              m = 7 \/ m = 8 \/ m = 9 \/ m = 10 \/ m = 11 \/ m = 12) by lia;
  repeat (destruct E as [E|E]); rewrite E.

Lemma digit_inj (a b : Z) : 0 <= a <= 9 -> 0 <= b <= 9 -> digit a = digit b -> a = b.
Proof.
  intros Ha Hb H. unfold digit in H.
  apply (f_equal N_of_ascii) in H.
  rewrite !N_ascii_embedding in H by lia. lia.
Qed.

Lemma two_digits_inj (a b : Z) :
  0 <= a < 100 -> 0 <= b < 100 -> two_digits a = two_digits b -> a = b.
Proof.
  intros Ha Hb H. unfold two_digits in H. injection H as H1 H0.
  pose proof (Z.div_mod a 10 ltac:(lia)) as Ea.
  pose proof (Z.div_mod b 10 ltac:(lia)) as Eb.
  pose proof (Z.mod_pos_bound a 10 ltac:(lia)).
  pose proof (Z.mod_pos_bound b 10 ltac:(lia)).
  apply digit_inj in H1; [| lia..].
  apply digit_inj in H0; [| lia..].
  lia.
Qed.

Lemma string_app_inv_head (p s1 s2 : string) : p +:+ s1 = p +:+ s2 -> s1 = s2.
Proof. induction p as [|c p IH]; simpl; intros H; [done | injection H as H; auto]. Qed.

Lemma strftime_b_y_inj (a b : date) :
  1 <= month a <= 12 -> 1 <= month b <= 12 ->
  strftime_b_y a = strftime_b_y b ->
  month a = month b /\ year a mod 100 = year b mod 100.
Proof.
  intros Ha Hb. unfold strftime_b_y.
  pose proof (Z.mod_pos_bound (year a) 100 ltac:(lia)) as Ya.
  pose proof (Z.mod_pos_bound (year b) 100 ltac:(lia)) as Yb.
  month_cases (month a) Ea; month_cases (month b) Eb;
    cbn [month_abbr]; intros H; try discriminate H;
    (split; [reflexivity|]);
    do 2 apply string_app_inv_head in H; by apply two_digits_inj.
Qed.

Lemma label_repeats_mod_1200 (a b : date) :
  1 <= month a <= 12 -> 1 <= month b <= 12 ->
  strftime_b_y a = strftime_b_y b ->
  (month_number a - month_number b) mod 1200 = 0.
Proof.
  intros Ha Hb H. destruct (strftime_b_y_inj a b Ha Hb H) as [Hm Hy].
  unfold month_number. rewrite Hm.
  replace (12 * year a + (month b - 1) - (12 * year b + (month b - 1)))
    with (12 * (year a - year b)) by lia.
  assert (Hd : (year a - year b) mod 100 = 0).
  { rewrite Zminus_mod, Hy, Z.sub_diag. reflexivity. }
  apply Z.mod_divide in Hd; [|lia]. destruct Hd as [q Hq].
  rewrite Hq. replace (12 * (q * 100)) with (q * 1200) by lia.
  apply Z.mod_mul. lia.
Qed.

Lemma months_from_labels_NoDup (n : nat) (d : date) :
  1 <= month d <= 12 -> (n <= 1200)%nat ->
  NoDup (map strftime_b_y (months_from d n)).
Proof.
  intros Hd Hn. apply NoDup_alt. intros i j s Hi Hj.
  rewrite list_lookup_fmap in Hi, Hj.
  destruct (months_from d n !! i) as [a|] eqn:Ea; [|done].
  destruct (months_from d n !! j) as [b|] eqn:Eb; [|done].
  simpl in Hi, Hj. injection Hi as Hi. injection Hj as Hj.
  pose proof (lookup_lt_Some _ _ _ Ea) as Li.
  pose proof (lookup_lt_Some _ _ _ Eb) as Lj.
  rewrite months_from_length in Li, Lj.
  destruct (months_from_number n d i a Hd Ea) as [Ha Na].
  destruct (months_from_number n d j b Hd Eb) as [Hb Nb].
  assert (H : (month_number a - month_number b) mod 1200 = 0).
  { apply label_repeats_mod_1200; [done..|congruence]. }
  rewrite Na, Nb in H.
  replace (month_number d + Z.of_nat i - (month_number d + Z.of_nat j))
    with (Z.of_nat i - Z.of_nat j) in H by lia.
  apply Z.mod_divide in H; [|lia]. destruct H as [q Hq]. lia.
Qed.

End Calendar.

(** The constants of the script: 25 months from July 2025, cut after 12. *)
Lemma script_columns :
  define_columns 2025 7 25 12 = Ok (all_months, phase1_cols, phase2_cols).
Proof. reflexivity. Qed.

(** C4, as stated, fails: a start year outside the range of [datetime.date]
    raises, and since the label keeps two digits of the year, the 1201st
    label repeats the first. *)
Lemma get_month_columns_repeats_after_a_century :
  get_month_columns 0 1 1 = Raise ValueError /\
  exists labels : list string,
    get_month_columns 2025 7 1201 = Ok labels /\
    labels !! 0%nat = Some "Jul '25" /\
    labels !! 1200%nat = Some "Jul '25" /\
    ~ NoDup labels.
Proof.
  split; [reflexivity|].
  eexists. split; [vm_compute; reflexivity|].
  assert (H0 : forall l : list string, l !! 0%nat = Some "Jul '25" ->
               l !! 1200%nat = Some "Jul '25" -> ~ NoDup l).
  { intros l A B N. pose proof (NoDup_lookup _ _ _ _ N A B). discriminate. }
  split; [|split]; [vm_compute; reflexivity..|].
  apply H0; vm_compute; reflexivity.
Qed.

(** C4 (amended): for a start year from 1 on, a start month in [1,12] and a
    count > 0 such that the month after the last one is not after December
    9999, [get_month_columns] returns exactly [count] labels, the labels of
    consecutive calendar months beginning at the start month (each month is
    the successor of the one before, December being followed by January of
    the next year); the labels are pairwise distinct when count <= 1200. *)
Theorem get_month_columns_consecutive (start_year start_month months_count : Z) :
  MINYEAR <= start_year ->
  1 <= start_month <= 12 ->
  0 < months_count ->
  12 * start_year + (start_month - 1) + months_count <= 12 * MAXYEAR + 11 ->
  exists dates : list date,
    get_month_columns start_year start_month months_count
      = Ok (map strftime_b_y dates)
    /\ length dates = Z.to_nat months_count
    /\ dates !! 0%nat = Some (Date start_year start_month)
    /\ (forall i a b, dates !! i = Some a -> dates !! S i = Some b ->
                      b = succ_month a /\ month_number b = month_number a + 1)
    /\ (forall a, a ∈ dates -> 1 <= month a <= 12)
    /\ (months_count <= 1200 -> NoDup (map strftime_b_y dates)).
Proof.
  intros Hy Hm Hc Hmax.
  exists (months_from (Date start_year start_month) (Z.to_nat months_count)).
  assert (Hd : valid_date (Date start_year start_month)).
  { unfold valid_date, MINYEAR, MAXYEAR in *. simpl. lia. }
  split; [|split; [|split; [|split; [|split]]]].
  - unfold get_month_columns. rewrite date_first_valid by apply Hd. simpl.
    rewrite month_loop_spec; [done | done |].
    unfold month_number. simpl. lia.
  - apply months_from_length.
  - destruct (Z.to_nat months_count) eqn:E; [lia | done].
  - intros i a b Ha Hb.
    pose proof (months_from_consecutive _ _ _ _ _ Ha Hb) as ->.
    split; [done|]. apply succ_month_number.
    eapply months_from_number in Ha; [apply Ha | done].
  - intros a [i Hi]%list_elem_of_lookup.
    eapply months_from_number in Hi; [apply Hi | done].
  - intros Hle. apply months_from_labels_NoDup; [done | lia].
Qed.

Lemma get_month_columns_consecutive_witness :
  exists dates : list date,
    get_month_columns 2025 7 25 = Ok (map strftime_b_y dates)
    /\ length dates = Z.to_nat 25
    /\ dates !! 0%nat = Some (Date 2025 7)
    /\ (forall i a b, dates !! i = Some a -> dates !! S i = Some b ->
                      b = succ_month a /\ month_number b = month_number a + 1)
    /\ (forall a, a ∈ dates -> 1 <= month a <= 12)
    /\ (25 <= 1200 -> NoDup (map strftime_b_y dates)).
Proof.
  apply (get_month_columns_consecutive 2025 7 25); unfold MINYEAR, MAXYEAR; lia.
Defined.

(** ** Phase split *)

Section PhaseSplit.

Context {A : Type}.
Implicit Types (l : list A) (k : Z).

Lemma slice_app l k : slice_to l k ++ slice_from l k = l.
Proof. apply take_drop. Qed.

Lemma slice_bound_inside l k :
  0 <= k <= Z.of_nat (length l) -> slice_bound l k = Z.to_nat k.
Proof. intros Hk. unfold slice_bound. destruct (Z.ltb_spec k 0); lia. Qed.

Lemma slice_bound_beyond l k :
  Z.of_nat (length l) <= k -> slice_bound l k = length l.
Proof. intros Hk. unfold slice_bound. destruct (Z.ltb_spec k 0); lia. Qed.

Lemma slice_bound_negative l k :
  k < 0 -> slice_bound l k = Z.to_nat (Z.of_nat (length l) + k).
Proof. intros Hk. unfold slice_bound. destruct (Z.ltb_spec k 0); lia. Qed.

Lemma slice_to_length l k : length (slice_to l k) = slice_bound l k.
Proof.
  unfold slice_to. rewrite length_take.
  unfold slice_bound. destruct (Z.ltb_spec k 0); lia.
Qed.

End PhaseSplit.




(** C6: for a horizon returned by [get_month_columns] and a split point
    [0 < k < len(months)], the two windows concatenate to the horizon and
    the first has exactly [k] months. *)
Theorem split_phases_reconstructs (y m c k : Z) (months : list string) :
  get_month_columns y m c = Ok months ->
  0 < k < Z.of_nat (length months) ->
  exists phase1 phase2 : list string,
    define_columns y m c k = Ok (months, phase1, phase2)
    /\ phase1 ++ phase2 = months
    /\ Z.of_nat (length phase1) = k.
Proof.
  intros H Hk. exists (slice_to months k), (slice_from months k).
  unfold define_columns. rewrite H. simpl.
  split; [done|]. split; [apply slice_app|].
  rewrite slice_to_length, slice_bound_inside by lia. lia.
Qed.

Lemma split_phases_reconstructs_witness :
  exists phase1 phase2 : list string,
    define_columns 2025 7 25 12 = Ok (all_months, phase1, phase2)
    /\ phase1 ++ phase2 = all_months
    /\ Z.of_nat (length phase1) = 12.
Proof.
  apply (split_phases_reconstructs 2025 7 25 12 all_months); [reflexivity|].
  simpl. lia.
Defined.

Lemma phases_partition : phase1_cols ++ phase2_cols = all_months.
Proof. reflexivity. Qed.

(** ** Frames *)

Section Frames.

Implicit Types (df self other : DataFrame) (c r : label) (vs this that : list cell).

Lemma mapM_Ok {A B : Type} (f : A -> result B) (l : list A) (bs : list B) :
  mapM f l = Ok bs <-> Forall2 (fun a b => f a = Ok b) l bs.
Proof.
  revert bs. induction l as [|a l IH]; intros bs; simpl.
  - split; [intros [= <-]; constructor | inversion 1; done].
  - split.
    + intros H. inv_bind H. inv_bind H. injection H as <-.
      constructor; [done | by apply IH].
    + inversion 1 as [|? b ? bs' Hb Hbs]; subst.
      rewrite Hb. simpl. apply IH in Hbs. rewrite Hbs. done.
Qed.

Lemma mapM_app {A B : Type} (f : A -> result B) (l1 l2 : list A) (bs : list B) :
  mapM f (l1 ++ l2) = Ok bs ->
  exists bs1 bs2, mapM f l1 = Ok bs1 /\ mapM f l2 = Ok bs2 /\ bs = bs1 ++ bs2.
Proof.
  rewrite mapM_Ok. intros H. apply Forall2_app_inv_l in H as (bs1 & bs2 & H1 & H2 & ->).
  exists bs1, bs2. by rewrite !mapM_Ok.
Qed.

Lemma mapM_total {A B : Type} (f : A -> result B) (g : A -> B) (l : list A) :
  (forall a, a ∈ l -> f a = Ok (g a)) -> mapM f l = Ok (map g l).
Proof.
  intros H. apply mapM_Ok. apply Forall2_fmap_r, Forall2_same_length_lookup.
  split; [done|]. intros i a b Ha Hb. assert (a = b) as -> by congruence.
  apply H. by eapply list_elem_of_lookup_2.
Qed.

(** *** Association lists *)

Lemma assoc_None {A : Type} (k : label) (l : list (label * A)) :
  assoc k l = None <-> k ∉ map fst l.
Proof.
  induction l as [|[k' v] l IH]; simpl.
  - split; [intros _; apply not_elem_of_nil | done].
  - destruct (decide (k = k')) as [->|Hne].
    + split; [done | intros H; exfalso; apply H; left].
    + rewrite IH, not_elem_of_cons. tauto.
Qed.

Lemma assoc_Some_elem {A : Type} (k : label) (v : A) (l : list (label * A)) :
  assoc k l = Some v -> (k, v) ∈ l.
Proof.
  induction l as [|[k' v'] l IH]; simpl; [done|].
  destruct (decide (k = k')) as [->|Hne].
  - intros [= ->]. left.
  - intros H. right. auto.
Qed.

(** A map over the columns that keeps their labels. *)
Lemma assoc_map_columns (F : label -> list cell -> list cell) (k : label)
    (l : list (label * list cell)) :
  assoc k (map (fun col => (fst col, F (fst col) (snd col))) l) = F k <$> assoc k l.
Proof.
  induction l as [|[k' v] l IH]; simpl; [done|].
  destruct (decide (k = k')) as [->|Hne]; [done | apply IH].
Qed.

Lemma assoc_dict_set_eq {A : Type} (k : label) (v : A) (d : list (label * A)) :
  assoc k (dict_set k v d) = Some v.
Proof.
  induction d as [|[k' v'] d IH]; simpl.
  - by rewrite decide_True.
  - destruct (decide (k = k')) as [->|Hne]; simpl.
    + by rewrite decide_True.
    + by rewrite decide_False.
Qed.

Lemma assoc_dict_set_ne {A : Type} (k k0 : label) (v : A) (d : list (label * A)) :
  k0 <> k -> assoc k0 (dict_set k v d) = assoc k0 d.
Proof.
  intros Hne. induction d as [|[k' v'] d IH]; simpl.
  - by rewrite decide_False.
  - destruct (decide (k = k')) as [->|Hne']; simpl.
    + by rewrite !decide_False.
    + destruct (decide (k0 = k')); [done | apply IH].
Qed.

Lemma index_pos_lookup (r : label) (idx : list label) (p : nat) :
  index_pos r idx = Some p -> idx !! p = Some r.
Proof.
  revert p. induction idx as [|r' idx IH]; intros p; simpl; [done|].
  destruct (decide (r = r')) as [->|Hne].
  - by intros [= <-].
  - destruct (index_pos r idx) as [q|]; simpl; [|done].
    intros [= <-]. simpl. by apply IH.
Qed.

Lemma index_pos_elem (r : label) (idx : list label) :
  r ∈ idx -> is_Some (index_pos r idx).
Proof.
  induction idx as [|r' idx IH]; simpl; [by intros ?%elem_of_nil|].
  intros [->|H]%elem_of_cons.
  - rewrite decide_True by done. eauto.
  - destruct (decide (r = r')); [eauto|].
    destruct (IH H) as [q ->]. simpl. eauto.
Qed.

(** *** Columns of a name *)

Lemma assoc_app {A : Type} (k : label) (l1 l2 : list (label * A)) :
  assoc k (l1 ++ l2) = match assoc k l1 with
                       | Some v => Some v
                       | None => assoc k l2
                       end.
Proof.
  induction l1 as [|[k' v] l1 IH]; simpl; [done|].
  by destruct (decide (k = k')).
Qed.

Lemma columns_named_elem {A : Type} (k : label) (l : list (label * A))
    (col : label * A) :
  col ∈ columns_named k l <-> col ∈ l /\ col.1 = k.
Proof.
  induction l as [|[k' v] l IH]; simpl.
  - split; [by intros ?%elem_of_nil | by intros [?%elem_of_nil _]].
  - destruct (decide (k = k')) as [->|Hne].
    + rewrite !elem_of_cons, IH. split.
      * intros [->|[H E]]; [by split; [left|] | by split; [right|]].
      * intros [[->|H] E]; [by left | by right].
    + rewrite elem_of_cons, IH. split.
      * intros [H E]. by split; [right|].
      * intros [[->|H] E]; [by subst | done].
Qed.

Lemma columns_named_app {A : Type} (k : label) (l1 l2 : list (label * A)) :
  columns_named k (l1 ++ l2) = columns_named k l1 ++ columns_named k l2.
Proof.
  induction l1 as [|[k' v] l1 IH]; simpl; [done|].
  destruct (decide (k = k')); simpl; by rewrite IH.
Qed.

(** [assoc] finds the first column of the name. *)
Lemma assoc_columns_named {A : Type} (k : label) (l : list (label * A)) :
  assoc k l = snd <$> head (columns_named k l).
Proof.
  induction l as [|[k' v] l IH]; simpl; [done|].
  by destruct (decide (k = k')).
Qed.

Lemma columns_named_nil {A : Type} (k : label) (l : list (label * A)) :
  columns_named k l = [] <-> assoc k l = None.
Proof.
  rewrite assoc_columns_named. by destruct (columns_named k l).
Qed.

Lemma assoc_of_named {A : Type} (k k0 : label) (l : list (label * A)) :
  assoc k0 (columns_named k l) = if decide (k0 = k) then assoc k l else None.
Proof.
  induction l as [|[k' v] l IH]; simpl; [by destruct (decide (k0 = k))|].
  destruct (decide (k = k')) as [->|Hne]; simpl.
  - destruct (decide (k0 = k')); [done | exact IH].
  - rewrite IH. by destruct (decide (k0 = k)).
Qed.

(** With distinct column names, a name has at most one column. *)
Lemma columns_named_NoDup {A : Type} (k : label) (v : A) (l : list (label * A)) :
  NoDup (map fst l) -> assoc k l = Some v -> columns_named k l = [(k, v)].
Proof.
  induction l as [|[k' v'] l IH]; simpl; [done|].
  intros [Hk' Hnd]%NoDup_cons. destruct (decide (k = k')) as [->|Hne].
  - intros [= ->]. f_equal. apply columns_named_nil, assoc_None. done.
  - by apply IH.
Qed.

(** The columns of a name among the columns picked for a list of names. *)
Lemma columns_named_picked {A : Type} (k : label) (l : list (label * A))
    (labels : list label) :
  NoDup labels -> k ∈ labels ->
  columns_named k (concat (map (fun l0 => columns_named l0 l) labels))
  = columns_named k l.
Proof.
  assert (Hother : forall k0 : label, k0 <> k ->
            columns_named k (columns_named k0 l) = []).
  { intros k0 Hne. apply columns_named_nil. rewrite assoc_of_named.
    by rewrite decide_False by congruence. }
  assert (Hsame : columns_named k (columns_named k l) = columns_named k l).
  { clear Hother. induction l as [|[k' v] l IH]; simpl; [done|].
    destruct (decide (k = k')) as [->|Hne]; simpl; [|done].
    rewrite decide_True by done. by rewrite IH. }
  assert (Hnone : forall ls : list label, k ∉ ls ->
            columns_named k (concat (map (fun l0 => columns_named l0 l) ls)) = []).
  { induction ls as [|l0 ls IH]; simpl; [done|].
    intros [Hne Hk]%not_elem_of_cons.
    rewrite columns_named_app, Hother by done. by apply IH. }
  induction labels as [|l0 labels IH]; [by intros _ ?%elem_of_nil|].
  intros [Hl0 Hnd]%NoDup_cons Hk. simpl. rewrite columns_named_app.
  apply elem_of_cons in Hk as [->|Hk].
  - rewrite Hsame, Hnone by done. apply app_nil_r.
  - rewrite Hother, IH; [done..|]. intros ->. done.
Qed.

Lemma lookup_map {A B : Type} (f : A -> B) (l : list A) (i : nat) :
  map f l !! i = f <$> l !! i.
Proof. apply list_lookup_fmap. Qed.

Lemma elem_of_concat {A : Type} (x : A) (ls : list (list A)) :
  x ∈ concat ls <-> exists l : list A, x ∈ l /\ l ∈ ls.
Proof.
  induction ls as [|l0 ls IH]; simpl.
  - split; [by intros ?%elem_of_nil | by intros (l & _ & ?%elem_of_nil)].
  - rewrite elem_of_app, IH. split.
    + intros [H|(l & Hx & Hl)]; [exists l0; split; [done | left] |].
      exists l. split; [done | by right].
    + intros (l & Hx & [->|Hl]%elem_of_cons); [by left | right; eauto].
Qed.

(** *** [df[labels]] *)

Lemma getitem_Ok df (labels : list label) (sub : DataFrame) :
  getitem df labels = Ok sub ->
  index sub = index df /\
  columns sub = concat (map (fun l => columns_named l (columns df)) labels) /\
  forall l, l ∈ labels -> is_Some (assoc l (columns df)).
Proof.
  unfold getitem. intros H. inv_bind H. injection H as <-. simpl.
  split; [done|]. apply mapM_Ok in Ha.
  induction Ha as [|l found ls fs Hl _ [IH1 IH2]]; simpl.
  - split; [done | by intros l ?%elem_of_nil].
  - destruct (columns_named l (columns df)) as [|col rest] eqn:E; [done|].
    injection Hl as <-. split; [by rewrite IH1|].
    intros l0 [->|Hl0]%elem_of_cons; [|by apply IH2].
    rewrite assoc_columns_named, E. by eexists.
Qed.

(** Every column of a selection is a column of the frame, under one of the
    listed names. *)
Lemma getitem_elem df (labels : list label) (sub : DataFrame)
    (col : label * list cell) :
  getitem df labels = Ok sub -> col ∈ columns sub ->
  col ∈ columns df /\ col.1 ∈ labels.
Proof.
  intros (_ & -> & _)%getitem_Ok (cs & Hcol & Hcs)%elem_of_concat.
  apply list_elem_of_fmap in Hcs as (l & -> & Hl).
  apply columns_named_elem in Hcol as [Hin <-]. done.
Qed.

Lemma getitem_assoc df (labels : list label) (sub : DataFrame) c :
  getitem df labels = Ok sub -> c ∈ labels ->
  assoc c (columns sub) = assoc c (columns df) /\ is_Some (assoc c (columns df)).
Proof.
  intros (_ & -> & Hall)%getitem_Ok Hc. split; [|by apply Hall].
  induction labels as [|l labels IH]; [by apply elem_of_nil in Hc|].
  simpl. rewrite assoc_app, assoc_of_named.
  destruct (decide (c = l)) as [->|Hne].
  - by destruct (Hall l ltac:(left)) as [vs ->].
  - apply elem_of_cons in Hc as [?|Hc]; [done|].
    apply IH; [|done]. intros l0 Hl0. apply Hall. by right.
Qed.

Lemma getitem_assoc_None df (labels : list label) (sub : DataFrame) c :
  getitem df labels = Ok sub -> c ∉ labels -> assoc c (columns sub) = None.
Proof.
  intros H Hc. apply assoc_None. intros (col & -> & Hcol)%list_elem_of_fmap.
  by apply (getitem_elem _ _ _ _ H) in Hcol as [_ ?].
Qed.

Lemma getitem_total df (labels : list label) :
  (forall c, c ∈ labels -> is_Some (assoc c (columns df))) ->
  exists sub, getitem df labels = Ok sub.
Proof.
  intros H. unfold getitem.
  rewrite (mapM_total _ (fun l => columns_named l (columns df))).
  - simpl. eauto.
  - intros l Hl. destruct (columns_named l (columns df)) eqn:E; [|done].
    apply columns_named_nil in E. destruct (H l Hl) as [vs Hvs]. congruence.
Qed.

Lemma getitem_app df (l1 l2 : list label) (sub : DataFrame) :
  getitem df (l1 ++ l2) = Ok sub ->
  exists s1 s2, getitem df l1 = Ok s1 /\ getitem df l2 = Ok s2 /\
                columns sub = columns s1 ++ columns s2.
Proof.
  unfold getitem. intros H. inv_bind H. injection H as <-.
  apply mapM_app in Ha as (b1 & b2 & -> & -> & ->). simpl.
  eexists _, _. split; [done|]. split; [done|]. simpl. apply concat_app.
Qed.

(** A selection depends on the rows and on the columns of the listed
    names. *)
Lemma getitem_ext (a b : DataFrame) (labels : list label) :
  index a = index b ->
  (forall c, c ∈ labels -> columns_named c (columns a) = columns_named c (columns b)) ->
  getitem a labels = getitem b labels.
Proof.
  intros Hidx H. unfold getitem. rewrite Hidx. f_equal.
  induction labels as [|l labels IH]; [done|]. cbn [mapM].
  rewrite (H l ltac:(left)), IH; [done|]. intros c Hc. apply H. by right.
Qed.

(** Selecting from a selection of distinct names is selecting from the
    frame. *)
Lemma getitem_getitem df (l1 l2 : list label) (s1 : DataFrame) :
  getitem df l1 = Ok s1 -> NoDup l1 -> l2 ⊆ l1 -> getitem s1 l2 = getitem df l2.
Proof.
  intros (Hidx & Hcols & _)%getitem_Ok Hnd Hsub.
  apply getitem_ext; [done|]. intros c Hc. rewrite Hcols.
  apply columns_named_picked; [done | by apply Hsub].
Qed.

(** With distinct column names in the frame, a selection has one column for
    each listed name, in the listed order. *)
Lemma getitem_unique df (labels : list label) (sub : DataFrame) :
  NoDup (column_labels df) ->
  getitem df labels = Ok sub ->
  Forall2 (fun l col => col.1 = l /\ assoc l (columns df) = Some col.2)
          labels (columns sub).
Proof.
  intros Hnd (_ & -> & Hall)%getitem_Ok.
  induction labels as [|l labels IH]; simpl; [constructor|].
  destruct (Hall l ltac:(left)) as [vs Hvs].
  rewrite (columns_named_NoDup _ _ _ Hnd Hvs). simpl.
  constructor; [done|]. apply IH. intros l0 Hl0. apply Hall. by right.
Qed.

Lemma getitem_labels df (labels : list label) (sub : DataFrame) :
  NoDup (column_labels df) ->
  getitem df labels = Ok sub -> column_labels sub = labels.
Proof.
  intros Hnd H. pose proof (getitem_unique _ _ _ Hnd H) as HF.
  unfold column_labels. clear H.
  induction HF as [|l col ls cs [Hl _] _ IH]; simpl; [done | by rewrite Hl, IH].
Qed.

Lemma rectangular_spec df :
  rectangular df = true <-> rectangular_columns (length (index df)) (columns df).
Proof.
  unfold rectangular, rectangular_columns. rewrite forallb_forall, Forall_forall.
  split; intros H col Hc.
  - apply Nat.eqb_eq, H. by apply list_elem_of_In.
  - apply Nat.eqb_eq, H. by apply list_elem_of_In.
Qed.

Lemma rectangular_assoc df c vs :
  rectangular df = true -> assoc c (columns df) = Some vs ->
  length vs = length (index df).
Proof.
  rewrite rectangular_spec. intros H Hc%assoc_Some_elem.
  unfold rectangular_columns in H. rewrite Forall_forall in H. apply (H _ Hc).
Qed.

Lemma getitem_rectangular df (labels : list label) (sub : DataFrame) :
  rectangular df = true -> getitem df labels = Ok sub -> rectangular sub = true.
Proof.
  intros Hr H. apply rectangular_spec. rewrite (proj1 (getitem_Ok _ _ _ H)).
  apply rectangular_spec in Hr. unfold rectangular_columns in *.
  rewrite Forall_forall in Hr. apply Forall_forall. intros col Hcol.
  apply Hr. by apply (getitem_elem _ _ _ _ H).
Qed.

End Frames.

(** ** [update] *)

Section Update.

Implicit Types (self other : DataFrame) (c r : label) (this that vs : list cell).

Lemma where_length this : forall (mask : list bool) that,
  length (where_ this mask that) = length this.
Proof.
  induction this as [|t this IH]; intros [|m mask] [|o that]; simpl; auto.
Qed.

Lemma where_lookup this : forall that (p : nat) (t o : cell),
  this !! p = Some t -> that !! p = Some o ->
  where_ this (map isna that) that !! p = Some (if isna o then t else o).
Proof.
  induction this as [|t0 this IH]; intros [|o0 that] p t o Ht Ho; try done.
  destruct p as [|p]; simpl in *.
  - by injection Ht as ->; injection Ho as ->.
  - by apply IH.
Qed.

Lemma where_no_nan this : forall that,
  Forall (fun v => isna v = false) this ->
  Forall (fun v => isna v = false) (where_ this (map isna that) that).
Proof.
  induction this as [|t this IH]; intros [|o that] H; simpl; try done.
  inversion H; subst. constructor; [|by apply IH].
  by destruct (isna o) eqn:E.
Qed.

Lemma update_column_length this that :
  length (update_column this that) = length this.
Proof.
  unfold update_column. destruct (forallb id (map isna that)); [done|].
  apply where_length.
Qed.

Lemma update_column_lookup this that (p : nat) (t o : cell) :
  this !! p = Some t -> that !! p = Some o ->
  update_column this that !! p = Some (if isna o then t else o).
Proof.
  intros Ht Ho. unfold update_column.
  destruct (forallb id (map isna that)) eqn:E; [|by apply where_lookup].
  rewrite forallb_forall in E.
  assert (Hna : isna o = true).
  { apply (E (isna o)), list_elem_of_In, list_elem_of_fmap. exists o.
    split; [done | by eapply list_elem_of_lookup_2]. }
  by rewrite Hna.
Qed.

Lemma update_column_no_nan this that :
  Forall (fun v => isna v = false) this ->
  Forall (fun v => isna v = false) (update_column this that).
Proof.
  intros H. unfold update_column.
  destruct (forallb id (map isna that)); [done | by apply where_no_nan].
Qed.

Lemma reindex_column_length (old_index new_index : list label) vs :
  length (reindex_column old_index new_index vs) = length new_index.
Proof. unfold reindex_column. by rewrite length_map. Qed.

Lemma reindex_assoc other (idx : list label) c :
  assoc c (columns (reindex other idx))
  = reindex_column (index other) idx <$> assoc c (columns other).
Proof.
  unfold reindex. simpl.
  apply (assoc_map_columns (fun _ => reindex_column (index other) idx)).
Qed.

Lemma update_index self other : index (update self other) = index self.
Proof. done. Qed.

Lemma update_assoc self other c :
  assoc c (columns (update self other))
  = (fun this =>
       match assoc c (columns other) with
       | None => this
       | Some vs =>
           update_column this (reindex_column (index other) (index self) vs)
       end) <$> assoc c (columns self).
Proof.
  pose (F := fun k this =>
          match assoc k (columns (reindex other (index self))) with
          | None => this
          | Some that => update_column this that
          end).
  trans (assoc c (map (fun col => (fst col, F (fst col) (snd col))) (columns self))).
  { unfold update. cbn [columns]. f_equal. apply map_ext.
    intros [k this]. unfold F. simpl.
    by destruct (assoc k _). }
  rewrite (assoc_map_columns F). unfold F. rewrite reindex_assoc.
  by destruct (assoc c (columns self)), (assoc c (columns other)).
Qed.

Lemma update_column_labels self other :
  column_labels (update self other) = column_labels self.
Proof.
  unfold update, column_labels. cbn [columns]. rewrite map_map.
  apply map_ext. intros [k this]. simpl.
  by destruct (assoc k _).
Qed.

(** A column that [other] does not have keeps all its cells. *)
Lemma update_untouched self other c :
  assoc c (columns other) = None ->
  assoc c (columns (update self other)) = assoc c (columns self).
Proof.
  intros H. rewrite update_assoc, H. by destruct (assoc c (columns self)).
Qed.

(** Cell by cell: a cell of [self] takes the cell of [other] at the same
    row and column labels when [other] has one and it is not missing. *)
Lemma update_loc self other r c (v0 : cell) :
  rectangular self = true ->
  loc self r c = Some v0 ->
  loc (update self other) r c
  = Some (match loc other r c with
          | Some v => if isna v then v0 else v
          | None => v0
          end).
Proof.
  intros Hrect Hloc. unfold loc in *. rewrite update_assoc, update_index.
  destruct (assoc c (columns self)) as [this|] eqn:Ethis; [|done].
  destruct (index_pos r (index self)) as [p|] eqn:Ep; [|done].
  simpl in *.
  destruct (assoc c (columns other)) as [vs|]; simpl; [|done].
  pose proof (index_pos_lookup _ _ _ Ep) as Hr.
  assert (Hthat : reindex_column (index other) (index self) vs !! p
                  = Some (match index_pos r (index other) with
                          | Some q => nth q vs VNaN
                          | None => VNaN
                          end)).
  { unfold reindex_column. by rewrite list_lookup_fmap, Hr. }
  rewrite (update_column_lookup _ _ _ _ _ Hloc Hthat).
  destruct (index_pos r (index other)) as [q|]; simpl; [|done].
  destruct (vs !! q) as [v|] eqn:Ev.
  - by rewrite (nth_lookup_Some _ _ _ _ Ev).
  - by rewrite nth_overflow by by apply lookup_ge_None.
Qed.

Lemma update_rectangular self other :
  rectangular self = true -> rectangular (update self other) = true.
Proof.
  rewrite !rectangular_spec. unfold rectangular_columns, update. cbn [columns index].
  intros H. apply Forall_fmap. eapply Forall_impl; [exact H|].
  intros [k this] Hlen. simpl in *.
  destruct (assoc k _); [|done].
  simpl. by rewrite update_column_length.
Qed.

Lemma forallb_no_nan vs :
  forallb (fun v => negb (isna v)) vs = true <-> Forall (fun v => isna v = false) vs.
Proof.
  induction vs as [|v vs IH]; simpl.
  - split; [constructor | done].
  - rewrite andb_true_iff, Forall_cons, IH. destruct (isna v); simpl; intuition congruence.
Qed.

(** [update] never makes a cell missing. *)
Lemma update_no_missing_cell (months : list string) self other :
  no_missing_cell months self = true ->
  no_missing_cell months (update self other) = true.
Proof.
  unfold no_missing_cell. rewrite !forallb_forall.
  intros H m Hm. specialize (H m Hm). rewrite update_assoc, update_index.
  destruct (assoc (LStr m) (columns self)) as [this|]; [|done]. simpl.
  apply andb_true_iff in H as [Hlen Hnan]. apply andb_true_iff.
  destruct (assoc (LStr m) (columns other)) as [vs|]; [|done].
  rewrite update_column_length. split; [done|].
  apply forallb_no_nan, update_column_no_nan. by apply forallb_no_nan.
Qed.

End Update.

(** ** Sums *)

Section Sums.

Implicit Types (df : DataFrame) (vs : list cell) (s : Series).

Lemma zsum_app (l1 l2 : list Z) : zsum (l1 ++ l2) = zsum l1 + zsum l2.
Proof. induction l1 as [|x l1 IH]; simpl; [done | rewrite IH; lia]. Qed.

Lemma zsum_map_add {A : Type} (f g : A -> Z) (l : list A) :
  zsum (map (fun a => f a + g a) l) = zsum (map f l) + zsum (map g l).
Proof. induction l as [|a l IH]; simpl; [done | rewrite IH; lia]. Qed.

Lemma zsum_map_zero {A : Type} (l : list A) : zsum (map (fun _ => 0) l) = 0.
Proof. induction l as [|a l IH]; simpl; [done | by rewrite IH]. Qed.

Lemma map_nth_seq {A : Type} (d : A) (l : list A) :
  map (fun i => nth i l d) (seq 0 (length l)) = l.
Proof.
  induction l as [|a l IH]; simpl; [done|]. f_equal.
  rewrite <- fmap_S_seq, map_map. apply IH.
Qed.

(** *** 64-bit wrap-around *)

Lemma wrap64_range (z : Z) : INT64_MIN <= wrap64 z <= INT64_MAX.
Proof.
  unfold wrap64, INT64_MIN, INT64_MAX.
  pose proof (Z.mod_pos_bound (z + 2 ^ 63) (2 ^ 64) eq_refl). lia.
Qed.

Lemma wrap64_id (z : Z) : INT64_MIN <= z <= INT64_MAX -> wrap64 z = z.
Proof.
  unfold wrap64, INT64_MIN, INT64_MAX. intros H.
  rewrite Z.mod_small by lia. lia.
Qed.

Lemma wrap64_add_r (a b : Z) : wrap64 (a + wrap64 b) = wrap64 (a + b).
Proof.
  unfold wrap64. f_equal.
  replace (a + ((b + 2 ^ 63) mod 2 ^ 64 - 2 ^ 63) + 2 ^ 63)
    with (a + (b + 2 ^ 63) mod 2 ^ 64) by lia.
  rewrite Zplus_mod_idemp_r. f_equal. lia.
Qed.

Lemma wrap64_add_l (a b : Z) : wrap64 (wrap64 a + b) = wrap64 (a + b).
Proof. by rewrite (Z.add_comm _ b), wrap64_add_r, Z.add_comm. Qed.

Lemma wrap64_idem (z : Z) : wrap64 (wrap64 z) = wrap64 z.
Proof. apply wrap64_id, wrap64_range. Qed.

Lemma wrap64_zsum_map (l : list Z) : wrap64 (zsum (map wrap64 l)) = wrap64 (zsum l).
Proof.
  induction l as [|x l IH]; [done|]. unfold zsum in *. cbn [map fold_right].
  by rewrite wrap64_add_l, <- wrap64_add_r, IH, wrap64_add_r.
Qed.

Lemma zsum_abs (l : list Z) : Z.abs (zsum l) <= zsum (map Z.abs l).
Proof. induction l as [|x l IH]; unfold zsum in *; cbn [map fold_right]; lia. Qed.

Lemma zsum_abs_nonneg (l : list Z) : 0 <= zsum (map Z.abs l).
Proof. induction l as [|x l IH]; unfold zsum in *; cbn [map fold_right]; lia. Qed.

(** *** Sums of cells, columns and rows *)

Lemma series_sum_zsum s : series_sum s = wrap64 (zsum (map snd s)).
Proof.
  induction s as [|p s IH]; [done|].
  cbn [series_sum fold_right map]. fold (series_sum s).
  rewrite IH. unfold zsum. cbn [fold_right]. apply wrap64_add_r.
Qed.

Lemma series_sum_app s1 s2 :
  series_sum (s1 ++ s2) = wrap64 (series_sum s1 + series_sum s2).
Proof.
  rewrite !series_sum_zsum, map_app, zsum_app.
  by rewrite wrap64_add_l, wrap64_add_r.
Qed.

Lemma sum_cells_Ok vs (t : Z) :
  sum_cells vs = Ok t ->
  t = wrap64 (zsum (map cell_days vs)) /\ Forall (fun v => is_text v = false) vs.
Proof.
  revert t. induction vs as [|v vs IH]; simpl; intros t H.
  - injection H as <-. by split.
  - inv_bind H. inv_bind H. injection H as <-.
    destruct (IH _ Ha0) as [-> HF]. rewrite wrap64_add_r.
    destruct v; simpl in Ha; try discriminate; injection Ha as <-;
      (split; [done | by constructor]).
Qed.

Lemma sum_cells_numeric vs :
  Forall (fun v => is_text v = false) vs ->
  sum_cells vs = Ok (wrap64 (zsum (map cell_days vs))).
Proof.
  induction 1 as [|v vs Hv _ IH]; simpl; [done|].
  rewrite IH. destruct v; try done; simpl; by rewrite wrap64_add_r.
Qed.

(** The per-column sums are the sums of the days of each column. *)
Lemma sum_axis0_Ok df (totals : Series) :
  sum_axis0 df = Ok totals ->
  totals = map (fun col => (col.1, wrap64 (zsum (map cell_days col.2)))) (columns df) /\
  Forall (fun col => Forall (fun v => is_text v = false) col.2) (columns df).
Proof.
  unfold sum_axis0. intros H%mapM_Ok.
  induction H as [|col p cs ps Hp _ [IH1 IH2]]; simpl; [done|].
  inv_bind Hp. injection Hp as <-.
  apply sum_cells_Ok in Ha as [-> HF]. rewrite <- IH1. split; [done | by constructor].
Qed.

Lemma sum_axis0_labels df (totals : Series) :
  sum_axis0 df = Ok totals -> map fst totals = column_labels df.
Proof.
  intros [-> _]%sum_axis0_Ok. unfold column_labels. by rewrite map_map.
Qed.

Lemma sum_axis0_app (cs1 cs2 : list (label * list cell)) (idx : list label)
    (totals : Series) :
  sum_axis0 (Frame idx (cs1 ++ cs2)) = Ok totals ->
  exists t1 t2, sum_axis0 (Frame idx cs1) = Ok t1 /\
                sum_axis0 (Frame idx cs2) = Ok t2 /\ totals = t1 ++ t2.
Proof. unfold sum_axis0. cbn [columns]. apply mapM_app. Qed.

(** Summing row by row or column by column gives the same total. *)
Lemma rows_columns_interchange (n : nat) (cs : list (label * list cell)) :
  rectangular_columns n cs ->
  zsum (map (fun i => zsum (map cell_days (map (fun col => nth i col.2 VNaN) cs)))
            (seq 0 n))
  = zsum (map (fun col => zsum (map cell_days col.2)) cs).
Proof.
  induction 1 as [|col cs Hlen _ IH]; simpl.
  - apply zsum_map_zero.
  - rewrite (zsum_map_add (fun i => cell_days (nth i col.2 VNaN))), IH. f_equal.
    rewrite <- Hlen, <- (map_map (fun i => nth i col.2 VNaN) cell_days).
    by rewrite map_nth_seq.
Qed.

Lemma row_numeric df (i : nat) :
  Forall (fun col => Forall (fun v => is_text v = false) col.2) (columns df) ->
  Forall (fun v => is_text v = false) (row df i).
Proof.
  unfold row. intros H. apply Forall_fmap. eapply Forall_impl; [exact H|].
  intros col Hcol. simpl.
  destruct (nth_in_or_default i col.2 VNaN) as [Hin| ->]; [|done].
  rewrite Forall_forall in Hcol. by apply Hcol, list_elem_of_In.
Qed.

Lemma sum_axis1_numeric df :
  Forall (fun col => Forall (fun v => is_text v = false) col.2) (columns df) ->
  sum_axis1 df
  = Ok (map (fun i => wrap64 (zsum (map cell_days (row df i))))
            (seq 0 (length (index df)))).
Proof.
  intros H. unfold sum_axis1. apply mapM_total.
  intros i _. by apply sum_cells_numeric, row_numeric.
Qed.

(** The row sums of a frame whose columns can be summed. *)
Lemma sum_axis1_Ok df (phase_total : list Z) :
  Forall (fun col => Forall (fun v => is_text v = false) col.2) (columns df) ->
  sum_axis1 df = Ok phase_total ->
  phase_total = map (fun i => wrap64 (zsum (map cell_days (row df i))))
                    (seq 0 (length (index df))).
Proof. intros H Hpt. rewrite (sum_axis1_numeric _ H) in Hpt. by injection Hpt. Qed.

(** *** Maximum and its first position *)

Lemma argmax_from_first s : forall best : label * Z,
  exists i : nat,
    (best :: s) !! i = Some (argmax_from best s) /\
    forall (j : nat) (q : label * Z),
      (best :: s) !! j = Some q ->
      q.2 <= (argmax_from best s).2 /\ ((j < i)%nat -> q.2 < (argmax_from best s).2).
Proof.
  induction s as [|p s IH]; intros best.
  - exists 0%nat. split; [done|]. intros [|j] q Hq; [|done].
    injection Hq as <-. simpl. lia.
  - simpl. destruct (Z.ltb_spec best.2 p.2) as [Hlt|Hge].
    + destruct (IH p) as (i & Hi & Hmax). exists (S i). split; [done|].
      intros [|j] q Hq; simpl in Hq.
      * injection Hq as <-. destruct (Hmax 0%nat p eq_refl) as [Hp _]. lia.
      * destruct (Hmax j q Hq) as [H1 H2]. split; [done | intros; apply H2; lia].
    + destruct (IH best) as (i & Hi & Hmax).
      destruct (Hmax 0%nat best eq_refl) as [Hb0 Hb1].
      destruct i as [|i].
      * exists 0%nat. split; [done|]. intros [|[|j]] q Hq; simpl in Hq.
        -- injection Hq as <-. lia.
        -- injection Hq as <-. lia.
        -- destruct (Hmax (S j) q Hq) as [H1 _]. lia.
      * exists (S (S i)). split; [done|]. intros [|[|j]] q Hq; simpl in Hq.
        -- injection Hq as <-. lia.
        -- injection Hq as <-. lia.
        -- destruct (Hmax (S j) q Hq) as [H1 H2]. split; [done | intros; apply H2; lia].
Qed.

Lemma series_max_argmax s (p : label * Z) :
  series_max (p :: s) = VInt (argmax_from p s).2.
Proof.
  simpl. f_equal. revert p. induction s as [|q s IH]; intros p; simpl; [done|].
  rewrite <- IH. f_equal. destruct (Z.ltb_spec p.2 q.2); lia.
Qed.

(** [idxmax] and [max] name the first entry that reaches the largest value. *)
Lemma idxmax_first s (peak : label) :
  idxmax s = Ok peak ->
  exists (i : nat) (v : Z),
    s !! i = Some (peak, v) /\ series_max s = VInt v /\
    forall (j : nat) (q : label * Z),
      s !! j = Some q -> q.2 <= v /\ ((j < i)%nat -> q.2 < v).
Proof.
  destruct s as [|p s]; [done|]. intros [= <-].
  destruct (argmax_from_first s p) as (i & Hi & Hmax).
  exists i, (argmax_from p s).2. rewrite series_max_argmax.
  split; [|done]. clear Hmax. revert Hi. by destruct (argmax_from p s).
Qed.

End Sums.

(** ** The phase view *)

Section PhaseView.

Variable data_editor : string -> DataFrame -> DataFrame.

Implicit Types (st : session_state) (resource df_view : DataFrame)
  (cols : list string) (phase_name : string).

Lemma get_resource_df_Ok st resource :
  get_resource_df st = Ok resource <-> resource_df st = Some resource.
Proof. unfold get_resource_df. destruct (resource_df st); naive_solver. Qed.

Lemma DataFrame_update_Ok (self other updated : DataFrame) :
  DataFrame_update self other = Ok updated ->
  updated = update self other /\ can_reindex self other = true.
Proof.
  unfold DataFrame_update. destruct (can_reindex self other); [|done].
  by intros [= <-].
Qed.

Lemma DataFrame_update_Raise (self other : DataFrame) (e : exn) :
  DataFrame_update self other = Raise e -> e = ValueError.
Proof.
  unfold DataFrame_update. destruct (can_reindex self other); [done|].
  by intros [= <-].
Qed.

Lemma can_reindex_NoDup (self other : DataFrame) :
  NoDup (index other) -> can_reindex self other = true.
Proof. intros H. unfold can_reindex. by rewrite bool_decide_eq_true_2. Qed.

Lemma can_reindex_same (self other : DataFrame) :
  index other = index self -> can_reindex self other = true.
Proof.
  intros H. unfold can_reindex. rewrite (bool_decide_eq_true_2 (_ = _)) by done.
  apply orb_true_r.
Qed.

Lemma display_projection_Ok resource (labels : list label) df_view :
  display_projection resource labels = Ok df_view ->
  exists (base sub : DataFrame) (phase_total : list Z),
    getitem resource ([LStr "Resource"; LStr "Role"] ++ labels) = Ok base /\
    getitem base labels = Ok sub /\
    sum_axis1 sub = Ok phase_total /\
    df_view = setitem base (LStr "Phase Total") (map VInt phase_total).
Proof.
  unfold display_projection. intros H. inv_bind H. inv_bind H. inv_bind H.
  injection H as <-. by exists a, a0, a1.
Qed.

(** When no name is listed twice, the columns that are summed row by row
    are the listed columns of the table. *)
Lemma display_projection_sub resource (labels : list label) (base : DataFrame) :
  NoDup ([LStr "Resource"; LStr "Role"] ++ labels) ->
  getitem resource ([LStr "Resource"; LStr "Role"] ++ labels) = Ok base ->
  getitem base labels = getitem resource labels.
Proof.
  intros Hnd Hbase. apply (getitem_getitem _ _ _ _ Hbase Hnd).
  intros x Hx. apply elem_of_app. by right.
Qed.

(** The two ways a pass through the phase view ends without a fault. *)
Lemma render_phase_view_Ok cols phase_name st (o : outcome) :
  render_phase_view data_editor cols phase_name st = Ok o ->
  exists resource df_view,
    resource_df st = Some resource /\
    display_projection resource (map LStr cols) = Ok df_view /\
    let edited_df := data_editor ("editor_" +:+ phase_name) df_view in
    ((edited_df <> df_view /\
      exists patch : DataFrame,
        getitem edited_df (map LStr cols) = Ok patch /\
        o = Rerun (Session (Some (update resource patch)) (deliverables_df st)))
     \/
     (edited_df = df_view /\
      exists (st' : session_state) (totals : Series) (peak : label),
        resource_df st' = Some resource /\
        month_totals resource (map LStr cols) = Ok totals /\
        idxmax totals = Ok peak /\
        o = Done st' (Summary (series_sum totals) peak (series_max totals)))).
Proof.
  unfold render_phase_view. intros H.
  inv_bind H. apply get_resource_df_Ok in Ha.
  inv_bind H. exists a, a0. split; [done|]. split; [done|].
  unfold equals in H. cbn zeta.
  destruct (decide (data_editor ("editor_" +:+ phase_name) a0 = a0)) as [Heq|Hne].
  - right. split; [done|].
    rewrite bool_decide_eq_true_2 in H by done. simpl in H.
    inv_bind H. inv_bind H. inv_bind H. inv_bind H. inv_bind H. inv_bind H.
    destruct (Nat.eqb _ 0) in H; [done|]. injection H as <-.
    eexists _, a1, a6. repeat split; try done.
    destruct (negb _) in Ha5.
    + inv_bind Ha5. by injection Ha5 as <-.
    + by injection Ha5 as <-.
  - left. split; [done|].
    rewrite bool_decide_eq_false_2 in H by done. simpl in H.
    inv_bind H. inv_bind H. injection H as <-.
    apply DataFrame_update_Ok in Ha2 as [-> _]. eauto.
Qed.

(** A pass that reconciles has been able to re-index the grid. *)
Lemma render_phase_view_reindexed cols phase_name st (st' : session_state)
    resource df_view (patch : DataFrame) :
  resource_df st = Some resource ->
  display_projection resource (map LStr cols) = Ok df_view ->
  getitem (data_editor ("editor_" +:+ phase_name) df_view) (map LStr cols) = Ok patch ->
  render_phase_view data_editor cols phase_name st = Ok (Rerun st') ->
  can_reindex resource patch = true.
Proof.
  intros Hres Hview Hpatch H. unfold render_phase_view in H.
  apply get_resource_df_Ok in Hres. rewrite Hres, Ok_bind, Hview, Ok_bind in H.
  destruct (negb (equals _ df_view)).
  - rewrite Hpatch, Ok_bind in H. inv_bind H.
    by apply DataFrame_update_Ok in Ha as [_ ?].
  - do 6 inv_bind H. by destruct (Nat.eqb _ 0) in H.
Qed.

(** A changed grid is reconciled and a rerun is requested. *)
Lemma render_phase_view_reconciles cols phase_name st resource df_view
    (patch : DataFrame) :
  resource_df st = Some resource ->
  display_projection resource (map LStr cols) = Ok df_view ->
  data_editor ("editor_" +:+ phase_name) df_view <> df_view ->
  getitem (data_editor ("editor_" +:+ phase_name) df_view) (map LStr cols) = Ok patch ->
  can_reindex resource patch = true ->
  render_phase_view data_editor cols phase_name st
  = Ok (Rerun (Session (Some (update resource patch)) (deliverables_df st))).
Proof.
  intros Hres Hview Hne Hpatch Hre. unfold render_phase_view.
  apply get_resource_df_Ok in Hres. rewrite Hres. simpl.
  rewrite Hview. simpl. unfold equals.
  rewrite bool_decide_eq_false_2 by done. simpl. rewrite Hpatch. simpl.
  unfold DataFrame_update. by rewrite Hre.
Qed.

(** What a pass leaves in the allocation table. *)
Lemma render_phase_view_table cols phase_name st (o : outcome) resource :
  resource_df st = Some resource ->
  render_phase_view data_editor cols phase_name st = Ok o ->
  resource_df (outcome_state o) = Some resource \/
  exists patch : DataFrame,
    (forall c, c ∉ map LStr cols -> assoc c (columns patch) = None) /\
    resource_df (outcome_state o) = Some (update resource patch).
Proof.
  intros Hres H. apply render_phase_view_Ok in H
    as (resource' & df_view & Hres' & _ & [[_ (patch & Hp & ->)]|[_ H]]).
  - right. exists patch. split; [intros c; by eapply getitem_assoc_None|].
    simpl. congruence.
  - left. destruct H as (st' & totals & peak & Hst' & _ & _ & ->). simpl. congruence.
Qed.

End PhaseView.

(** ** Initialisation *)

Lemma all_months_NoDup : NoDup all_months.
Proof. apply (bool_decide_unpack _). vm_compute. exact I. Qed.

Lemma phases_disjoint (m : string) : m ∈ phase1_cols -> m ∈ phase2_cols -> False.
Proof.
  pose proof all_months_NoDup as H. rewrite <- phases_partition in H.
  apply NoDup_app in H as (_ & H & _). apply H.
Qed.

Lemma phase_total_no_month : "Phase Total" ∉ all_months.
Proof. apply (bool_decide_unpack _). vm_compute. exact I. Qed.

Lemma elem_of_map_LStr (m : string) (l : list string) :
  LStr m ∈ map LStr l <-> m ∈ l.
Proof.
  rewrite list_elem_of_fmap. split.
  - intros (y & [= ->] & Hy). done.
  - intros H. eauto.
Qed.

Lemma initialize_resource (st : session_state) :
  resource_df (initialize st)
  = Some (default seeded_table (resource_df st)).
Proof.
  unfold initialize, init_deliverables_df, init_resource_df.
  destruct st as [[r|] [d|]]; reflexivity.
Qed.

Lemma initialize_deliverables (st : session_state) :
  deliverables_df (initialize st)
  = Some (default seeded_deliverables (deliverables_df st)).
Proof.
  unfold initialize, init_deliverables_df, init_resource_df.
  destruct st as [[r|] [d|]]; reflexivity.
Qed.

Lemma seeded_table_full :
  no_missing_cell all_months seeded_table = true.
Proof. vm_compute. reflexivity. Qed.

(** C2: initialisation is guarded by the presence of the state.  Run on a
    session that already holds a table it leaves the table as it is, whatever
    its cells are, and running it twice is running it once; with both tables
    present it changes nothing at all. *)
Theorem initialize_idempotent (st : session_state) :
  initialize (initialize st) = initialize st /\
  (forall df, resource_df st = Some df -> resource_df (initialize st) = Some df) /\
  (forall df, deliverables_df st = Some df ->
              deliverables_df (initialize st) = Some df) /\
  (is_Some (resource_df st) -> is_Some (deliverables_df st) -> initialize st = st).
Proof.
  unfold initialize, init_deliverables_df, init_resource_df.
  destruct st as [[r|] [d|]]; simpl; repeat split; try done;
    try (intros ? [= <-]; done); try (by intros [? [=]]); try (by intros _ [? [=]]).
Qed.

Lemma initialize_idempotent_witness :
  resource_df (initialize planned_session) = resource_df planned_session /\
  initialize planned_session = planned_session.
Proof.
  destruct (initialize_idempotent planned_session) as (_ & Hres & _ & Hall).
  split.
  - destruct (resource_df planned_session) as [df|] eqn:E; [|discriminate E].
    apply (Hres df). reflexivity.
  - apply Hall; vm_compute; eauto.
Defined.

(** ** Reconciliation *)

Section Reconciliation.

Variable data_editor : string -> DataFrame -> DataFrame.

Lemma getitem_loc (df sub : DataFrame) (labels : list label) (r c : label) :
  getitem df labels = Ok sub -> c ∈ labels -> loc sub r c = loc df r c.
Proof.
  intros H Hc. unfold loc.
  rewrite (proj1 (getitem_assoc _ _ _ _ H Hc)).
  by rewrite (proj1 (getitem_Ok _ _ _ H)).
Qed.

(** Whatever the grid returns, a pass touches no column outside [cols]. *)
Lemma reconciliation_frame (cols : list string) (phase_name : string)
    (st : session_state) (o : outcome) (resource : DataFrame) :
  resource_df st = Some resource ->
  render_phase_view data_editor cols phase_name st = Ok o ->
  exists resource' : DataFrame,
    resource_df (outcome_state o) = Some resource' /\
    untouched_outside cols resource resource'.
Proof.
  intros Hres H.
  destruct (render_phase_view_table _ _ _ _ _ _ Hres H) as [Ho|(patch & Hp & Ho)].
  - exists resource. by repeat split.
  - exists (update resource patch). split; [done|]. split; [done|].
    split; [apply update_column_labels|].
    intros c Hc. by apply update_untouched, Hp.
Qed.

(** A cell that comes back missing from the grid keeps its value. *)
Lemma cleared_cell_retained (cols : list string) (phase_name : string)
    (st : session_state) (o : outcome) (resource df_view : DataFrame)
    (r : label) (m : string) (v0 : cell) :
  resource_df st = Some resource ->
  rectangular resource = true ->
  display_projection resource (map LStr cols) = Ok df_view ->
  render_phase_view data_editor cols phase_name st = Ok o ->
  m ∈ cols ->
  loc (data_editor ("editor_" +:+ phase_name) df_view) r (LStr m) = Some VNaN ->
  loc resource r (LStr m) = Some v0 ->
  exists resource' : DataFrame,
    resource_df (outcome_state o) = Some resource' /\
    loc resource' r (LStr m) = Some v0.
Proof.
  intros Hres Hrect Hview Ho Hm Hna Hloc.
  apply render_phase_view_Ok in Ho
    as (resource0 & df_view0 & Hres0 & Hview0 & [[_ (patch & Hp & ->)]|[_ H]]).
  - assert (resource0 = resource) as -> by congruence.
    assert (df_view0 = df_view) as -> by congruence.
    eexists. split; [done|].
    rewrite (update_loc _ _ _ _ _ Hrect Hloc).
    rewrite (getitem_loc _ _ _ r (LStr m) Hp), Hna; [done|].
    by apply elem_of_map_LStr.
  - destruct H as (st' & totals & peak & Hst' & _ & _ & ->).
    exists resource. split; [|done]. simpl. congruence.
Qed.

Lemma untouched_outside_loc (cols : list string) (before after : DataFrame)
    (r c : label) :
  untouched_outside cols before after -> c ∉ map LStr cols ->
  loc after r c = loc before r c.
Proof. intros (Hidx & _ & Hcol) Hc. unfold loc. by rewrite Hidx, Hcol. Qed.

End Reconciliation.

(** C1: whatever the grid of a phase returns, the pass through that phase
    view changes the table at most in the columns of that phase: the table
    keeps its rows and its columns, every column outside the phase keeps its
    cells, so no cell under a month of the other phase changes, and no
    "Phase Total" is written (no such column appears, and a column of that
    name would keep its cells). *)
Theorem reconciliation_scoped_to_phase
    (data_editor : string -> DataFrame -> DataFrame) (phase_name : string)
    (st : session_state) (resource : DataFrame) :
  resource_df st = Some resource ->
  (forall o : outcome,
     render_phase_view data_editor phase1_cols phase_name st = Ok o ->
     exists resource' : DataFrame,
       resource_df (outcome_state o) = Some resource' /\
       untouched_outside phase1_cols resource resource' /\
       (forall m r, m ∈ phase2_cols ->
                    loc resource' r (LStr m) = loc resource r (LStr m)) /\
       assoc (LStr "Phase Total") (columns resource')
       = assoc (LStr "Phase Total") (columns resource)) /\
  (forall o : outcome,
     render_phase_view data_editor phase2_cols phase_name st = Ok o ->
     exists resource' : DataFrame,
       resource_df (outcome_state o) = Some resource' /\
       untouched_outside phase2_cols resource resource' /\
       (forall m r, m ∈ phase1_cols ->
                    loc resource' r (LStr m) = loc resource r (LStr m)) /\
       assoc (LStr "Phase Total") (columns resource')
       = assoc (LStr "Phase Total") (columns resource)).
Proof.
  intros Hres. split; intros o Ho;
    destruct (reconciliation_frame _ _ _ _ _ _ Hres Ho) as (resource' & Ho' & Hframe);
    exists resource'; (split; [done|]); (split; [done|]); split.
  - intros m r Hm. apply (untouched_outside_loc _ _ _ _ _ Hframe).
    rewrite elem_of_map_LStr. intros H1. by apply (phases_disjoint m).
  - apply Hframe. rewrite elem_of_map_LStr. intros H.
    apply phase_total_no_month. rewrite <- phases_partition. apply elem_of_app. by left.
  - intros m r Hm. apply (untouched_outside_loc _ _ _ _ _ Hframe).
    rewrite elem_of_map_LStr. intros H2. by apply (phases_disjoint m).
  - apply Hframe. rewrite elem_of_map_LStr. intros H.
    apply phase_total_no_month. rewrite <- phases_partition. apply elem_of_app. by right.
Qed.

Lemma reconciliation_scoped_to_phase_witness :
  exists resource' : DataFrame,
    resource_df (outcome_state cleared_outcome) = Some resource' /\
    untouched_outside phase1_cols seeded_table resource' /\
    (forall m r, m ∈ phase2_cols ->
                 loc resource' r (LStr m) = loc seeded_table r (LStr m)) /\
    assoc (LStr "Phase Total") (columns resource')
    = assoc (LStr "Phase Total") (columns seeded_table).
Proof.
  destruct (reconciliation_scoped_to_phase cleared_edit "Year 1" seeded_session
              seeded_table eq_refl) as [H _].
  apply (H cleared_outcome). vm_compute. reflexivity.
Defined.

(** ** The table never loses a cell *)

Section TableInvariant.

Variable P : DataFrame -> Prop.
Hypothesis P_seeded : P seeded_table.
Hypothesis P_update : forall self other, P self -> P (update self other).

(** A property of the seeded table that [update] keeps holds after every
    run of the script. *)
Lemma script_preserves (data_editor : string -> DataFrame -> DataFrame)
    (st : session_state) (r : run_result) :
  (forall df, resource_df st = Some df -> P df) ->
  script data_editor st = Ok r ->
  exists df, resource_df (run_state r) = Some df /\ P df.
Proof.
  intros Hst H. unfold script in H.
  pose proof (initialize_resource st) as Hinit.
  assert (Hdf : P (default seeded_table
                           (resource_df st))).
  { destruct (resource_df st) as [df|]; [by apply Hst | apply P_seeded]. }
  set (df0 := default _ _) in *. clearbody df0.
  assert (Hstep : forall cols phase_name st1 o df1,
            resource_df st1 = Some df1 -> P df1 ->
            render_phase_view data_editor cols phase_name st1 = Ok o ->
            exists df2, resource_df (outcome_state o) = Some df2 /\ P df2).
  { intros cols phase_name st1 o df1 H1 HP Ho.
    destruct (render_phase_view_table _ _ _ _ _ _ H1 Ho) as [E|(patch & _ & E)];
      eauto. }
  inv_bind_as H tab1 Htab1.
  destruct (Hstep _ _ _ _ _ Hinit Hdf Htab1) as (df1 & H1 & HP1).
  destruct tab1 as [st1|st1 year1]; simpl in H1.
  - injection H as <-. eauto.
  - inv_bind_as H tab2 Htab2.
    destruct (Hstep _ _ _ _ _ H1 HP1 Htab2) as (df2 & H2 & HP2).
    destruct tab2 as [st2|st2 year2]; simpl in H2.
    + injection H as <-. eauto.
    + inv_bind_as H g Hg. injection H as <-. eauto.
Qed.

Lemma reachable_preserves (st : session_state) (df : DataFrame) :
  reachable st -> resource_df st = Some df -> P df.
Proof.
  intros H. revert df.
  induction H as [|data_editor st r _ _ IH Hrun]; intros df Hdf.
  - discriminate Hdf.
  - destruct (script_preserves data_editor st r IH Hrun) as (df' & E & HP).
    congruence.
Qed.

End TableInvariant.

Lemma no_missing_cell_loc (months : list string) (df : DataFrame) (m : string)
    (r : label) :
  no_missing_cell months df = true -> m ∈ months -> r ∈ index df ->
  exists v : cell, loc df r (LStr m) = Some v /\ isna v = false.
Proof.
  unfold no_missing_cell. rewrite forallb_forall. intros H Hm Hr.
  specialize (H m (proj1 (list_elem_of_In _ _) Hm)). unfold loc.
  destruct (assoc (LStr m) (columns df)) as [vs|]; [|done]. simpl.
  apply andb_true_iff in H as [Hlen Hnan]. apply Nat.eqb_eq in Hlen.
  destruct (index_pos_elem _ _ Hr) as [p Hp]. rewrite Hp. simpl.
  pose proof (lookup_lt_Some _ _ _ (index_pos_lookup _ _ _ Hp)) as Hlt.
  destruct (lookup_lt_is_Some_2 vs p ltac:(lia)) as [v Hv].
  exists v. split; [done|].
  apply forallb_no_nan in Hnan. rewrite Forall_forall in Hnan.
  apply Hnan. by eapply list_elem_of_lookup_2.
Qed.

Lemma seeded_table_zero :
  Forall (fun m => Forall (fun r =>
            loc seeded_table r (LStr m)
            = Some (VInt 0)) (range_index 5)) all_months.
Proof. apply (bool_decide_unpack _). vm_compute. exact I. Qed.

(** C10: the allocation table never has a missing month cell.
    Initialisation gives every month cell of every row the value 0; a pass
    through a phase view, whatever the grid returns, leaves no missing cell
    in a table that had none; a cell that comes back missing from the grid
    keeps the value it had; so in every session state the page can reach,
    every month cell of every row holds a value. *)
Theorem no_missing_cell_invariant :
  (forall st : session_state,
     resource_df st = None ->
     exists df : DataFrame,
       resource_df (initialize st) = Some df /\
       forall m r, m ∈ all_months -> r ∈ index df ->
                   loc df r (LStr m) = Some (VInt 0)) /\
  (forall (data_editor : string -> DataFrame -> DataFrame) (cols : list string)
          (phase_name : string) (st : session_state) (resource : DataFrame)
          (o : outcome),
     resource_df st = Some resource ->
     no_missing_cell all_months resource = true ->
     render_phase_view data_editor cols phase_name st = Ok o ->
     exists resource' : DataFrame,
       resource_df (outcome_state o) = Some resource' /\
       no_missing_cell all_months resource' = true) /\
  (forall (data_editor : string -> DataFrame -> DataFrame) (cols : list string)
          (phase_name : string) (st : session_state) (o : outcome)
          (resource df_view : DataFrame) (r : label) (m : string) (v0 : cell),
     resource_df st = Some resource ->
     rectangular resource = true ->
     display_projection resource (map LStr cols) = Ok df_view ->
     render_phase_view data_editor cols phase_name st = Ok o ->
     m ∈ cols ->
     loc (data_editor ("editor_" +:+ phase_name) df_view) r (LStr m) = Some VNaN ->
     loc resource r (LStr m) = Some v0 ->
     exists resource' : DataFrame,
       resource_df (outcome_state o) = Some resource' /\
       loc resource' r (LStr m) = Some v0) /\
  (forall (st : session_state) (df : DataFrame) (m : string) (r : label),
     reachable st -> resource_df st = Some df ->
     m ∈ all_months -> r ∈ index df ->
     exists v : cell, loc df r (LStr m) = Some v /\ isna v = false).
Proof.
  repeat split.
  - intros st Hnone. eexists. split.
    + rewrite initialize_resource, Hnone. reflexivity.
    + intros m r Hm Hr. pose proof seeded_table_zero as H.
      rewrite Forall_forall in H. specialize (H m Hm).
      rewrite Forall_forall in H. by apply H.
  - intros data_editor cols phase_name st resource o Hres Hfull Ho.
    destruct (render_phase_view_table _ _ _ _ _ _ Hres Ho) as [E|(patch & _ & E)].
    + eauto.
    + eexists. split; [exact E|]. by apply update_no_missing_cell.
  - apply cleared_cell_retained.
  - intros st df m r Hreach Hdf Hm Hr.
    apply (no_missing_cell_loc all_months); [|done..].
    apply (reachable_preserves (fun df => no_missing_cell all_months df = true)
             seeded_table_full (update_no_missing_cell all_months) st df);
      done.
Qed.

Lemma no_missing_cell_invariant_witness :
  exists resource' : DataFrame,
    resource_df (outcome_state cleared_outcome) = Some resource' /\
    no_missing_cell all_months resource' = true.
Proof.
  destruct no_missing_cell_invariant as (_ & H & _).
  apply (H cleared_edit phase1_cols "Year 1" seeded_session
           seeded_table cleared_outcome);
    vm_compute; reflexivity.
Defined.

(** ** Validation of edits *)




(** ** Aggregation *)

Section Aggregation.

Implicit Types (resource view : DataFrame) (totals : Series).

Lemma month_totals_Ok resource (labels : list label) totals :
  month_totals resource labels = Ok totals ->
  exists view, getitem resource labels = Ok view /\ sum_axis0 view = Ok totals.
Proof. unfold month_totals. intros H. inv_bind H. eauto. Qed.

(** With distinct column names in the table, the selected columns are the
    columns of the listed names, one for each. *)
Lemma getitem_columns resource (labels : list label) view :
  NoDup (column_labels resource) ->
  getitem resource labels = Ok view ->
  columns view = map (fun c => (c, default [] (assoc c (columns resource)))) labels.
Proof.
  intros Hnd H. pose proof (getitem_unique _ _ _ Hnd H) as HF. clear H.
  induction HF as [|c [l vs] ls cs [Hl Hv] _ IH]; simpl; [done|].
  cbn in Hl, Hv. subst l. by rewrite Hv, IH.
Qed.

(** Entry by entry, the totals are the sums of the selected columns. *)
Lemma month_totals_entries resource (labels : list label) totals :
  NoDup (column_labels resource) ->
  month_totals resource labels = Ok totals ->
  totals = map (fun c => (c, wrap64 (column_days resource c))) labels /\
  forall c, c ∈ labels -> numeric_column resource c.
Proof.
  intros Hnd (view & Hview & Hsum)%month_totals_Ok.
  apply sum_axis0_Ok in Hsum as [-> Hnum].
  rewrite (getitem_columns _ _ _ Hnd Hview) in *. split.
  - by rewrite map_map.
  - intros c Hc. destruct (proj2 (proj2 (getitem_Ok _ _ _ Hview)) c Hc) as [vs Hvs].
    exists vs. split; [done|]. rewrite Forall_forall in Hnum.
    specialize (Hnum (c, default [] (assoc c (columns resource)))).
    rewrite Hvs in Hnum. apply Hnum, list_elem_of_fmap. exists c. by rewrite Hvs.
Qed.

Lemma month_totals_app resource (l1 l2 : list label) totals :
  month_totals resource (l1 ++ l2) = Ok totals ->
  exists t1 t2, month_totals resource l1 = Ok t1 /\
                month_totals resource l2 = Ok t2 /\ totals = t1 ++ t2.
Proof.
  intros (view & Hview & Hsum)%month_totals_Ok.
  apply getitem_app in Hview as (s1 & s2 & H1 & H2 & Hcols).
  destruct view as [idx cs]. simpl in Hcols. subst cs.
  apply sum_axis0_app in Hsum as (t1 & t2 & Ht1 & Ht2 & ->).
  exists t1, t2. unfold month_totals. rewrite H1, H2. simpl.
  unfold sum_axis0 in *. simpl in *. by rewrite Ht1, Ht2.
Qed.

(** The phase total is the sum of the days under the listed columns, in 64
    bits. *)
Lemma series_sum_columns resource (labels : list label) :
  series_sum (map (fun c => (c, wrap64 (column_days resource c))) labels)
  = wrap64 (zsum (map (column_days resource) labels)).
Proof.
  rewrite series_sum_zsum, map_map. cbn [snd].
  rewrite <- (map_map (column_days resource) wrap64). apply wrap64_zsum_map.
Qed.

(** The rows of the selected columns, and their sums against the column
    sums. *)
Lemma row_days_columns resource (labels : list label) view (i : nat) :
  NoDup (column_labels resource) ->
  getitem resource labels = Ok view ->
  zsum (map cell_days (row view i)) = row_days resource labels i.
Proof.
  intros Hnd H. unfold row, row_days.
  by rewrite (getitem_columns _ _ _ Hnd H), !map_map.
Qed.

Lemma rows_columns_days resource (labels : list label) view :
  rectangular resource = true ->
  NoDup (column_labels resource) ->
  getitem resource labels = Ok view ->
  zsum (map (row_days resource labels) (seq 0 (length (index resource))))
  = zsum (map (column_days resource) labels).
Proof.
  intros Hrect Hnd H.
  pose proof (getitem_rectangular _ _ _ Hrect H) as Hrv.
  apply rectangular_spec in Hrv. rewrite (proj1 (getitem_Ok _ _ _ H)) in Hrv.
  pose proof (rows_columns_interchange _ _ Hrv) as E.
  rewrite (getitem_columns _ _ _ Hnd H), !map_map in E. cbn [snd] in E.
  unfold column_days. rewrite <- E. f_equal. apply map_ext. intros i.
  unfold row_days. by rewrite !map_map.
Qed.

(** *** Sums that stay within 64 bits *)

Lemma zsum_map_le {A : Type} (f g : A -> Z) (l : list A) :
  (forall a, a ∈ l -> f a <= g a) -> zsum (map f l) <= zsum (map g l).
Proof.
  induction l as [|a l IH]; intros H; [done|].
  unfold zsum in *. cbn [map fold_right].
  pose proof (H a ltac:(left)). specialize (IH (fun b Hb => H b ltac:(by right))).
  lia.
Qed.

Lemma zsum_elem_le {A : Type} (f : A -> Z) (l : list A) (a : A) :
  (forall b, 0 <= f b) -> a ∈ l -> f a <= zsum (map f l).
Proof.
  intros Hpos. induction l as [|b l IH]; [by intros ?%elem_of_nil|].
  assert (0 <= zsum (map f l)).
  { clear IH. induction l as [|c l IH]; [done|].
    unfold zsum in *. cbn [map fold_right]. pose proof (Hpos c). lia. }
  unfold zsum in *. cbn [map fold_right].
  intros [->|Ha]%elem_of_cons; [lia|]. pose proof (Hpos b). specialize (IH Ha). lia.
Qed.

Local Abbreviation magnitude :=
  (fun vs : list cell => zsum (map (fun v => Z.abs (cell_days v)) vs)).

Lemma magnitude_column resource (labels : list label) (c : label) :
  c ∈ labels ->
  magnitude (default [] (assoc c (columns resource)))
  <= days_magnitude resource labels.
Proof.
  intros Hc. unfold days_magnitude.
  apply (zsum_elem_le
           (fun c => magnitude (default [] (assoc c (columns resource))))); [|done].
  intros b. rewrite <- (map_map cell_days Z.abs). apply zsum_abs_nonneg.
Qed.

Lemma column_days_magnitude resource (c : label) :
  Z.abs (column_days resource c)
  <= magnitude (default [] (assoc c (columns resource))).
Proof.
  unfold column_days. rewrite <- (map_map cell_days Z.abs). apply zsum_abs.
Qed.

Lemma nth_days_magnitude (vs : list cell) (i : nat) :
  Z.abs (cell_days (nth i vs VNaN)) <= magnitude vs.
Proof.
  destruct (nth_in_or_default i vs VNaN) as [Hin| ->].
  - apply (zsum_elem_le (fun v => Z.abs (cell_days v))); [lia|].
    by apply list_elem_of_In.
  - cbn [cell_days]. rewrite <- (map_map cell_days Z.abs).
    pose proof (zsum_abs_nonneg (map cell_days vs)). lia.
Qed.

Lemma column_days_int64 resource (labels : list label) (c : label) :
  days_magnitude resource labels <= INT64_MAX -> c ∈ labels ->
  int64 (column_days resource c).
Proof.
  intros Hmax Hc. pose proof (magnitude_column resource labels c Hc).
  pose proof (column_days_magnitude resource c).
  unfold int64, INT64_MIN, INT64_MAX in *. lia.
Qed.

Lemma total_days_int64 resource (labels : list label) :
  days_magnitude resource labels <= INT64_MAX ->
  int64 (zsum (map (column_days resource) labels)).
Proof.
  intros Hmax. pose proof (zsum_abs (map (column_days resource) labels)) as H1.
  rewrite map_map in H1.
  pose proof (zsum_map_le (fun c => Z.abs (column_days resource c))
                (fun c => magnitude (default [] (assoc c (columns resource))))
                labels (fun c _ => column_days_magnitude resource c)) as H2.
  unfold days_magnitude in Hmax. unfold int64, INT64_MIN, INT64_MAX in *. lia.
Qed.

Lemma row_days_int64 resource (labels : list label) (i : nat) :
  days_magnitude resource labels <= INT64_MAX ->
  int64 (row_days resource labels i).
Proof.
  intros Hmax. unfold row_days.
  pose proof (zsum_abs (map (fun c => cell_days
                (nth i (default [] (assoc c (columns resource))) VNaN)) labels)) as H1.
  rewrite map_map in H1.
  pose proof (zsum_map_le
                (fun c => Z.abs (cell_days
                   (nth i (default [] (assoc c (columns resource))) VNaN)))
                (fun c => magnitude (default [] (assoc c (columns resource))))
                labels (fun c _ => nth_days_magnitude _ i)) as H2.
  unfold days_magnitude in Hmax. unfold int64, INT64_MIN, INT64_MAX in *. lia.
Qed.

Lemma days_magnitude_app resource (l1 l2 : list label) :
  days_magnitude resource (l1 ++ l2)
  = days_magnitude resource l1 + days_magnitude resource l2.
Proof. unfold days_magnitude. by rewrite map_app, zsum_app. Qed.

Lemma days_magnitude_nonneg resource (labels : list label) :
  0 <= days_magnitude resource labels.
Proof.
  unfold days_magnitude. induction labels as [|c labels IH]; [done|].
  unfold zsum in *. cbn [map fold_right].
  pose proof (zsum_abs_nonneg (map cell_days (default [] (assoc c (columns resource)))))
    as H. rewrite map_map in H. unfold zsum in H. lia.
Qed.

End Aggregation.

(** C7, as stated, fails.  The sums are 64-bit sums: in a table with two
    cells of 2^62 days in one month the phase total is not the sum of the
    cells.  And for a list of months that names a month twice the "Phase
    Total" of the display counts that month four times, the phase total
    twice. *)
Lemma phase_total_wraps_and_counts_repeats :
  (exists totals : Series,
     month_totals heavy_table (map LStr phase1_cols) = Ok totals /\
     series_sum totals = - 2 ^ 63 + 1 /\
     zsum (map (column_days heavy_table) (map LStr phase1_cols)) = 2 ^ 63 + 1) /\
  (exists (totals : Series) (df_view : DataFrame) (phase_total : list cell),
     month_totals planned_table [LStr "Jul '25"; LStr "Jul '25"] = Ok totals /\
     display_projection planned_table [LStr "Jul '25"; LStr "Jul '25"] = Ok df_view /\
     assoc (LStr "Phase Total") (columns df_view) = Some phase_total /\
     series_sum totals = 20 /\
     zsum (map cell_days phase_total) = 40).
Proof.
  split.
  - eexists. split; [vm_compute; reflexivity|]. split; vm_compute; reflexivity.
  - eexists _, _, _. split; [vm_compute; reflexivity|].
    split; [vm_compute; reflexivity|]. split; [vm_compute; reflexivity|].
    split; vm_compute; reflexivity.
Qed.



(** C8, as stated, fails: the totals are 64-bit sums.  With two cells of
    2^62 days in July 2025 and one day in August 2025 the peak month that is
    shown is August 2025, with 1 day, although the days of July 2025 add up
    to 2^63. *)
Lemma peak_month_is_not_the_largest_sum :
  exists (st' : session_state) (s : summary),
    render_phase_view no_edit phase1_cols "Year 1" heavy_session = Ok (Done st' s) /\
    busy_month s = LStr "Aug '25" /\
    busy_count s = VInt 1 /\
    column_days heavy_table (LStr "Jul '25") = 2 ^ 63 /\
    column_days heavy_table (LStr "Aug '25") = 1.
Proof.
  eexists _, _. split; [vm_compute; reflexivity|].
  repeat split; vm_compute; reflexivity.
Qed.



Lemma grand_total_split (st : session_state) (g : Z) :
  grand_total st = Ok g ->
  exists (resource : DataFrame) (totals t1 t2 : Series),
    resource_df st = Some resource /\
    month_totals resource (map LStr all_months) = Ok totals /\
    month_totals resource (map LStr phase1_cols) = Ok t1 /\
    month_totals resource (map LStr phase2_cols) = Ok t2 /\
    g = series_sum totals /\
    series_sum totals = wrap64 (series_sum t1 + series_sum t2).
Proof.
  unfold grand_total. intros H.
  inv_bind_as H resource Hres. apply get_resource_df_Ok in Hres.
  inv_bind_as H totals Htot. injection H as <-.
  pose proof Htot as Hall.
  rewrite <- phases_partition, map_app in Htot.
  apply month_totals_app in Htot as (t1 & t2 & H1 & H2 & ->).
  exists resource, (t1 ++ t2), t1, t2. by rewrite series_sum_app.
Qed.

(** C9, as stated, fails: the totals are 64-bit sums.  With 2^63 - 1 days in
    July 2025 and one day in July 2026 the two phase totals are 2^63 - 1 and
    1, and the grand total is -2^63. *)
Lemma grand_total_is_not_the_sum_of_phase_totals :
  exists (t1 t2 : Series) (g : Z),
    month_totals split_table (map LStr phase1_cols) = Ok t1 /\
    month_totals split_table (map LStr phase2_cols) = Ok t2 /\
    grand_total split_session = Ok g /\
    series_sum t1 = 2 ^ 63 - 1 /\
    series_sum t2 = 1 /\
    g = - 2 ^ 63 /\
    g <> series_sum t1 + series_sum t2.
Proof.
  eexists _, _, _. split; [vm_compute; reflexivity|].
  split; [vm_compute; reflexivity|]. split; [vm_compute; reflexivity|].
  split; [vm_compute; reflexivity|]. split; [vm_compute; reflexivity|].
  split; [vm_compute; reflexivity|]. vm_compute. discriminate.
Qed.



(** ** The script runs without a fault *)

Section NoFault.

Variable data_editor : string -> DataFrame -> DataFrame.
Hypothesis editor_grid : grid_editor data_editor.

Local Abbreviation numeric := (Forall (fun v : cell => is_text v = false)).

Lemma where_numeric (this : list cell) : forall that,
  numeric this -> numeric that -> numeric (where_ this (map isna that) that).
Proof.
  induction this as [|t this IH]; intros [|o that] Ht Ho; simpl; try done.
  inversion Ht; inversion Ho; subst. constructor; [|by apply IH].
  by destruct (isna o).
Qed.

Lemma update_column_numeric (this that : list cell) :
  numeric this -> numeric that -> numeric (update_column this that).
Proof.
  intros Ht Ho. unfold update_column.
  destruct (forallb id (map isna that)); [done | by apply where_numeric].
Qed.

Lemma reindex_column_numeric (old_index new_index : list label) (vs : list cell) :
  numeric vs -> numeric (reindex_column old_index new_index vs).
Proof.
  intros H. unfold reindex_column. apply Forall_fmap, Forall_forall.
  intros r _. simpl. destruct (index_pos r old_index) as [p|]; [|done].
  destruct (nth_in_or_default p vs VNaN) as [Hin| ->]; [|done].
  rewrite Forall_forall in H. by apply H, list_elem_of_In.
Qed.

Lemma update_table_ok (self patch : DataFrame) :
  table_ok self ->
  (forall c vs, assoc c (columns patch) = Some vs -> numeric vs) ->
  table_ok (update self patch).
Proof.
  intros (Hrect & Hnd & Hres & Hrole & Hmonths) Hpatch.
  split; [by apply update_rectangular|].
  split; [by rewrite update_column_labels|].
  split; [rewrite update_assoc; by apply fmap_is_Some|].
  split; [rewrite update_assoc; by apply fmap_is_Some|].
  intros m Hm. destruct (Hmonths m Hm) as (this & Hthis & Hnum).
  unfold numeric_column. rewrite update_assoc, Hthis. simpl. eexists. split; [done|].
  destruct (assoc (LStr m) (columns patch)) as [vs|] eqn:E; [|done].
  apply update_column_numeric; [done|].
  apply reindex_column_numeric. by eapply Hpatch.
Qed.

Lemma update_deliverables_ok (self other : DataFrame) :
  deliverables_ok self -> deliverables_ok (update self other).
Proof.
  intros [Hidx Hcols]. split; [done|].
  intros m Hm. rewrite update_assoc. by apply fmap_is_Some, Hcols.
Qed.

Lemma getitem_numeric (df sub : DataFrame) (labels : list label) :
  NoDup (column_labels df) ->
  getitem df labels = Ok sub ->
  (forall c, c ∈ labels -> numeric_column df c) ->
  Forall (fun col => numeric col.2) (columns sub).
Proof.
  intros Hnd H Hnum. pose proof (getitem_unique _ _ _ Hnd H) as HF. clear H.
  induction HF as [|l col ls cs [_ Hv] _ IH]; constructor.
  - destruct (Hnum l ltac:(left)) as (vs & Hvs & Hn). congruence.
  - apply IH. intros c Hc. apply Hnum. by right.
Qed.

Lemma sum_axis0_total (df : DataFrame) :
  Forall (fun col => numeric col.2) (columns df) ->
  exists totals, sum_axis0 df = Ok totals /\ length totals = length (columns df).
Proof.
  intros H. unfold sum_axis0.
  rewrite (mapM_total _ (fun col => (col.1, wrap64 (zsum (map cell_days col.2))))).
  - eexists. split; [done|]. by rewrite length_map.
  - intros col Hcol. rewrite Forall_forall in H.
    by rewrite (sum_cells_numeric _ (H col Hcol)).
Qed.

Lemma month_totals_total (resource : DataFrame) (labels : list label) :
  NoDup (column_labels resource) ->
  (forall c, c ∈ labels -> numeric_column resource c) ->
  exists totals, month_totals resource labels = Ok totals /\
                 length totals = length labels.
Proof.
  intros Hnd Hnum. destruct (getitem_total resource labels) as [view Hview].
  { intros c Hc. destruct (Hnum c Hc) as (vs & -> & _). eauto. }
  destruct (sum_axis0_total view) as (totals & Htot & Hlen).
  { by eapply getitem_numeric. }
  exists totals. unfold month_totals. rewrite Hview. simpl. split; [done|].
  rewrite Hlen, <- (getitem_labels _ _ _ Hnd Hview).
  unfold column_labels. by rewrite length_map.
Qed.

Lemma display_projection_total (resource : DataFrame) (labels : list label) :
  table_ok resource ->
  NoDup ([LStr "Resource"; LStr "Role"] ++ labels) ->
  (forall c, c ∈ labels -> numeric_column resource c) ->
  exists (base : DataFrame) (phase_total : list Z),
    getitem resource ([LStr "Resource"; LStr "Role"] ++ labels) = Ok base /\
    display_projection resource labels
    = Ok (setitem base (LStr "Phase Total") (map VInt phase_total)).
Proof.
  intros (Hrect & Hnd & Hres & Hrole & _) Hlabels Hnum.
  destruct (getitem_total resource ([LStr "Resource"; LStr "Role"] ++ labels))
    as [base Hbase].
  { intros c [->|[->|Hc]%elem_of_cons]%elem_of_cons; [done..|].
    destruct (Hnum c Hc) as (vs & -> & _). eauto. }
  destruct (getitem_total resource labels) as [view Hview].
  { intros c Hc. destruct (Hnum c Hc) as (vs & -> & _). eauto. }
  exists base, (map (fun i => wrap64 (zsum (map cell_days (row view i))))
                    (seq 0 (length (index view)))).
  split; [done|]. unfold display_projection. rewrite Hbase. simpl.
  rewrite (display_projection_sub _ _ _ Hlabels Hbase), Hview. simpl.
  rewrite sum_axis1_numeric; [done|]. by eapply getitem_numeric.
Qed.

Lemma set_columns_transpose (df : DataFrame) (l : label) :
  length (index df) = 1%nat -> exists v, set_columns (transpose df) [l] = Ok v.
Proof.
  intros H. unfold set_columns, transpose. cbn [columns].
  rewrite length_imap, H. simpl. eauto.
Qed.

Lemma set_columns_one (df del_view : DataFrame) (l : label) :
  set_columns df [l] = Ok del_view -> column_labels del_view = [l].
Proof.
  unfold set_columns. destruct (Nat.eqb_spec (length [l]) (length (columns df)))
    as [E|]; [|done].
  intros [= <-]. unfold column_labels. cbn [columns].
  destruct (columns df) as [|c [|c' cs]]; done.
Qed.

Lemma months_are_no_name_column (cols : list string) :
  cols ⊆ all_months -> NoDup cols ->
  NoDup ([LStr "Resource"; LStr "Role"] ++ map LStr cols).
Proof.
  intros Hsub Hnd.
  assert (Hno : forall c, c ∈ ["Resource"; "Role"] -> c ∉ all_months).
  { apply Forall_forall. apply (bool_decide_unpack _). vm_compute. exact I. }
  cbn [app]. apply NoDup_cons. split.
  { intros [[=]|Hin%elem_of_map_LStr]%elem_of_cons.
    apply (Hno "Resource"); [left | by apply Hsub]. }
  apply NoDup_cons. split.
  { intros Hin%elem_of_map_LStr. apply (Hno "Role"); [right; left | by apply Hsub]. }
  apply NoDup_fmap_2; [|done]. by intros x y [= ->].
Qed.

(** From a well-formed session with both tables, a pass through the view of
    a non-empty list of distinct months ends without a fault, in a
    well-formed session. *)
Lemma render_phase_view_total (cols : list string) (phase_name : string)
    (st : session_state) :
  session_ok st ->
  is_Some (resource_df st) -> is_Some (deliverables_df st) ->
  cols ⊆ all_months -> NoDup cols -> cols <> [] ->
  exists o : outcome,
    render_phase_view data_editor cols phase_name st = Ok o /\
    session_ok (outcome_state o) /\
    is_Some (resource_df (outcome_state o)) /\
    is_Some (deliverables_df (outcome_state o)).
Proof.
  intros [Htab Hdel] [resource Hres] [deliv Hdeliv] Hsub Hcols Hne.
  destruct editor_grid as (Hnumeric & Hrows & Hlabels).
  pose proof (Htab _ Hres) as Hok. pose proof (Hdel _ Hdeliv) as Hdok.
  pose proof Hok as (_ & Hnd & _).
  assert (Hnum : forall c, c ∈ map LStr cols -> numeric_column resource c).
  { intros c (m & -> & Hm)%list_elem_of_fmap. apply Hok. by apply Hsub. }
  destruct (display_projection_total resource (map LStr cols) Hok
              (months_are_no_name_column cols Hsub Hcols) Hnum)
    as (base & phase_total & Hbase & Hproj).
  unfold render_phase_view, get_resource_df. rewrite Hres. simpl.
  rewrite Hproj. simpl.
  set (df_view := setitem base (LStr "Phase Total") (map VInt phase_total)).
  unfold equals.
  destruct (decide (data_editor ("editor_" +:+ phase_name) df_view = df_view))
    as [Heq|Hneq].
  - rewrite bool_decide_eq_true_2 by done. simpl.
    destruct (month_totals_total resource (map LStr cols) Hnd Hnum)
      as (totals & -> & Hlen). simpl.
    unfold get_deliverables_df. rewrite Hdeliv. simpl.
    destruct (getitem_total deliv (map LStr cols)) as [del_cols Hdc].
    { intros c (m & -> & Hm)%list_elem_of_fmap. apply Hdok. by apply Hsub. }
    rewrite Hdc. simpl.
    destruct (set_columns_transpose del_cols (LStr "Deliverable Description"))
      as [del_view Hdv].
    { rewrite (proj1 (getitem_Ok _ _ _ Hdc)). apply Hdok. }
    rewrite Hdv. simpl. rewrite length_map in Hlen.
    assert (Hre : can_reindex deliv
                    (transpose (data_editor ("del_editor_" +:+ phase_name) del_view))
                  = true).
    { apply can_reindex_NoDup. cbn [transpose index].
      rewrite Hlabels, (set_columns_one _ _ _ Hdv). apply NoDup_singleton. }
    unfold DataFrame_update. rewrite Hre.
    destruct totals as [|p totals]; [by destruct cols|].
    destruct cols as [|m cols]; [done|].
    destruct (negb _); simpl; (eexists; split; [done|]); simpl.
    + split; [split|].
      * simpl. intros df [= <-]. exact Hok.
      * simpl. intros df [= <-]. by apply update_deliverables_ok.
      * simpl. eauto.
    + split; [by split|]. rewrite ?Hres, ?Hdeliv. eauto.
  - rewrite bool_decide_eq_false_2 by done. simpl.
    assert (Hed : forall c, c ∈ map LStr cols ->
              numeric_column (data_editor ("editor_" +:+ phase_name) df_view) c).
    { intros c Hc. apply Hnumeric.
      destruct (Hnum c Hc) as (vs & Hvs & Hn). exists vs. split; [|done].
      unfold df_view, setitem. cbn [columns].
      rewrite assoc_dict_set_ne.
      - rewrite <- Hvs. apply (getitem_assoc _ _ _ _ Hbase).
        apply elem_of_app. by right.
      - intros ->. apply list_elem_of_fmap in Hc as (m & [= <-] & Hm).
        by apply phase_total_no_month, Hsub. }
    destruct (getitem_total (data_editor ("editor_" +:+ phase_name) df_view)
                (map LStr cols)) as [patch Hpatch].
    { intros c Hc. destruct (Hed c Hc) as (vs & -> & _). eauto. }
    rewrite Hpatch. simpl.
    assert (Hre : can_reindex resource patch = true).
    { apply can_reindex_same.
      rewrite (proj1 (getitem_Ok _ _ _ Hpatch)), Hrows.
      unfold df_view. cbn [setitem index]. apply (getitem_Ok _ _ _ Hbase). }
    unfold DataFrame_update. rewrite Hre. simpl.
    eexists. split; [done|]. simpl.
    split; [split|rewrite Hdeliv; eauto].
    + intros df [= <-]. apply update_table_ok; [done|].
      intros c vs Hc.
      destruct (decide (c ∈ map LStr cols)) as [Hin|Hout].
      * rewrite (proj1 (getitem_assoc _ _ _ _ Hpatch Hin)) in Hc.
        destruct (Hed c Hin) as (vs' & Hvs' & Hn). congruence.
      * by rewrite (getitem_assoc_None _ _ _ _ Hpatch Hout) in Hc.
    + intros df Hdf. by apply Hdel.
Qed.

Lemma seeded_table_ok : table_ok seeded_table.
Proof.
  split; [reflexivity|].
  split; [apply (bool_decide_unpack _); vm_compute; exact I|].
  split; [by eexists|]. split; [by eexists|].
  apply Forall_forall. apply (bool_decide_unpack _). vm_compute. exact I.
Qed.

Lemma seeded_deliverables_ok : deliverables_ok seeded_deliverables.
Proof.
  split; [reflexivity|]. apply Forall_forall. repeat constructor; by eexists.
Qed.

Lemma initialize_ok (st : session_state) :
  session_ok st ->
  session_ok (initialize st) /\
  is_Some (resource_df (initialize st)) /\
  is_Some (deliverables_df (initialize st)).
Proof.
  intros [Htab Hdel]. unfold session_ok.
  rewrite initialize_resource, initialize_deliverables.
  split; [split|eauto]; intros df [= <-].
  - destruct (resource_df st) as [df|]; [by apply Htab | apply seeded_table_ok].
  - destruct (deliverables_df st) as [df|];
      [by apply Hdel | apply seeded_deliverables_ok].
Qed.

Lemma phase1_cols_NoDup : NoDup phase1_cols.
Proof. apply (bool_decide_unpack _). vm_compute. exact I. Qed.

Lemma phase2_cols_NoDup : NoDup phase2_cols.
Proof. apply (bool_decide_unpack _). vm_compute. exact I. Qed.

(** With a grid that returns the rows and columns it is shown, and numbers
    in the number columns, a run of the script from a well-formed session
    ends without a fault and leaves a well-formed session. *)
Lemma script_never_faults (st : session_state) :
  session_ok st ->
  exists r : run_result, script data_editor st = Ok r /\ session_ok (run_state r).
Proof.
  intros Hst. destruct (initialize_ok st Hst) as (H0 & Hr0 & Hd0).
  unfold script.
  destruct (render_phase_view_total phase1_cols "Year 1" _ H0 Hr0 Hd0)
    as (o1 & -> & H1 & Hr1 & Hd1).
  { intros m Hm. rewrite <- phases_partition. apply elem_of_app. by left. }
  { apply phase1_cols_NoDup. }
  { done. }
  simpl. destruct o1 as [st1|st1 year1]; simpl in *; [eauto|].
  destruct (render_phase_view_total phase2_cols "Year 2" _ H1 Hr1 Hd1)
    as (o2 & -> & H2 & Hr2 & Hd2).
  { intros m Hm. rewrite <- phases_partition. apply elem_of_app. by right. }
  { apply phase2_cols_NoDup. }
  { done. }
  simpl. destruct o2 as [st2|st2 year2]; simpl in *; [eauto|].
  destruct Hr2 as [resource Hres]. unfold grand_total, get_resource_df.
  rewrite Hres, Ok_bind.
  destruct (month_totals_total resource (map LStr all_months)) as (totals & -> & _).
  { apply (proj1 H2 _ Hres). }
  { intros c (m & -> & Hm)%list_elem_of_fmap. by apply (proj1 H2 _ Hres). }
  rewrite !Ok_bind. eauto.
Qed.

End NoFault.

Lemma empty_session_ok : session_ok empty_session.
Proof. split; intros df [=]. Qed.

Lemma reachable_session_ok (st : session_state) :
  reachable_with grid_editor st -> session_ok st.
Proof.
  induction 1 as [|data_editor st r Hed _ IH Hrun]; [apply empty_session_ok|].
  destruct (script_never_faults data_editor Hed st IH) as (r' & Hr' & Hok).
  congruence.
Qed.


(** ** The worked example of the specification

    Analyst Pool gets 10 days in July 2025 and 5 in August 2025 through the
    Phase 1 grid; the first run reconciles the edit and asks for a rerun, the
    second shows the page. *)

Example worked_example_first_run :
  script analyst_pool_edit empty_session = Ok (Rerun_requested planned_session).
Proof. vm_compute. reflexivity. Qed.

Example worked_example_cells :
  exists df : DataFrame,
    resource_df planned_session = Some df /\
    loc df (LInt 4) (LStr "Resource") = Some (VStr "Analyst Pool") /\
    loc df (LInt 4) (LStr "Jul '25") = Some (VInt 10) /\
    loc df (LInt 4) (LStr "Aug '25") = Some (VInt 5) /\
    all_cells_sum df = 15.
Proof. eexists. repeat split. Qed.

Example worked_example_page :
  script analyst_pool_edit planned_session
  = Ok (Page planned_session
          (Summary 15 (LStr "Jul '25") (VInt 10))
          (Summary 0 (LStr "Jul '26") (VInt 0))
          15).
Proof. vm_compute. reflexivity. Qed.

Example worked_example_phase_total :
  exists df_view : DataFrame,
    display_projection
      (default seeded_table (resource_df planned_session)) (map LStr phase1_cols)
    = Ok df_view /\
    loc df_view (LInt 4) (LStr "Phase Total") = Some (VInt 15).
Proof. eexists. split; vm_compute; reflexivity. Qed.

(** A tie for the peak goes to the earlier month. *)
Example idxmax_tie :
  idxmax [(LStr "Jul '25", 3); (LStr "Aug '25", 8); (LStr "Sep '25", 8)]
  = Ok (LStr "Aug '25").
Proof. reflexivity. Qed.

(** The deliverables typed into the grid come back transposed under the row
    label "Deliverable Description"; the table has the row label
    "Key Deliverables", so [update] finds no row to take and the table is
    left as it was. *)
Example deliverables_update_finds_no_row :
  update seeded_deliverables
    (transpose (Frame [LStr "Jul '25"; LStr "Aug '25"]
                  [(LStr "Deliverable Description", [VStr "Kick-off"; VStr ""])]))
  = seeded_deliverables.
Proof. vm_compute. reflexivity. Qed.

(** * Further properties of the code *)

(** ** The calendar generator at its edges *)

Section CalendarEdges.

Ltac month_cases m E :=
  assert (E : m = 1 \/ m = 2 \/ m = 3 \/ m = 4 \/ m = 5 \/ m = 6 \/
              m = 7 \/ m = 8 \/ m = 9 \/ m = 10 \/ m = 11 \/ m = 12) by lia;
  repeat (destruct E as [E|E]); rewrite E.

Lemma c_int_spec (z : Z) : c_int z = true <-> INT_MIN <= z <= INT_MAX.
Proof. unfold c_int. rewrite andb_true_iff, !Z.leb_le. tauto. Qed.

Lemma date_first_overflow (y m : Z) :
  ~ (c_int y = true /\ c_int m = true) -> date_first y m = Raise OverflowError.
Proof.
  intros H. unfold date_first.
  destruct (c_int y), (c_int m); try done. exfalso. by apply H.
Qed.

Lemma date_first_invalid (y m : Z) :
  c_int y = true -> c_int m = true ->
  ~ (MINYEAR <= y <= MAXYEAR /\ 1 <= m <= 12) -> date_first y m = Raise ValueError.
Proof.
  intros Hy Hm H. unfold date_first. rewrite Hy, Hm. cbn [andb negb].
  destruct (Z.leb_spec MINYEAR y); [|done].
  destruct (Z.leb_spec y MAXYEAR); [|done].
  destruct (Z.leb_spec 1 m); [|done].
  destruct (Z.leb_spec m 12); [|done].
  exfalso. apply H. lia.
Qed.

Lemma date_first_Ok (y m : Z) (d : date) :
  date_first y m = Ok d -> d = Date y m /\ valid_date d.
Proof.
  unfold date_first. destruct (negb _); [done|].
  destruct (Z.leb_spec MINYEAR y); [|done].
  destruct (Z.leb_spec y MAXYEAR); [|done].
  destruct (Z.leb_spec 1 m); [|done].
  destruct (Z.leb_spec m 12); [|done].
  intros [= <-]. by split.
Qed.

(** The loop computes the date that follows every label it appends, the
    last one included: it fails when that date is after December 9999. *)
Lemma month_loop_overflow (n : nat) : forall (d : date) (cols : list string),
  valid_date d -> (0 < n)%nat ->
  12 * MAXYEAR + 11 < month_number d + Z.of_nat n ->
  month_loop n d cols = Raise ValueError.
Proof.
  induction n as [|n IH]; intros d cols Hd Hn Hover; [lia|].
  cbn [month_loop].
  destruct (Z_le_gt_dec (month_number d + 1) (12 * MAXYEAR + 11)) as [Hle|Hgt].
  - rewrite next_month_succ by done. rewrite Ok_bind.
    apply IH.
    + by apply succ_month_valid.
    + lia.
    + rewrite succ_month_number by apply Hd. lia.
  - assert (E : next_month d = Raise ValueError); [|by rewrite E].
    destruct Hd as [Hy Hm]. unfold next_month, month_number, MINYEAR, MAXYEAR in *.
    destruct (Z.eqb_spec (month d) 12); apply date_first_invalid;
      rewrite ?c_int_spec; unfold INT_MIN, INT_MAX, MINYEAR, MAXYEAR; lia.
Qed.

Lemma get_month_columns_inv (y m c : Z) (months : list string) :
  get_month_columns y m c = Ok months ->
  valid_date (Date y m) /\
  months = map strftime_b_y (months_from (Date y m) (Z.to_nat c)) /\
  (c <= 0 \/ 12 * y + (m - 1) + c <= 12 * MAXYEAR + 11).
Proof.
  unfold get_month_columns. intros H.
  destruct (date_first y m) as [d|e] eqn:Ed; [|done].
  apply date_first_Ok in Ed as [-> Hd]. rewrite Ok_bind in H.
  split; [done|].
  destruct (Z_le_gt_dec c 0) as [Hc|Hc].
  - replace (Z.to_nat c) with 0%nat in * by lia. simpl in H.
    injection H as <-. split; [done | by left].
  - destruct (Z_le_gt_dec (12 * y + (m - 1) + c) (12 * MAXYEAR + 11)) as [Hb|Hb].
    + rewrite month_loop_spec in H; [| done | unfold month_number; simpl; lia].
      injection H as <-. split; [done | by right].
    + rewrite month_loop_overflow in H; [done | done | lia |].
      unfold month_number. cbn [year month]. lia.
Qed.

Lemma months_from_app (a b : nat) : forall d : date,
  months_from d (a + b) = months_from d a ++ months_from (add_months a d) b.
Proof.
  induction a as [|a IH]; intros d; [done|].
  cbn [Nat.add months_from app add_months]. by rewrite IH.
Qed.

Lemma add_months_number (n : nat) : forall d : date,
  1 <= month d <= 12 ->
  1 <= month (add_months n d) <= 12 /\
  month_number (add_months n d) = month_number d + Z.of_nat n.
Proof.
  induction n as [|n IH]; intros d Hd; cbn [add_months]; [lia|].
  assert (Hs : 1 <= month (succ_month d) <= 12).
  { unfold succ_month. destruct (Z.eqb_spec (month d) 12); cbn [month]; lia. }
  destruct (IH _ Hs) as [H1 H2]. rewrite succ_month_number in H2 by done. lia.
Qed.

Lemma month_number_inj (a b : date) :
  1 <= month a <= 12 -> 1 <= month b <= 12 ->
  month_number a = month_number b -> a = b.
Proof.
  destruct a as [ya ma], b as [yb mb]. unfold month_number. cbn [year month].
  intros Ha Hb H. assert (ya = yb) by lia. assert (ma = mb) by lia. by subst.
Qed.

Lemma strftime_length (d : date) :
  1 <= month d <= 12 -> String.length (strftime_b_y d) = 7%nat.
Proof.
  intros Hd. unfold strftime_b_y.
  month_cases (month d) E; reflexivity.
Qed.

End CalendarEdges.

Lemma get_month_columns_spec (y m c : Z) :
  valid_date (Date y m) ->
  c <= 0 \/ 12 * y + (m - 1) + c <= 12 * MAXYEAR + 11 ->
  get_month_columns y m c
  = Ok (map strftime_b_y (months_from (Date y m) (Z.to_nat c))).
Proof.
  intros Hd Hc. unfold get_month_columns.
  rewrite date_first_valid, Ok_bind by apply Hd.
  destruct (Z_le_gt_dec c 0) as [H0|H0].
  - by replace (Z.to_nat c) with 0%nat by lia.
  - rewrite month_loop_spec; [done | done |].
    unfold month_number. cbn [year month]. lia.
Qed.



(** X2: the two windows of a horizon are horizons themselves.  For a
    horizon of [c] months and a split point [0 <= k <= c], the first window
    is what [get_month_columns] returns for [k] months from the same start,
    and the second is what it returns for the remaining [c - k] months from
    the month [k] months after the start. *)
Theorem phase_windows_are_horizons (y m c k : Z) (months : list string) :
  get_month_columns y m c = Ok months ->
  0 <= k <= c ->
  get_month_columns y m k = Ok (slice_to months k) /\
  let d := add_months (Z.to_nat k) (Date y m) in
  get_month_columns (year d) (month d) (c - k) = Ok (slice_from months k).
Proof.
  intros (Hd & -> & Hc)%get_month_columns_inv Hk.
  set (D := Date y m) in *.
  assert (En : Z.to_nat c = (Z.to_nat k + Z.to_nat (c - k))%nat) by lia.
  assert (Eb : slice_bound (map strftime_b_y (months_from D (Z.to_nat c))) k
               = Z.to_nat k).
  { apply slice_bound_inside. rewrite length_map, months_from_length. lia. }
  unfold slice_to, slice_from. rewrite Eb, En, months_from_app, map_app.
  assert (El : length (map strftime_b_y (months_from D (Z.to_nat k))) = Z.to_nat k).
  { by rewrite length_map, months_from_length. }
  split.
  - rewrite take_app_length' by done.
    apply get_month_columns_spec; [done | lia].
  - cbn zeta. rewrite drop_app_length' by done.
    destruct (add_months_number (Z.to_nat k) D (proj2 Hd)) as [Hm Hn].
    set (d := add_months (Z.to_nat k) D) in *.
    assert (Hd' : valid_date d /\
                  (c - k <= 0 \/
                   12 * year d + (month d - 1) + (c - k) <= 12 * MAXYEAR + 11)).
    { destruct Hd as [Hy Hm0]. unfold valid_date, month_number, MINYEAR, MAXYEAR in *.
      subst D. cbn [year month] in *. lia. }
    destruct Hd' as [Hv Hrest]. clearbody d.
    destruct d as [yd md]. cbn [year month] in *.
    by apply get_month_columns_spec.
Qed.

Lemma phase_windows_are_horizons_witness :
  get_month_columns 2025 7 12 = Ok (slice_to all_months 12) /\
  let d := add_months (Z.to_nat 12) (Date 2025 7) in
  get_month_columns (year d) (month d) (25 - 12) = Ok (slice_from all_months 12).
Proof.
  apply (phase_windows_are_horizons 2025 7 25 12 all_months); [reflexivity | lia].
Defined.

(** X3: the labels repeat with a period of one hundred years: in every list
    that [get_month_columns] returns, the label at position [i + 1200] is
    the label at position [i]. *)
Theorem month_labels_repeat_every_century (y m c : Z) (labels : list string)
    (i : nat) (s s' : string) :
  get_month_columns y m c = Ok labels ->
  labels !! i = Some s ->
  labels !! (i + 1200)%nat = Some s' ->
  s = s'.
Proof.
  intros (Hd & -> & _)%get_month_columns_inv Hi Hj.
  rewrite list_lookup_fmap in Hi, Hj.
  destruct (months_from _ _ !! i) as [a|] eqn:Ea; [|done].
  destruct (months_from _ _ !! (i + 1200)%nat) as [b|] eqn:Eb; [|done].
  injection Hi as <-. injection Hj as <-.
  destruct (months_from_number _ _ _ _ (proj2 Hd) Ea) as [Ha Na].
  destruct (months_from_number _ _ _ _ (proj2 Hd) Eb) as [Hb Nb].
  unfold strftime_b_y, month_number in *.
  assert (month b = month a) as -> by lia.
  assert (year b = year a + 1 * 100) as -> by lia.
  by rewrite Z.mod_add by lia.
Qed.

Lemma month_labels_repeat_every_century_witness :
  "Jul '25" = "Jul '25".
Proof.
  refine (month_labels_repeat_every_century 2025 7 1201 _ 0 _ _ _ _ _);
    [vm_compute; reflexivity | reflexivity | reflexivity].
Defined.

(** X4: every label that [get_month_columns] returns has seven characters
    (three of the month, a space, an apostrophe, two of the year), so a
    month column can never take the name of a name column of the table or of
    the computed column of the display. *)
Theorem month_labels_are_no_other_column (y m c : Z) (labels : list string)
    (s : string) :
  get_month_columns y m c = Ok labels ->
  s ∈ labels ->
  String.length s = 7%nat /\
  s ∉ ["Resource"; "Role"; "Grade"; "Phase Total"].
Proof.
  intros (Hd & -> & _)%get_month_columns_inv (a & -> & Ha)%list_elem_of_fmap.
  apply list_elem_of_lookup in Ha as [i Hi].
  apply months_from_number in Hi as [Hm _]; [|apply Hd].
  pose proof (strftime_length a Hm) as Hlen. split; [done|].
  intros Hin. repeat (apply elem_of_cons in Hin as [E|Hin];
                      [rewrite E in Hlen; discriminate Hlen|]).
  by apply elem_of_nil in Hin.
Qed.

Lemma month_labels_are_no_other_column_witness :
  String.length "Dec '25" = 7%nat /\
  "Dec '25" ∉ ["Resource"; "Role"; "Grade"; "Phase Total"].
Proof.
  apply (month_labels_are_no_other_column 2025 7 25 all_months); [reflexivity|].
  apply (bool_decide_unpack _). vm_compute. exact I.
Defined.

(** X5: the two windows of a horizon of at most 1200 months share no label,
    wherever the horizon is cut. *)
Theorem phase_windows_disjoint (y m c k : Z) (months : list string) (s : string) :
  get_month_columns y m c = Ok months ->
  c <= 1200 ->
  s ∈ slice_to months k ->
  s ∉ slice_from months k.
Proof.
  intros (Hd & -> & _)%get_month_columns_inv Hc.
  pose proof (months_from_labels_NoDup (Z.to_nat c) (Date y m) (proj2 Hd)
                ltac:(lia)) as Hnd.
  rewrite <- (slice_app _ k) in Hnd.
  apply NoDup_app in Hnd as (_ & Hdis & _). apply Hdis.
Qed.

Lemma phase_windows_disjoint_witness :
  "Jul '25" ∉ slice_from all_months 12.
Proof.
  apply (phase_windows_disjoint 2025 7 25 12 all_months); [reflexivity | lia |].
  apply (bool_decide_unpack _). vm_compute. exact I.
Defined.

(** ** The deliverables grid *)

Section Deliverables.

Lemma index_pos_None (r : label) (idx : list label) :
  r ∉ idx -> index_pos r idx = None.
Proof.
  induction idx as [|r' idx IH]; [done|].
  intros [Hne Hr]%not_elem_of_cons. cbn [index_pos].
  rewrite decide_False by done. by rewrite IH.
Qed.

Lemma update_column_all_missing (this that : list cell) :
  Forall (fun v => isna v = true) that -> update_column this that = this.
Proof.
  intros H. unfold update_column.
  assert (E : forallb id (map isna that) = true); [|by rewrite E].
  induction H as [|o that Ho _ IH]; [done|]. cbn. by rewrite Ho, IH.
Qed.

(** [update] aligns the rows by their labels: a frame that shares no row
    label with [self] changes nothing. *)
Lemma update_no_common_row (self other : DataFrame) :
  (forall r, r ∈ index self -> r ∉ index other) -> update self other = self.
Proof.
  intros Hrows. destruct self as [idx cs]. unfold update. cbn [index columns] in *.
  f_equal. rewrite <- (map_id cs) at 2. apply map_ext_in.
  intros [l this] _. cbn [fst snd]. rewrite reindex_assoc.
  destruct (assoc l (columns other)) as [vs|]; [|done]. cbn.
  rewrite update_column_all_missing; [done|].
  unfold reindex_column. apply Forall_fmap, Forall_forall. intros r Hr. cbn.
  by rewrite index_pos_None by by apply Hrows.
Qed.

(** A pass through a phase view leaves the deliverables table as it was. *)
Lemma render_keeps_deliverables
    (data_editor : string -> DataFrame -> DataFrame) (cols : list string)
    (phase_name : string) (st : session_state) (o : outcome) (deliv : DataFrame) :
  keeps_columns data_editor ->
  deliverables_df st = Some deliv ->
  LStr "Deliverable Description" ∉ index deliv ->
  render_phase_view data_editor cols phase_name st = Ok o ->
  deliverables_df (outcome_state o) = Some deliv.
Proof.
  intros Hkeep Hdeliv Hrow H. unfold render_phase_view in H.
  inv_bind_as H resource Hres. inv_bind_as H df_view Hview.
  destruct (negb (equals _ df_view)).
  - inv_bind_as H patch Hpatch. inv_bind_as H resource' Hup.
    by injection H as <-.
  - inv_bind_as H totals Htot. inv_bind_as H deliv' Hd.
    unfold get_deliverables_df in Hd. rewrite Hdeliv in Hd. injection Hd as <-.
    inv_bind_as H del_cols Hdc. inv_bind_as H del_view Hdv.
    inv_bind_as H st' Hst'. inv_bind_as H peak Hpeak.
    destruct (Nat.eqb _ 0); [done|]. injection H as <-. cbn [outcome_state].
    destruct (negb (equals _ del_view)); [|by injection Hst' as <-].
    inv_bind_as Hst' deliv' Hup. injection Hst' as <-. cbn [deliverables_df].
    apply DataFrame_update_Ok in Hup as [-> _].
    rewrite update_no_common_row; [done|].
    intros r Hr. cbn [transpose index].
    rewrite Hkeep, (set_columns_one _ _ _ Hdv).
    intros ->%list_elem_of_singleton. done.
Qed.

End Deliverables.

(** X6: what is typed into a deliverables grid is never saved.  The grid
    shows the deliverables transposed under the column "Deliverable
    Description"; transposed back, that name is the row label of the frame
    handed to [update], which aligns rows by label and finds none in a table
    whose row is "Key Deliverables".  So a pass through a phase view leaves
    the deliverables table as it was, and in every session state the page can
    reach the table is the one initialisation made, with an empty text for
    every month. *)
Theorem deliverables_edits_are_never_saved :
  (forall (data_editor : string -> DataFrame -> DataFrame) (cols : list string)
          (phase_name : string) (st : session_state) (o : outcome)
          (deliv : DataFrame),
     keeps_columns data_editor ->
     deliverables_df st = Some deliv ->
     LStr "Deliverable Description" ∉ index deliv ->
     render_phase_view data_editor cols phase_name st = Ok o ->
     deliverables_df (outcome_state o) = Some deliv) /\
  (forall st : session_state,
     reachable_with keeps_columns st ->
     deliverables_df st = None \/ deliverables_df st = Some seeded_deliverables).
Proof.
  split; [apply render_keeps_deliverables|].
  induction 1 as [|data_editor st r Hkeep _ IH Hrun]; [by left|]. right.
  assert (H0 : deliverables_df (initialize st) = Some seeded_deliverables).
  { rewrite initialize_deliverables. by destruct IH as [->| ->]. }
  assert (Hrow : LStr "Deliverable Description" ∉ index seeded_deliverables).
  { apply (bool_decide_unpack _). vm_compute. exact I. }
  unfold script in Hrun.
  inv_bind_as Hrun tab1 Htab1.
  pose proof (render_keeps_deliverables _ _ _ _ _ _ Hkeep H0 Hrow Htab1) as H1.
  destruct tab1 as [st1|st1 year1]; cbn [outcome_state] in H1.
  { by injection Hrun as <-. }
  inv_bind_as Hrun tab2 Htab2.
  pose proof (render_keeps_deliverables _ _ _ _ _ _ Hkeep H1 Hrow Htab2) as H2.
  destruct tab2 as [st2|st2 year2]; cbn [outcome_state] in H2.
  { by injection Hrun as <-. }
  inv_bind_as Hrun g Hg. by injection Hrun as <-.
Qed.

Lemma deliverable_edit_keeps_columns : keeps_columns deliverable_edit.
Proof.
  intros key shown. unfold deliverable_edit.
  destruct (decide (key = "del_editor_Year 1")); [apply update_column_labels | done].
Qed.

Lemma deliverables_edits_are_never_saved_witness :
  deliverables_df (outcome_state deliverable_outcome) = Some seeded_deliverables.
Proof.
  apply (proj1 deliverables_edits_are_never_saved deliverable_edit phase1_cols
           "Year 1" seeded_session deliverable_outcome seeded_deliverables).
  - exact deliverable_edit_keeps_columns.
  - reflexivity.
  - apply (bool_decide_unpack _). vm_compute. exact I.
  - vm_compute. reflexivity.
Defined.

(** In that pass the grid did come back changed. *)
Example deliverable_edit_changes_the_grid :
  exists del_cols del_view : DataFrame,
    getitem seeded_deliverables (map LStr phase1_cols) = Ok del_cols /\
    set_columns (transpose del_cols) [LStr "Deliverable Description"] = Ok del_view /\
    loc del_view (LStr "Jul '25") (LStr "Deliverable Description") = Some (VStr "") /\
    loc (deliverable_edit "del_editor_Year 1" del_view)
        (LStr "Jul '25") (LStr "Deliverable Description") = Some (VStr "Kick-off").
Proof.
  eexists _, _. split; [vm_compute; reflexivity|].
  split; [vm_compute; reflexivity|]. split; vm_compute; reflexivity.
Qed.

(** ** What a run shows and what it stores *)



(** ** Reconciling twice, reconciling nothing *)

Section UpdateAlgebra.

Lemma index_pos_NoDup (idx : list label) : forall (q : nat) (r : label),
  NoDup idx -> idx !! q = Some r -> index_pos r idx = Some q.
Proof.
  induction idx as [|r' idx IH]; intros q r Hnd Hq; [done|].
  apply NoDup_cons in Hnd as [Hr' Hnd]. cbn [index_pos].
  destruct q as [|q]; cbn in Hq.
  - injection Hq as ->. by rewrite decide_True.
  - rewrite decide_False.
    + by rewrite (IH q r Hnd Hq).
    + intros ->. apply Hr'. by eapply list_elem_of_lookup_2.
Qed.

Lemma reindex_column_same (idx : list label) (vs : list cell) :
  NoDup idx -> length vs = length idx -> reindex_column idx idx vs = vs.
Proof.
  intros Hnd Hlen. apply list_eq. intros q. unfold reindex_column.
  rewrite list_lookup_fmap.
  destruct (idx !! q) as [r|] eqn:Er; cbn.
  - rewrite (index_pos_NoDup _ _ _ Hnd Er).
    destruct (lookup_lt_is_Some_2 vs q) as [v Hv].
    { rewrite Hlen. by eapply lookup_lt_Some. }
    by rewrite (nth_lookup_Some _ _ _ _ Hv).
  - symmetry. apply lookup_ge_None. rewrite Hlen. by apply lookup_ge_None.
Qed.

Lemma where_self (this : list cell) : where_ this (map isna this) this = this.
Proof. induction this as [|t this IH]; [done|]. cbn. rewrite IH. by destruct (isna t). Qed.

Lemma update_column_self (this : list cell) : update_column this this = this.
Proof.
  unfold update_column. destruct (forallb id (map isna this)); [done|].
  apply where_self.
Qed.

Lemma where_idem (this : list cell) : forall that : list cell,
  where_ (where_ this (map isna that) that) (map isna that) that
  = where_ this (map isna that) that.
Proof.
  induction this as [|t this IH]; intros [|o that]; cbn; try done.
  rewrite IH. by destruct (isna o).
Qed.

Lemma update_column_idem (this that : list cell) :
  update_column (update_column this that) that = update_column this that.
Proof.
  unfold update_column. destruct (forallb id (map isna that)) eqn:E; [done|].
  apply where_idem.
Qed.

Lemma assoc_NoDup_elem {A : Type} (k : label) (v : A) (l : list (label * A)) :
  NoDup (map fst l) -> (k, v) ∈ l -> assoc k l = Some v.
Proof.
  induction l as [|[k' v'] l IH]; cbn; [by intros _ ?%elem_of_nil|].
  intros [Hk' Hnd]%NoDup_cons [[= -> ->]|Hin]%elem_of_cons.
  - by rewrite decide_True.
  - rewrite decide_False; [by apply IH|].
    intros ->. apply Hk'. apply list_elem_of_fmap. by exists (k', v).
Qed.

End UpdateAlgebra.

Lemma update_agreeing (resource patch : DataFrame) :
  rectangular resource = true ->
  NoDup (index resource) ->
  index patch = index resource ->
  (forall l vs this, assoc l (columns patch) = Some vs ->
                     (l, this) ∈ columns resource -> vs = this) ->
  update resource patch = resource.
Proof.
  intros Hrect Hidx Hpi Hagree.
  apply rectangular_spec in Hrect.
  destruct resource as [idx cs]. unfold update. cbn [index columns] in *.
  f_equal. rewrite <- (map_id cs) at 2. apply map_ext_in.
  intros [l this] Hin%list_elem_of_In. cbn [fst snd]. rewrite reindex_assoc, Hpi.
  destruct (assoc l (columns patch)) as [vs|] eqn:E; [|done]. cbn.
  rewrite (Hagree l vs this E Hin).
  rewrite reindex_column_same, update_column_self; [done..|].
  unfold rectangular_columns in Hrect. rewrite Forall_forall in Hrect.
  apply (Hrect (l, this) Hin).
Qed.

Lemma getitem_own_cells (resource patch : DataFrame) (labels : list label)
    (l : label) (vs this : list cell) :
  NoDup (column_labels resource) ->
  getitem resource labels = Ok patch ->
  assoc l (columns patch) = Some vs -> (l, this) ∈ columns resource -> vs = this.
Proof.
  intros Hlab Hpatch E Hin. pose proof (getitem_unique _ _ _ Hlab Hpatch) as HF.
  apply assoc_Some_elem, list_elem_of_lookup in E as [i Hi].
  destruct (Forall2_lookup_r _ _ _ _ _ HF Hi) as (l' & _ & Hl' & Hvs).
  cbn in Hl', Hvs. subst l'.
  pose proof (assoc_NoDup_elem _ _ _ Hlab Hin) as H. congruence.
Qed.

(** X8: reconciling a grid that holds the table's own values changes
    nothing: for a table with distinct row labels, distinct column labels
    and one cell per row in each column, [update] with any selection of the
    table's own columns gives the table back. *)
Theorem reconciling_own_values_changes_nothing
    (resource patch : DataFrame) (labels : list label) :
  rectangular resource = true ->
  NoDup (index resource) ->
  NoDup (column_labels resource) ->
  getitem resource labels = Ok patch ->
  update resource patch = resource.
Proof.
  intros Hrect Hidx Hlab Hpatch.
  apply update_agreeing; [done | done | |].
  - apply (getitem_Ok _ _ _ Hpatch).
  - intros l vs this. by apply (getitem_own_cells resource patch labels).
Qed.

Lemma reconciling_own_values_changes_nothing_witness :
  update seeded_table
    (Frame (range_index 5)
       [(LStr "Jul '25", [VInt 0; VInt 0; VInt 0; VInt 0; VInt 0])])
  = seeded_table.
Proof.
  apply (reconciling_own_values_changes_nothing seeded_table _ [LStr "Jul '25"]);
    try reflexivity; apply (bool_decide_unpack _); vm_compute; exact I.
Defined.

(** X9: reconciling the same grid a second time changes nothing more:
    [update] with the same frame is idempotent. *)
Theorem reconciling_twice_is_reconciling_once (self other : DataFrame) :
  update (update self other) other = update self other.
Proof.
  unfold update at 1 3. cbn [index]. f_equal.
  unfold update. cbn [columns index]. rewrite map_map. apply map_ext.
  intros [l this]. cbn [fst snd].
  destruct (assoc l (columns (reindex other (index self)))) as [that|] eqn:E;
    cbn [fst snd]; rewrite E; [|done].
  by rewrite update_column_idem.
Qed.

(** ** One phase does not disturb the other *)

Section PhaseIndependence.

(** [update] leaves every column whose label the other frame lacks. *)
Lemma update_columns_named (self other : DataFrame) (c : label) :
  assoc c (columns other) = None ->
  columns_named c (columns (update self other)) = columns_named c (columns self).
Proof.
  intros H. unfold update. cbn [columns].
  induction (columns self) as [|[k v] cs IH]; [done|].
  cbn [map columns_named fst snd].
  destruct (decide (c = k)) as [->|Hne].
  - rewrite reindex_assoc, H. cbn [fmap option_fmap option_map].
    rewrite decide_True by done. f_equal. exact IH.
  - destruct (assoc k _); cbn [fst]; rewrite decide_False by done; exact IH.
Qed.

(** A selection depends on the selected columns and on the rows only. *)
Lemma getitem_untouched (cols : list string) (resource patch : DataFrame)
    (labels : list label) :
  (forall c, c ∉ map LStr cols -> assoc c (columns patch) = None) ->
  (forall c, c ∈ labels -> c ∉ map LStr cols) ->
  getitem (update resource patch) labels = getitem resource labels.
Proof.
  intros Hp Hout. apply getitem_ext; [apply update_index|].
  intros c Hc. by apply update_columns_named, Hp, Hout.
Qed.

End PhaseIndependence.

(** X10: reconciling the grid of one list of months does not change what
    is shown for another.  If no month of [cols'] is among [cols] (nor is a
    name column), then after a pass through the view of [cols] the display
    projection of [cols'], with its "Phase Total" column, and the month
    totals of [cols'] are what they were before.  So an edit in Phase 2
    never moves a number of Phase 1, and conversely. *)
Theorem other_phase_is_shown_unchanged
    (data_editor : string -> DataFrame -> DataFrame) (cols cols' : list string)
    (phase_name : string) (st : session_state) (o : outcome)
    (resource : DataFrame) :
  (forall m, m ∈ cols' -> m ∉ cols) ->
  "Resource" ∉ cols -> "Role" ∉ cols ->
  resource_df st = Some resource ->
  render_phase_view data_editor cols phase_name st = Ok o ->
  exists resource' : DataFrame,
    resource_df (outcome_state o) = Some resource' /\
    display_projection resource' (map LStr cols')
    = display_projection resource (map LStr cols') /\
    month_totals resource' (map LStr cols') = month_totals resource (map LStr cols').
Proof.
  intros Hdis Hres Hrole Hst Ho.
  assert (Hout : forall c, c ∈ map LStr cols' -> c ∉ map LStr cols).
  { intros c (m & -> & Hm)%list_elem_of_fmap. rewrite elem_of_map_LStr. by apply Hdis. }
  destruct (render_phase_view_table _ _ _ _ _ _ Hst Ho) as [Ho'|(patch & Hp & Ho')].
  { by exists resource. }
  exists (update resource patch). split; [done|]. split.
  - unfold display_projection.
    rewrite (getitem_untouched cols resource patch); [done | done |].
    intros c [->|[->|Hc]%elem_of_cons]%elem_of_cons.
    + by rewrite elem_of_map_LStr.
    + by rewrite elem_of_map_LStr.
    + by apply Hout.
  - unfold month_totals. by rewrite (getitem_untouched cols resource patch).
Qed.

Lemma other_phase_is_shown_unchanged_witness :
  exists resource' : DataFrame,
    resource_df (outcome_state cleared_outcome) = Some resource' /\
    display_projection resource' (map LStr phase2_cols)
    = display_projection seeded_table (map LStr phase2_cols) /\
    month_totals resource' (map LStr phase2_cols)
    = month_totals seeded_table (map LStr phase2_cols).
Proof.
  apply (other_phase_is_shown_unchanged cleared_edit phase1_cols phase2_cols
           "Year 1" seeded_session cleared_outcome seeded_table).
  - intros m H2 H1. exact (phases_disjoint m H1 H2).
  - apply (bool_decide_unpack _). vm_compute. exact I.
  - apply (bool_decide_unpack _). vm_compute. exact I.
  - reflexivity.
  - vm_compute. reflexivity.
Defined.

(** ** Faults of the phase view *)

Section Faults.

Lemma bind_Raise {A B : Type} (r : result A) (k : A -> result B) (e : exn) :
  r ≫= k = Raise e -> r = Raise e \/ exists a, r = Ok a /\ k a = Raise e.
Proof. destruct r as [a|e']; cbn; [eauto | intros [= ->]; by left]. Qed.

Lemma mapM_Raise {A B : Type} (f : A -> result B) (l : list A) (e : exn) :
  mapM f l = Raise e -> exists a, a ∈ l /\ f a = Raise e.
Proof.
  induction l as [|a l IH]; [done|]. cbn [mapM].
  intros [H|(b & Hb & [H|(bs & Hbs & [=])]%bind_Raise)]%bind_Raise.
  - exists a. split; [left | done].
  - destruct (IH H) as (a' & Ha' & Hf). exists a'. split; [by right | done].
Qed.

Lemma getitem_Raise (df : DataFrame) (labels : list label) (e : exn) :
  getitem df labels = Raise e -> e = KeyError.
Proof.
  unfold getitem. intros [H|(cs & _ & [=])]%bind_Raise.
  apply mapM_Raise in H as (l & _ & H).
  destruct (columns_named l (columns df)); [by injection H as <- | done].
Qed.

Lemma sum_cells_Raise (vs : list cell) (e : exn) :
  sum_cells vs = Raise e -> e = TypeError.
Proof.
  induction vs as [|v vs IH]; [done|]. cbn [sum_cells].
  intros [H|(x & _ & [H|(t & _ & [=])]%bind_Raise)]%bind_Raise.
  - destruct v; try done. by injection H as <-.
  - by apply IH.
Qed.

Lemma sum_axis0_Raise (df : DataFrame) (e : exn) :
  sum_axis0 df = Raise e -> e = TypeError.
Proof.
  unfold sum_axis0. intros (col & _ & [H|(t & _ & [=])]%bind_Raise)%mapM_Raise.
  by eapply sum_cells_Raise.
Qed.

Lemma sum_axis1_Raise (df : DataFrame) (e : exn) :
  sum_axis1 df = Raise e -> e = TypeError.
Proof.
  unfold sum_axis1. intros (i & _ & H)%mapM_Raise. by eapply sum_cells_Raise.
Qed.

Lemma month_totals_Raise (resource : DataFrame) (labels : list label) (e : exn) :
  month_totals resource labels = Raise e -> e = KeyError \/ e = TypeError.
Proof.
  unfold month_totals. intros [H|(view & _ & H)]%bind_Raise.
  - left. by eapply getitem_Raise.
  - right. by eapply sum_axis0_Raise.
Qed.

Lemma display_projection_Raise (resource : DataFrame) (labels : list label)
    (e : exn) :
  display_projection resource labels = Raise e -> e = KeyError \/ e = TypeError.
Proof.
  unfold display_projection.
  intros [H|(base & _ & [H|(sub & _ & [H|(pt & _ & [=])]%bind_Raise)]%bind_Raise)]%bind_Raise.
  - left. by eapply getitem_Raise.
  - left. by eapply getitem_Raise.
  - right. by eapply sum_axis1_Raise.
Qed.

Lemma month_totals_nil (resource : DataFrame) :
  month_totals resource [] = Ok [].
Proof. reflexivity. Qed.

End Faults.

(** X12: the phase view never fails with a division by zero.  The faults
    it can end in are a missing session key ([AttributeError]), a missing
    column ([KeyError]), a text cell in a sum ([TypeError]) and
    [ValueError]; the division [total / len(cols)] is only reached when
    [idxmax] has found a peak, and then [cols] is not empty. *)
Theorem render_phase_view_never_divides_by_zero
    (data_editor : string -> DataFrame -> DataFrame) (cols : list string)
    (phase_name : string) (st : session_state) (e : exn) :
  render_phase_view data_editor cols phase_name st = Raise e ->
  e = AttributeError \/ e = KeyError \/ e = TypeError \/ e = ValueError.
Proof.
  unfold render_phase_view. intros H.
  apply bind_Raise in H as [H|(resource & _ & H)].
  { unfold get_resource_df in H. destruct (resource_df st); [done|].
    injection H as <-. by left. }
  apply bind_Raise in H as [H|(df_view & _ & H)].
  { apply display_projection_Raise in H as [->| ->]; tauto. }
  destruct (negb (equals _ df_view)).
  { apply bind_Raise in H as [H|(patch & _ & [H|(resource' & _ & [=])]%bind_Raise)].
    - apply getitem_Raise in H as ->. tauto.
    - apply DataFrame_update_Raise in H as ->. tauto. }
  apply bind_Raise in H as [H|(totals & Htot & H)].
  { apply month_totals_Raise in H as [->| ->]; tauto. }
  apply bind_Raise in H as [H|(deliv & _ & H)].
  { unfold get_deliverables_df in H. destruct (deliverables_df st); [done|].
    injection H as <-. by left. }
  apply bind_Raise in H as [H|(del_cols & _ & H)].
  { apply getitem_Raise in H as ->. tauto. }
  apply bind_Raise in H as [H|(del_view & _ & H)].
  { unfold set_columns in H. destruct (Nat.eqb _ _); [done|].
    injection H as <-. tauto. }
  apply bind_Raise in H as [H|(st' & _ & H)].
  { destruct (negb (equals _ del_view)); [|done].
    apply bind_Raise in H as [H|(deliv' & _ & [=])].
    apply DataFrame_update_Raise in H as ->. tauto. }
  apply bind_Raise in H as [H|(peak & Hpeak & H)].
  { destruct totals; [|done]. injection H as <-. tauto. }
  exfalso. destruct cols as [|m cols]; [|done].
  cbn [map] in Htot. rewrite month_totals_nil in Htot. injection Htot as <-.
  discriminate Hpeak.
Qed.

Lemma render_phase_view_never_divides_by_zero_witness :
  ValueError = AttributeError \/ ValueError = KeyError \/
  ValueError = TypeError \/ ValueError = ValueError.
Proof.
  apply (render_phase_view_never_divides_by_zero no_edit [] "Year 1" seeded_session).
  vm_compute. reflexivity.
Defined.

(** X13: an empty list of months never gets a summary.  The pass through
    its view either reconciles a changed grid or ends in a fault; with both
    tables in the session, the two name columns in the table, one row of
    deliverables and a grid that comes back as shown, the fault is the
    [ValueError] of [idxmax] on an empty Series. *)
Theorem empty_phase_has_no_summary :
  (forall (data_editor : string -> DataFrame -> DataFrame) (phase_name : string)
          (st st' : session_state) (s : summary),
     render_phase_view data_editor [] phase_name st <> Ok (Done st' s)) /\
  (forall (data_editor : string -> DataFrame -> DataFrame) (phase_name : string)
          (st : session_state) (resource deliv : DataFrame),
     resource_df st = Some resource ->
     deliverables_df st = Some deliv ->
     is_Some (assoc (LStr "Resource") (columns resource)) ->
     is_Some (assoc (LStr "Role") (columns resource)) ->
     length (index deliv) = 1%nat ->
     (forall shown, data_editor ("editor_" +:+ phase_name) shown = shown) ->
     render_phase_view data_editor [] phase_name st = Raise ValueError).
Proof.
  split.
  - intros data_editor phase_name st st' s H.
    apply render_phase_view_Ok in H
      as (resource & df_view & _ & _ & [[_ (patch & _ & [=])]|[_ H]]).
    destruct H as (st'' & totals & peak & _ & Htot & Hpeak & _).
    cbn [map] in Htot. rewrite month_totals_nil in Htot. injection Htot as <-.
    discriminate Hpeak.
  - intros data_editor phase_name st resource deliv Hres Hdeliv Hr Hrole Hrow Hsame.
    unfold render_phase_view, get_resource_df, get_deliverables_df.
    rewrite Hres, Hdeliv, Ok_bind. cbn [map].
    destruct (getitem_total resource ([LStr "Resource"; LStr "Role"] ++ []))
      as [base Hbase].
    { intros c [->|[->|Hc%elem_of_nil]%elem_of_cons]%elem_of_cons; done. }
    unfold display_projection. rewrite Hbase, Ok_bind.
    change (getitem base []) with (Ok (Frame (index base) [])). rewrite Ok_bind.
    rewrite sum_axis1_numeric by constructor. rewrite !Ok_bind.
    unfold equals. rewrite Hsame, bool_decide_eq_true_2 by done. cbn [negb].
    rewrite month_totals_nil, !Ok_bind.
    change (getitem deliv []) with (Ok (Frame (index deliv) [])). rewrite Ok_bind.
    destruct (set_columns_transpose (Frame (index deliv) [])
                (LStr "Deliverable Description") Hrow) as [del_view ->].
    rewrite Ok_bind. destruct (bool_decide (_ = del_view)); cbn [negb]; [done|].
    unfold DataFrame_update. by destruct (can_reindex deliv (transpose _)).
Qed.

Lemma empty_phase_has_no_summary_witness :
  render_phase_view no_edit [] "Year 1" seeded_session = Raise ValueError.
Proof.
  apply (proj2 empty_phase_has_no_summary no_edit "Year 1" seeded_session
           seeded_table seeded_deliverables); try reflexivity; by eexists.
Defined.

(** ** The frame of the table *)

Section TableFrame.

Lemma phase1_in_horizon : phase1_cols ⊆ all_months.
Proof. intros m Hm. rewrite <- phases_partition. apply elem_of_app. by left. Qed.

Lemma phase2_in_horizon : phase2_cols ⊆ all_months.
Proof. intros m Hm. rewrite <- phases_partition. apply elem_of_app. by right. Qed.

Lemma untouched_outside_refl (cols : list string) (df : DataFrame) :
  untouched_outside cols df df.
Proof. by repeat split. Qed.

Lemma untouched_outside_step (cols all : list string) (a b c : DataFrame) :
  cols ⊆ all ->
  untouched_outside all a b -> untouched_outside cols b c ->
  untouched_outside all a c.
Proof.
  intros Hsub (Hi1 & Hl1 & Hc1) (Hi2 & Hl2 & Hc2).
  split; [congruence|]. split; [congruence|].
  intros l Hl. rewrite Hc2, Hc1; [done | done |].
  intros (m & -> & Hm)%list_elem_of_fmap. apply Hl, elem_of_map_LStr. by apply Hsub.
Qed.

(** A pass through the view of some months keeps the rows, the columns and
    the cells outside the months of the horizon, and the shape of the
    table. *)
Lemma render_keeps_frame (data_editor : string -> DataFrame -> DataFrame)
    (cols : list string) (phase_name : string) (st : session_state) (o : outcome)
    (resource : DataFrame) :
  cols ⊆ all_months ->
  resource_df st = Some resource ->
  untouched_outside all_months seeded_table resource ->
  rectangular resource = true ->
  render_phase_view data_editor cols phase_name st = Ok o ->
  exists resource' : DataFrame,
    resource_df (outcome_state o) = Some resource' /\
    untouched_outside all_months seeded_table resource' /\
    rectangular resource' = true.
Proof.
  intros Hsub Hres Hframe Hrect Ho.
  destruct (reconciliation_frame _ _ _ _ _ _ Hres Ho) as (resource' & Ho' & Hstep).
  exists resource'. split; [done|]. split.
  - by eapply untouched_outside_step.
  - destruct (render_phase_view_table _ _ _ _ _ _ Hres Ho) as [E|(patch & _ & E)].
    + congruence.
    + rewrite Ho' in E. injection E as ->. by apply update_rectangular.
Qed.

Lemma reachable_keeps_frame (st : session_state) (df : DataFrame) :
  reachable st -> resource_df st = Some df ->
  untouched_outside all_months seeded_table df /\ rectangular df = true.
Proof.
  intros H. revert df.
  induction H as [|data_editor st r _ _ IH Hrun]; intros df Hdf; [done|].
  pose proof (initialize_resource st) as Hinit.
  assert (H0 : untouched_outside all_months seeded_table
                 (default seeded_table (resource_df st)) /\
               rectangular (default seeded_table (resource_df st)) = true).
  { destruct (resource_df st) as [df0|]; [by apply IH|].
    split; [apply untouched_outside_refl | reflexivity]. }
  set (df0 := default _ _) in *. clearbody df0. destruct H0 as [Hf0 Hr0].
  unfold script in Hrun. inv_bind_as Hrun tab1 Htab1.
  destruct (render_keeps_frame _ phase1_cols _ _ _ _
              phase1_in_horizon Hinit Hf0 Hr0 Htab1)
    as (df1 & H1 & Hf1 & Hr1).
  destruct tab1 as [st1|st1 year1]; cbn [outcome_state] in H1.
  { injection Hrun as <-. cbn [run_state] in Hdf. split; congruence. }
  inv_bind_as Hrun tab2 Htab2.
  destruct (render_keeps_frame _ phase2_cols _ _ _ _
              phase2_in_horizon H1 Hf1 Hr1 Htab2)
    as (df2 & H2 & Hf2 & Hr2).
  destruct tab2 as [st2|st2 year2]; cbn [outcome_state] in H2.
  { injection Hrun as <-. cbn [run_state] in Hdf. split; congruence. }
  inv_bind_as Hrun g Hg. injection Hrun as <-. cbn [run_state] in Hdf.
  split; congruence.
Qed.

End TableFrame.

(** X14: the frame of the allocation table never changes.  In every
    session state the page can reach, whatever the grids return, the table
    has the five rows 0..4 and the columns Resource, Role, Grade and the 25
    months in this order, with one cell per row in each, and the Resource,
    Role and Grade cells are those of the seed: no row or column is ever
    added or removed, and no name, role or grade is ever rewritten. *)
Theorem table_frame_never_changes (st : session_state) (df : DataFrame) :
  reachable st -> resource_df st = Some df ->
  index df = range_index 5 /\
  column_labels df = map LStr (["Resource"; "Role"; "Grade"] ++ all_months) /\
  rectangular df = true /\
  forall c, c ∈ ["Resource"; "Role"; "Grade"] ->
            assoc (LStr c) (columns df) = assoc (LStr c) seed_data.
Proof.
  intros Hreach Hdf.
  destruct (reachable_keeps_frame st df Hreach Hdf) as [(Hidx & Hlab & Hcol) Hrect].
  split; [done|]. split; [by rewrite Hlab|]. split; [done|].
  intros c Hc. rewrite Hcol.
  - repeat (apply elem_of_cons in Hc as [->|Hc]; [reflexivity|]).
    by apply elem_of_nil in Hc.
  - rewrite elem_of_map_LStr. revert c Hc. apply Forall_forall.
    apply (bool_decide_unpack _). vm_compute. exact I.
Qed.

Lemma planned_session_reachable : reachable planned_session.
Proof.
  apply (reachable_run _ analyst_pool_edit empty_session
           (Rerun_requested planned_session)); [done | constructor |].
  vm_compute. reflexivity.
Qed.

Lemma table_frame_never_changes_witness :
  exists df : DataFrame,
    resource_df planned_session = Some df /\
    index df = range_index 5 /\
    column_labels df = map LStr (["Resource"; "Role"; "Grade"] ++ all_months) /\
    rectangular df = true /\
    forall c, c ∈ ["Resource"; "Role"; "Grade"] ->
              assoc (LStr c) (columns df) = assoc (LStr c) seed_data.
Proof.
  eexists. split; [reflexivity|].
  apply (table_frame_never_changes planned_session);
    [exact planned_session_reachable | reflexivity].
Defined.

(** A grid into which numbers are typed is a grid of the kind above. *)
Lemma phase1_edit_grid (typed : DataFrame) :
  Forall (fun col => Forall (fun v : cell => is_text v = false) col.2)
         (columns typed) ->
  grid_editor (phase1_edit typed).
Proof.
  intros Htyped. unfold phase1_edit. split; [|split].
  - intros key shown c (vs & Hvs & Hn). destruct (decide _); [|by exists vs].
    unfold numeric_column. rewrite update_assoc, Hvs. simpl.
    eexists. split; [done|].
    destruct (assoc c (columns typed)) as [that|] eqn:E; [|done].
    apply update_column_numeric; [done|]. apply reindex_column_numeric.
    rewrite Forall_forall in Htyped.
    apply (Htyped (c, that)). by apply assoc_Some_elem.
  - intros key shown. destruct (decide _); [apply update_index | done].
  - intros key shown. destruct (decide _); [apply update_column_labels | done].
Qed.

Lemma analyst_pool_edit_grid : grid_editor analyst_pool_edit.
Proof. apply phase1_edit_grid. by repeat constructor. Qed.

Lemma planned_session_reachable_by_grids : reachable_with grid_editor planned_session.
Proof.
  apply (reachable_run _ analyst_pool_edit empty_session
           (Rerun_requested planned_session));
    [exact analyst_pool_edit_grid | constructor |].
  vm_compute. reflexivity.
Qed.


(** ** A cleared cell *)

Lemma display_projection_loc (resource df_view : DataFrame) (labels : list label)
    (r c : label) :
  display_projection resource labels = Ok df_view ->
  c ∈ labels -> c <> LStr "Phase Total" ->
  loc df_view r c = loc resource r c.
Proof.
  intros (base & view & pt & Hbase & _ & _ & ->)%display_projection_Ok Hc Hne.
  unfold loc, setitem. cbn [columns index].
  rewrite assoc_dict_set_ne by done.
  rewrite (proj1 (getitem_assoc _ _ _ c Hbase ltac:(apply elem_of_app; by right))).
  by rewrite (proj1 (getitem_Ok _ _ _ Hbase)).
Qed.

(** X15: emptying a cell is never taken for "no change" and never changes
    the cell.  When the grid comes back with a month cell missing where the
    table holds a value, the pass does not show the summary: it reconciles,
    asks for a rerun, and the cell still holds the value it had. *)
Theorem cleared_cell_forces_a_rerun
    (data_editor : string -> DataFrame -> DataFrame) (cols : list string)
    (phase_name : string) (st : session_state) (o : outcome)
    (resource df_view : DataFrame) (r : label) (m : string) (v0 : cell) :
  resource_df st = Some resource ->
  rectangular resource = true ->
  display_projection resource (map LStr cols) = Ok df_view ->
  m ∈ cols -> m <> "Phase Total" ->
  loc resource r (LStr m) = Some v0 -> isna v0 = false ->
  loc (data_editor ("editor_" +:+ phase_name) df_view) r (LStr m) = Some VNaN ->
  render_phase_view data_editor cols phase_name st = Ok o ->
  exists resource' : DataFrame,
    o = Rerun (Session (Some resource') (deliverables_df st)) /\
    loc resource' r (LStr m) = Some v0.
Proof.
  intros Hres Hrect Hview Hm Hpt Hloc Hv0 Hna Ho.
  apply render_phase_view_Ok in Ho
    as (resource0 & df_view0 & Hres0 & Hview0 & [[_ (patch & Hp & ->)]|[Heq _]]).
  - assert (resource0 = resource) as -> by congruence.
    assert (df_view0 = df_view) as -> by congruence.
    eexists. split; [done|].
    rewrite (update_loc _ _ _ _ _ Hrect Hloc).
    rewrite (getitem_loc _ _ _ r (LStr m) Hp), Hna; [done|].
    by apply elem_of_map_LStr.
  - exfalso.
    assert (resource0 = resource) as -> by congruence.
    assert (df_view0 = df_view) as -> by congruence.
    cbn zeta in Heq. rewrite Heq in Hna.
    rewrite (display_projection_loc _ _ _ r (LStr m) Hview) in Hna.
    + rewrite Hloc in Hna. injection Hna as ->. discriminate Hv0.
    + by apply elem_of_map_LStr.
    + intros [= ->]. done.
Qed.

Lemma cleared_cell_forces_a_rerun_witness :
  exists resource' : DataFrame,
    cleared_outcome = Rerun (Session (Some resource') (deliverables_df seeded_session)) /\
    loc resource' (LInt 0) (LStr "Jul '25") = Some (VInt 0).
Proof.
  pose (df_view := match display_projection seeded_table (map LStr phase1_cols) with
                   | Ok v => v | Raise _ => seeded_table end).
  apply (cleared_cell_forces_a_rerun cleared_edit phase1_cols "Year 1"
           seeded_session cleared_outcome seeded_table df_view (LInt 0) "Jul '25"
           (VInt 0)); try reflexivity.
  - apply (bool_decide_unpack _). vm_compute. exact I.
  - apply (bool_decide_unpack _). vm_compute. exact I.
Defined.

(** ** The tables that initialisation builds *)

Section InitialLayout.

Lemma dict_set_labels {A : Type} (k : label) (v : A) (d : list (label * A)) :
  map fst (dict_set k v d)
  = if decide (k ∈ map fst d) then map fst d else map fst d ++ [k].
Proof.
  induction d as [|[k' v'] d IH]; [done|]. cbn [dict_set map fst].
  destruct (decide (k = k')) as [->|Hne].
  - cbn [map fst]. rewrite decide_True; [done | left].
  - cbn [map fst]. rewrite IH. destruct (decide (k ∈ map fst d)) as [Hin|Hout].
    + rewrite decide_True; [done | by right].
    + rewrite decide_False; [done|]. by intros [?|?]%elem_of_cons.
Qed.

Lemma dict_set_NoDup {A : Type} (k : label) (v : A) (d : list (label * A)) :
  NoDup (map fst d) -> NoDup (map fst (dict_set k v d)).
Proof.
  intros H. rewrite dict_set_labels. destruct (decide (k ∈ map fst d)); [done|].
  apply NoDup_app. split; [done|]. split; [|apply NoDup_singleton].
  intros x Hx ->%list_elem_of_singleton. done.
Qed.

Lemma resource_data_fold (months : list string) :
  forall data : list (label * list cell),
    let table := fold_left (fun data month => dict_set (LStr month) zeros data)
                           months data in
    (NoDup (map fst data) -> NoDup (map fst table)) /\
    (forall m, m ∈ months -> assoc (LStr m) table = Some zeros) /\
    (forall c, c ∉ map LStr months -> assoc c table = assoc c data) /\
    (NoDup months -> (forall m, m ∈ months -> LStr m ∉ map fst data) ->
     map fst table = map fst data ++ map LStr months).
Proof.
  induction months as [|m months IH]; intros data; cbn [fold_left].
  - repeat split; try done.
    + by intros m ?%elem_of_nil.
    + intros _ _. by rewrite app_nil_r.
  - destruct (IH (dict_set (LStr m) zeros data)) as (IH1 & IH2 & IH3 & IH4).
    cbn zeta in *. repeat split.
    + intros H. by apply IH1, dict_set_NoDup.
    + intros m' Hm'. destruct (decide (m' ∈ months)) as [Hin|Hout]; [by apply IH2|].
      apply elem_of_cons in Hm' as [->|?]; [|done].
      rewrite IH3; [apply assoc_dict_set_eq|]. by rewrite elem_of_map_LStr.
    + intros c Hc. cbn [map] in Hc. apply not_elem_of_cons in Hc as [Hne Hc].
      rewrite IH3 by done. by apply assoc_dict_set_ne.
    + intros [Hm Hnd]%NoDup_cons Hfresh. rewrite IH4.
      * rewrite dict_set_labels, decide_False by (apply Hfresh; left).
        by rewrite <- app_assoc.
      * done.
      * intros m' Hm'. rewrite dict_set_labels, decide_False by (apply Hfresh; left).
        intros [Hin|Hin%list_elem_of_singleton]%elem_of_app.
        -- apply (Hfresh m'); [by right | done].
        -- injection Hin as ->. done.
Qed.

End InitialLayout.

Lemma deliverables_columns (months : list string) :
  let cs := combine (map LStr months)
                    (map (fun v => [v]) (repeat (VStr "") (length months))) in
  map fst cs = map LStr months /\ Forall (fun col => col.2 = [VStr ""]) cs.
Proof.
  induction months as [|m months [IH1 IH2]]; [by split|].
  cbn [length repeat map combine fst]. split; [by rewrite IH1 | by constructor].
Qed.

(** X16: what initialisation builds for a list of month labels.  The
    allocation table has the rows 0..4 and never two columns of the same
    name; every month has a column of five zeros; when the labels are
    pairwise distinct and none is the name of a name column, the columns are
    Resource, Role, Grade and then the months in their order.  The
    deliverables table has the single row "Key Deliverables" and one column
    per month in their order, each holding the empty text. *)
Theorem initial_tables_layout (months : list string) (st : session_state) :
  (resource_df st = None ->
   exists df : DataFrame,
     resource_df (init_resource_df months st) = Some df /\
     index df = range_index 5 /\
     NoDup (column_labels df) /\
     (forall m, m ∈ months -> assoc (LStr m) (columns df) = Some zeros) /\
     (NoDup months ->
      (forall m, m ∈ months -> m ∉ ["Resource"; "Role"; "Grade"]) ->
      column_labels df = map LStr (["Resource"; "Role"; "Grade"] ++ months))) /\
  (deliverables_df st = None ->
   exists d : DataFrame,
     deliverables_df (init_deliverables_df months st) = Some d /\
     index d = [LStr "Key Deliverables"] /\
     column_labels d = map LStr months /\
     forall col, col ∈ columns d -> col.2 = [VStr ""]).
Proof.
  split.
  - intros Hnone. unfold init_resource_df. rewrite Hnone. eexists.
    split; [reflexivity|]. split; [reflexivity|].
    destruct (resource_data_fold months seed_data) as (H1 & H2 & _ & H4).
    cbn zeta in *. unfold column_labels. cbn [columns].
    split; [|split].
    + apply H1. apply (bool_decide_unpack _). vm_compute. exact I.
    + exact H2.
    + intros Hnd Hfresh. unfold resource_data. rewrite map_app. apply H4; [done|].
      intros m Hm Hin. apply (Hfresh m Hm).
      change (map fst seed_data) with (map LStr ["Resource"; "Role"; "Grade"]) in Hin.
      by apply elem_of_map_LStr.
  - intros Hnone. unfold init_deliverables_df. rewrite Hnone. eexists.
    split; [reflexivity|]. split; [reflexivity|].
    destruct (deliverables_columns months) as [H1 H2]. cbn zeta in *.
    split; [exact H1|]. by apply Forall_forall.
Qed.

Lemma initial_tables_layout_witness :
  exists df : DataFrame,
    resource_df (init_resource_df all_months empty_session) = Some df /\
    index df = range_index 5 /\
    NoDup (column_labels df) /\
    (forall m, m ∈ all_months -> assoc (LStr m) (columns df) = Some zeros) /\
    (NoDup all_months ->
     (forall m, m ∈ all_months -> m ∉ ["Resource"; "Role"; "Grade"]) ->
     column_labels df = map LStr (["Resource"; "Role"; "Grade"] ++ all_months)).
Proof.
  apply (proj1 (initial_tables_layout all_months empty_session)). reflexivity.
Defined.

(** ** One edited cell *)

Section SingleEdit.

Lemma zsum_days_insert (vs : list cell) : forall (p : nat) (x y : cell),
  vs !! p = Some x ->
  zsum (map cell_days (<[p := y]> vs))
  = zsum (map cell_days vs) - cell_days x + cell_days y.
Proof.
  induction vs as [|v vs IH]; intros p x y Hp; [done|].
  destruct p as [|p]; cbn in Hp.
  - injection Hp as ->. change (<[0%nat:=y]> (x :: vs)) with (y :: vs).
    unfold zsum. cbn [map fold_right]. lia.
  - change (<[S p:=y]> (v :: vs)) with (v :: <[p:=y]> vs).
    unfold zsum in *. cbn [map fold_right]. rewrite (IH p x y Hp). lia.
Qed.

Lemma loc_lookup (df : DataFrame) (r c : label) (vs : list cell) (q : nat) :
  assoc c (columns df) = Some vs -> NoDup (index df) ->
  index df !! q = Some r -> loc df r c = vs !! q.
Proof.
  intros Hc Hnd Hq. unfold loc. rewrite Hc. cbn.
  by rewrite (index_pos_NoDup _ _ _ Hnd Hq).
Qed.

(** Two columns over the same distinct row labels that agree cell by cell,
    except at one row. *)
Lemma column_after_single_edit (before after : DataFrame) (c r : label)
    (vs vs' : list cell) (p : nat) (y : cell) :
  index after = index before -> NoDup (index before) ->
  assoc c (columns before) = Some vs -> assoc c (columns after) = Some vs' ->
  length vs = length (index before) -> length vs' = length (index before) ->
  index_pos r (index before) = Some p ->
  loc after r c = Some y ->
  (forall r', r' <> r -> loc after r' c = loc before r' c) ->
  vs' = <[p := y]> vs.
Proof.
  intros Hidx Hnd Hvs Hvs' Hlen Hlen' Hp Hy Hrest.
  pose proof (index_pos_lookup _ _ _ Hp) as Hr.
  assert (Hnd' : NoDup (index after)) by by rewrite Hidx.
  apply list_eq. intros q. destruct (decide (q = p)) as [->|Hne].
  - rewrite list_lookup_insert_eq.
    + rewrite <- Hy. symmetry. apply loc_lookup; [done | done | by rewrite Hidx].
    + rewrite Hlen. by eapply lookup_lt_Some.
  - rewrite list_lookup_insert_ne by done.
    destruct (index before !! q) as [r'|] eqn:Eq.
    + assert (r' <> r).
      { intros ->. apply Hne.
        pose proof (index_pos_NoDup _ _ _ Hnd Eq). congruence. }
      rewrite <- (loc_lookup after r' c vs' q), <- (loc_lookup before r' c vs q);
        [by apply Hrest | done.. | by rewrite Hidx].
    + apply lookup_ge_None in Eq.
      rewrite (proj2 (lookup_ge_None vs' q)), (proj2 (lookup_ge_None vs q)); [done|lia..].
Qed.

Lemma column_unchanged (before after : DataFrame) (c : label) (vs vs' : list cell) :
  index after = index before -> NoDup (index before) ->
  assoc c (columns before) = Some vs -> assoc c (columns after) = Some vs' ->
  length vs = length (index before) -> length vs' = length (index before) ->
  (forall r', loc after r' c = loc before r' c) ->
  vs' = vs.
Proof.
  intros Hidx Hnd Hvs Hvs' Hlen Hlen' Hsame.
  apply list_eq. intros q. destruct (index before !! q) as [r'|] eqn:Eq.
  - rewrite <- (loc_lookup after r' c vs' q), <- (loc_lookup before r' c vs q);
      [done | done.. | by rewrite Hidx | by rewrite Hidx].
  - apply lookup_ge_None in Eq.
    rewrite (proj2 (lookup_ge_None vs' q)), (proj2 (lookup_ge_None vs q)); [done|lia..].
Qed.

Lemma update_loc_None (self other : DataFrame) (r c : label) :
  loc self r c = None -> loc (update self other) r c = None.
Proof.
  unfold loc. rewrite update_assoc, update_index.
  destruct (assoc c (columns self)) as [this|]; [|done]. cbn.
  destruct (index_pos r (index self)) as [p|]; [|done]. cbn.
  intros Hp%lookup_ge_None. apply lookup_ge_None.
  destruct (assoc c (columns other)); [by rewrite update_column_length | done].
Qed.

(** The month totals, written out. *)
Lemma month_totals_map (resource : DataFrame) (cols : list string)
    (totals : Series) :
  NoDup (column_labels resource) ->
  month_totals resource (map LStr cols) = Ok totals ->
  totals = map (fun m => (LStr m, wrap64 (column_days resource (LStr m)))) cols.
Proof.
  intros Hnd H. destruct (month_totals_entries _ _ _ Hnd H) as [-> _].
  by rewrite map_map.
Qed.

Lemma zsum_one_more (cols : list string) (T : string -> Z) (m : string) (d : Z) :
  NoDup cols -> m ∈ cols ->
  zsum (map (fun m' => T m' + (if decide (m' = m) then d else 0)) cols)
  = zsum (map T cols) + d.
Proof.
  induction cols as [|m0 cols IH]; [by intros _ ?%elem_of_nil|].
  intros [Hm0 Hnd]%NoDup_cons Hm. unfold zsum in *. cbn [map fold_right].
  destruct (decide (m0 = m)) as [->|Hne].
  - assert (E : map (fun m' => T m' + (if decide (m' = m) then d else 0)) cols
                = map T cols).
    { apply map_ext_in. intros m' Hm'%list_elem_of_In.
      rewrite decide_False; [by rewrite Z.add_0_r|]. by intros ->. }
    rewrite E. lia.
  - apply elem_of_cons in Hm as [->|Hm]; [done|]. rewrite IH by done. lia.
Qed.

Lemma series_sum_one_more (cols : list string) (T : string -> Z) (m : string)
    (d : Z) :
  NoDup cols -> m ∈ cols ->
  series_sum (map (fun m' => (LStr m',
                              wrap64 (T m' + (if decide (m' = m) then d else 0))))
                  cols)
  = wrap64 (series_sum (map (fun m' => (LStr m', wrap64 (T m'))) cols) + d).
Proof.
  intros Hnd Hm. rewrite !series_sum_zsum, !map_map. cbn [snd].
  rewrite <- (map_map (fun m' => T m' + (if decide (m' = m) then d else 0)) wrap64).
  rewrite <- (map_map T wrap64).
  rewrite wrap64_zsum_map, (zsum_one_more _ _ _ _ Hnd Hm).
  by rewrite wrap64_zsum_map, wrap64_add_l.
Qed.

End SingleEdit.



(** ** A grid that differs outside the months *)

(** X19: a grid that differs from what was shown only outside the months of
    the phase (in "Resource", "Role" or "Phase Total") is taken for an edit:
    the pass reconciles and asks for a rerun, and the session it leaves is
    exactly the session it started from. *)
Theorem edit_outside_the_months_changes_nothing
    (data_editor : string -> DataFrame -> DataFrame) (cols : list string)
    (phase_name : string) (resource df_view : DataFrame)
    (deliverables : option DataFrame) :
  rectangular resource = true ->
  NoDup (index resource) ->
  NoDup (column_labels resource) ->
  "Phase Total" ∉ cols ->
  display_projection resource (map LStr cols) = Ok df_view ->
  let edited_df := data_editor ("editor_" +:+ phase_name) df_view in
  edited_df <> df_view ->
  index edited_df = index df_view ->
  (forall m, m ∈ cols ->
     assoc (LStr m) (columns edited_df) = assoc (LStr m) (columns df_view)) ->
  render_phase_view data_editor cols phase_name (Session (Some resource) deliverables)
  = Ok (Rerun (Session (Some resource) deliverables)).
Proof.
  intros Hrect Hnd Hlab Hpt Hview edited_df Hne Hidx Hsame.
  destruct (display_projection_Ok _ _ _ Hview)
    as (base & view & pt & Hbase & Hv & _ & Hdf).
  assert (Hcol : forall m, m ∈ cols ->
            assoc (LStr m) (columns edited_df) = assoc (LStr m) (columns resource) /\
            is_Some (assoc (LStr m) (columns resource))).
  { intros m Hm. rewrite Hsame by done. subst df_view. unfold setitem. cbn [columns].
    rewrite assoc_dict_set_ne by (intros [= ->]; done).
    apply (getitem_assoc _ _ _ (LStr m) Hbase). apply elem_of_app. right.
    by apply elem_of_map_LStr. }
  destruct (getitem_total edited_df (map LStr cols)) as [patch Hpatch].
  { intros c (m & -> & Hm)%list_elem_of_fmap.
    destruct (Hcol m Hm) as [-> ?]. done. }
  assert (Hrows : index patch = index resource).
  { rewrite (proj1 (getitem_Ok _ _ _ Hpatch)), Hidx. subst df_view.
    cbn [setitem index]. apply (getitem_Ok _ _ _ Hbase). }
  rewrite (render_phase_view_reconciles data_editor cols phase_name
             (Session (Some resource) deliverables) resource df_view patch);
    try done; [|by apply can_reindex_same].
  cbn [deliverables_df].
  rewrite (update_agreeing resource patch); [done | done | done | done |].
  intros l vs this Hl Hin.
  destruct (decide (l ∈ map LStr cols)) as [Hc|Hc].
  - rewrite (proj1 (getitem_assoc _ _ _ _ Hpatch Hc)) in Hl.
    apply list_elem_of_fmap in Hc as (m & -> & Hm).
    rewrite (proj1 (Hcol m Hm)), (assoc_NoDup_elem _ _ _ Hlab Hin) in Hl. congruence.
  - by rewrite (getitem_assoc_None _ _ _ _ Hpatch Hc) in Hl.
Qed.

Lemma edit_outside_the_months_changes_nothing_witness :
  render_phase_view phase_total_edit phase1_cols "Year 1"
    (Session (Some seeded_table) (Some seeded_deliverables))
  = Ok (Rerun (Session (Some seeded_table) (Some seeded_deliverables))).
Proof.
  pose (df_view := match display_projection seeded_table (map LStr phase1_cols) with
                   | Ok v => v | Raise _ => seeded_table end).
  apply (edit_outside_the_months_changes_nothing phase_total_edit phase1_cols
           "Year 1" seeded_table df_view (Some seeded_deliverables));
    try reflexivity; try (apply (bool_decide_unpack _); vm_compute; exact I).
  intros m Hm. revert m Hm. apply Forall_forall.
  apply (bool_decide_unpack _). vm_compute. exact I.
Defined.

(** ** The order of the two tabs *)

(** X21: the first grid that differs ends the run.  When the Phase 1 grid
    differs from what it is shown, the run stops at the rerun of the first
    tab with the session that pass leaves, whatever the Phase 2 grid and the
    deliverables grids would return: the months of Phase 2 and the
    deliverables are as they were before the run. *)
Theorem first_edited_grid_wins
    (data_editor data_editor' : string -> DataFrame -> DataFrame)
    (st st' : session_state) :
  render_phase_view data_editor phase1_cols "Year 1" (initialize st)
  = Ok (Rerun st') ->
  (forall shown : DataFrame,
     data_editor' "editor_Year 1" shown = data_editor "editor_Year 1" shown) ->
  script data_editor' st = Ok (Rerun_requested st') /\
  exists resource resource' : DataFrame,
    resource_df (initialize st) = Some resource /\
    resource_df st' = Some resource' /\
    untouched_outside phase1_cols resource resource' /\
    deliverables_df st' = deliverables_df (initialize st).
Proof.
  intros Hrun Hsame.
  pose proof Hrun as (resource & df_view & Hres & Hview & Hcases)%render_phase_view_Ok.
  destruct Hcases as [(Hne & patch & Hpatch & [= ->])
                     |(_ & ? & ? & ? & _ & _ & _ & [=])].
  pose proof (render_phase_view_reindexed data_editor phase1_cols "Year 1"
                (initialize st) _ resource df_view patch Hres Hview Hpatch Hrun)
    as Hre.
  change ("editor_" +:+ "Year 1") with "editor_Year 1" in Hne, Hpatch.
  split.
  - assert (Hne' : data_editor' ("editor_" +:+ "Year 1") df_view <> df_view).
    { change ("editor_" +:+ "Year 1") with "editor_Year 1". by rewrite Hsame. }
    assert (Hpatch' : getitem (data_editor' ("editor_" +:+ "Year 1") df_view)
                        (map LStr phase1_cols) = Ok patch).
    { change ("editor_" +:+ "Year 1") with "editor_Year 1". by rewrite Hsame. }
    unfold script.
    by rewrite (render_phase_view_reconciles data_editor' phase1_cols "Year 1"
                  (initialize st) resource df_view patch Hres Hview Hne' Hpatch' Hre).
  - destruct (reconciliation_frame data_editor phase1_cols "Year 1" (initialize st)
                _ resource Hres Hrun) as (resource' & Hres' & Hout).
    exists resource, resource'. split; [done|]. split; [exact Hres'|].
    split; [exact Hout | reflexivity].
Qed.

Lemma first_edited_grid_wins_witness :
  script both_phases_edit empty_session = Ok (Rerun_requested planned_session) /\
  exists resource resource' : DataFrame,
    resource_df (initialize empty_session) = Some resource /\
    resource_df planned_session = Some resource' /\
    untouched_outside phase1_cols resource resource' /\
    deliverables_df planned_session = deliverables_df (initialize empty_session).
Proof.
  apply (first_edited_grid_wins analyst_pool_edit both_phases_edit empty_session
           planned_session).
  - vm_compute. reflexivity.
  - intros shown. reflexivity.
Defined.

(** X22: the summaries and the footer are shown only when both grids come
    back exactly as they were shown.  In a run that ends with the page, the
    Phase 1 grid and the Phase 2 grid have each returned the projection of
    the stored table they were given; so a grid that never returns what it
    is shown never lets a run reach the page. *)
Theorem page_only_when_grids_are_unchanged
    (data_editor : string -> DataFrame -> DataFrame) (st st' : session_state)
    (year1 year2 : summary) (g : Z) :
  script data_editor st = Ok (Page st' year1 year2 g) ->
  exists resource view1 view2 : DataFrame,
    resource_df (initialize st) = Some resource /\
    display_projection resource (map LStr phase1_cols) = Ok view1 /\
    data_editor "editor_Year 1" view1 = view1 /\
    display_projection resource (map LStr phase2_cols) = Ok view2 /\
    data_editor "editor_Year 2" view2 = view2.
Proof.
  unfold script. intros H.
  inv_bind_as H tab1 Htab1. destruct tab1 as [?|st1 y1]; [done|].
  inv_bind_as H tab2 Htab2. destruct tab2 as [?|st2 y2]; [done|].
  apply render_phase_view_Ok in Htab1
    as (r0 & v1 & Hr0 & Hv1 & [[_ (? & _ & [=])]|[He1 H1]]).
  destruct H1 as (st1' & t1 & ? & Hr1 & _ & _ & [= -> ->]).
  apply render_phase_view_Ok in Htab2
    as (r1 & v2 & Hr1' & Hv2 & [[_ (? & _ & [=])]|[He2 _]]).
  assert (r1 = r0) as -> by congruence.
  exists r0, v1, v2. by repeat split.
Qed.

Lemma page_only_when_grids_are_unchanged_witness :
  exists resource view1 view2 : DataFrame,
    resource_df (initialize planned_session) = Some resource /\
    display_projection resource (map LStr phase1_cols) = Ok view1 /\
    analyst_pool_edit "editor_Year 1" view1 = view1 /\
    display_projection resource (map LStr phase2_cols) = Ok view2 /\
    analyst_pool_edit "editor_Year 2" view2 = view2.
Proof.
  apply (page_only_when_grids_are_unchanged analyst_pool_edit planned_session
           planned_session
           (Summary 15 (LStr "Jul '25") (VInt 10))
           (Summary 0 (LStr "Jul '26") (VInt 0)) 15).
  vm_compute. reflexivity.
Defined.
